(** * FinanceFlow: the offline-first ledger store, its persistence and
      synchronisation paths, the recurring-transaction processor and the
      budget-health classifier, embedded from the TypeScript sources;
      with them the other actions of the store, the budget checks, the
      formatters, the save handlers of two screens, the ordering of the
      dates and the categories in Firestore, and the export filter.

    Conventions of the embedding.
    - A JavaScript [number] holding money is an exact rational ([Q]) in
      the first part of the development, which so speaks of the finite
      numbers, without rounding.  Where NaN, an infinity or the rounding
      of an operation decides what the program does (saving and loading,
      the save handlers of the two screens, the budget-health
      classifier), the operations are embedded again over binary64
      doubles, in [Ieee].
    - A [Date] is its time value: milliseconds since the epoch, in [Z].
      The device time zone is taken to be UTC, so the local-time accessors
      of [Date] coincide with the UTC ones.
    - Strings are [string]; a JS array is a [list]; the AsyncStorage
      key-value store is a [gmap string json].
    - [Date.now()], [new Date()] and [Math.random()] are inputs of the
      operation that reads them.
    - Calls into Firestore and into the notification module are recorded,
      in order, in a log carried by the [World]. *)

From Stdlib Require Import ZArith Lia String Ascii List QArith Bool.
From Stdlib Require Import DecimalString DecimalZ Lqa Qround Sorted Permutation.
From Stdlib Require Import Floats.
From stdpp Require Import base option list gmap strings.
Import ListNotations.

Local Open Scope string_scope.
Local Open Scope list_scope.
Local Open Scope Z_scope.

(* ================================================================== *)
(** ** JavaScript strings *)

Module JsString.

(** [s.includes(sub)]: [sub] occurs in [s] as a contiguous substring. *)
Fixpoint includes (s sub : string) : bool :=
  String.prefix sub s ||
  match s with
  | EmptyString => false
  | String _ s' => includes s' sub
  end.

(** The character [c] does not occur in [s]. *)
Fixpoint free_of (c : ascii) (s : string) : bool :=
  match s with
  | EmptyString => true
  | String c' s' => negb (Ascii.eqb c c') && free_of c s'
  end.

(** A string as a condition: only the empty string is falsy. *)
Definition truthy (s : string) : bool := negb (String.eqb s "").

(** The decimal rendering of an integer inside a template literal. *)
Definition of_Z (z : Z) : string := NilZero.string_of_int (Z.to_int z).

End JsString.

(* ================================================================== *)
(** ** ECMAScript date arithmetic (ECMA-262, "Date Objects"), on UTC *)

Module Calendar.

Definition msPerSecond : Z := 1000.
Definition msPerMinute : Z := 60000.
Definition msPerHour : Z := 3600000.
Definition msPerDay : Z := 86400000.

Definition Day (t : Z) : Z := t / msPerDay.
Definition TimeWithinDay (t : Z) : Z := t mod msPerDay.

Definition DaysInYear (y : Z) : Z :=
  if negb (y mod 4 =? 0) then 365
  else if negb (y mod 100 =? 0) then 366
  else if negb (y mod 400 =? 0) then 365
  else 366.

Definition DayFromYear (y : Z) : Z :=
  365 * (y - 1970) + (y - 1969) / 4 - (y - 1901) / 100 + (y - 1601) / 400.

(** The largest [y] with [DayFromYear y <= d]: an estimate from the mean
    year length, corrected by at most one year. *)
Definition YearFromDay (d : Z) : Z :=
  let y0 := 1970 + (400 * d) / 146097 in
  if d <? DayFromYear y0 then y0 - 1
  else if DayFromYear (y0 + 1) <=? d then y0 + 1
  else y0.

Definition InLeapYear (y : Z) : Z := DaysInYear y - 365.

(** Number of days of the year that precede month [m] (0 = January;
    12 stands for the start of the next year). *)
Definition DaysBeforeMonth (leap m : Z) : Z :=
  if m <=? 0 then 0
  else if m =? 1 then 31
  else if m =? 2 then 59 + leap
  else if m =? 3 then 90 + leap
  else if m =? 4 then 120 + leap
  else if m =? 5 then 151 + leap
  else if m =? 6 then 181 + leap
  else if m =? 7 then 212 + leap
  else if m =? 8 then 243 + leap
  else if m =? 9 then 273 + leap
  else if m =? 10 then 304 + leap
  else if m =? 11 then 334 + leap
  else 365 + leap.

Definition DayWithinYear (d : Z) : Z := d - DayFromYear (YearFromDay d).

Definition MonthFromDay (d : Z) : Z :=
  let leap := InLeapYear (YearFromDay d) in
  let dy := DayWithinYear d in
  if dy <? 31 then 0
  else if dy <? 59 + leap then 1
  else if dy <? 90 + leap then 2
  else if dy <? 120 + leap then 3
  else if dy <? 151 + leap then 4
  else if dy <? 181 + leap then 5
  else if dy <? 212 + leap then 6
  else if dy <? 243 + leap then 7
  else if dy <? 273 + leap then 8
  else if dy <? 304 + leap then 9
  else if dy <? 334 + leap then 10
  else 11.

Definition DateFromDay (d : Z) : Z :=
  DayWithinYear d
  - DaysBeforeMonth (InLeapYear (YearFromDay d)) (MonthFromDay d) + 1.

Definition YearFromTime (t : Z) : Z := YearFromDay (Day t).
Definition MonthFromTime (t : Z) : Z := MonthFromDay (Day t).
Definition DateFromTime (t : Z) : Z := DateFromDay (Day t).

Definition HourFromTime (t : Z) : Z := (t / msPerHour) mod 24.
Definition MinFromTime (t : Z) : Z := (t / msPerMinute) mod 60.
Definition SecFromTime (t : Z) : Z := (t / msPerSecond) mod 60.
Definition msFromTime (t : Z) : Z := t mod msPerSecond.

(** [MakeDay]: months outside 0..11 carry into the year; the day of the
    month is an offset and may be zero or negative. *)
Definition MakeDay (year month date : Z) : Z :=
  let ym := year + month / 12 in
  let mn := month mod 12 in
  DayFromYear ym + DaysBeforeMonth (InLeapYear ym) mn + date - 1.

(** The first day of a month, months counted from year 0 on: month
    [12 * y + m] is month [m] of year [y]; and the month a day is in. *)
Definition MonthStart (k : Z) : Z := MakeDay 0 k 1.
Definition MonthIndex (d : Z) : Z := 12 * YearFromDay d + MonthFromDay d.

Definition MakeTime (hour min sec ms : Z) : Z :=
  hour * msPerHour + min * msPerMinute + sec * msPerSecond + ms.

Definition MakeDate (day time : Z) : Z := day * msPerDay + time.

(** [TimeClip]: the range of time values a [Date] can hold. *)
Definition maxTime : Z := 8640000000000000.
Definition validTime (t : Z) : Prop := - maxTime <= t <= maxTime.
Definition validTimeb (t : Z) : bool := (- maxTime <=? t) && (t <=? maxTime).

(** The [Date.prototype] accessors and setters used by the sources. *)
Definition getFullYear := YearFromTime.
Definition getMonth := MonthFromTime.
Definition getDate := DateFromTime.

Definition setDate (t date : Z) : Z :=
  MakeDate (MakeDay (YearFromTime t) (MonthFromTime t) date) (TimeWithinDay t).

Definition setMonth (t month date : Z) : Z :=
  MakeDate (MakeDay (YearFromTime t) month date) (TimeWithinDay t).

Definition setFullYear (t year month date : Z) : Z :=
  MakeDate (MakeDay year month date) (TimeWithinDay t).

(** [d.setHours(0, 0, 0, 0)] *)
Definition setHours0 (t : Z) : Z := MakeDate (Day t) 0.

End Calendar.

(* ================================================================== *)
(** ** ISO-8601 text of an instant: [Date.prototype.toISOString] and the
       [Date] constructor applied to such a text *)

Module Iso8601.
Import Calendar.

Definition digit (n : Z) : ascii := ascii_of_nat (48 + Z.to_nat n).

Definition digit_value (c : ascii) : option Z :=
  let n := Z.of_nat (nat_of_ascii c) in
  if (48 <=? n) && (n <=? 57) then Some (n - 48) else None.

(** The [w] low-order decimal digits of [n], most significant first. *)
Fixpoint pad (w : nat) (n : Z) : string :=
  match w with
  | O => EmptyString
  | S w' => String (digit ((n / 10 ^ Z.of_nat w') mod 10)) (pad w' n)
  end.

Definition year_text (y : Z) : string :=
  if (0 <=? y) && (y <=? 9999) then pad 4 y
  else if y <? 0 then String "-" (pad 6 (- y))
  else String "+" (pad 6 y).

Definition toISOString (t : Z) : string :=
  year_text (YearFromTime t) +:+ "-" +:+ pad 2 (MonthFromTime t + 1) +:+ "-"
    +:+ pad 2 (DateFromTime t) +:+ "T" +:+ pad 2 (HourFromTime t) +:+ ":"
    +:+ pad 2 (MinFromTime t) +:+ ":" +:+ pad 2 (SecFromTime t) +:+ "."
    +:+ pad 3 (msFromTime t) +:+ "Z".

Fixpoint read_digits (w : nat) (acc : Z) (s : string) : option (Z * string) :=
  match w with
  | O => Some (acc, s)
  | S w' =>
      match s with
      | EmptyString => None
      | String c s' =>
          match digit_value c with
          | Some v => read_digits w' (10 * acc + v) s'
          | None => None
          end
      end
  end.

Definition expect (c : ascii) (s : string) : option string :=
  match s with
  | String c' s' => if Ascii.eqb c c' then Some s' else None
  | EmptyString => None
  end.

Definition read_year (s : string) : option (Z * string) :=
  match s with
  | String "+" s' => read_digits 6 0 s'
  | String "-" s' =>
      '(y, r) ← read_digits 6 0 s';
      if y =? 0 then None else Some (- y, r)
  | _ => read_digits 4 0 s
  end.

(** [new Date(text).getTime()] for a text in the complete date-time form
    with the UTC designator, the form [toISOString] writes: the fields
    must be in the ranges of the format (month 01-12, day 01-31, hour
    00-24, minute and second 00-59), a day past the end of its month
    carries into the next.  [None] is the Invalid Date (and every text
    form not modelled here). *)
Definition Date_parse (s : string) : option Z :=
  '(y, s) ← read_year s;
  s ← expect "-" s;
  '(mo, s) ← read_digits 2 0 s;
  s ← expect "-" s;
  '(d, s) ← read_digits 2 0 s;
  s ← expect "T" s;
  '(h, s) ← read_digits 2 0 s;
  s ← expect ":" s;
  '(mi, s) ← read_digits 2 0 s;
  s ← expect ":" s;
  '(sec, s) ← read_digits 2 0 s;
  s ← expect "." s;
  '(ms, s) ← read_digits 3 0 s;
  s ← expect "Z" s;
  if negb (String.eqb s EmptyString) then None
  else if negb ((1 <=? mo) && (mo <=? 12)) then None
  else if negb ((1 <=? d) && (d <=? 31)) then None
  else if negb ((mi <=? 59) && (sec <=? 59)) then None
  else if negb ((h <=? 23)
                || ((h =? 24) && (mi =? 0) && (sec =? 0) && (ms =? 0)))
  then None
  else
    let t := MakeDate (MakeDay y (mo - 1) d) (MakeTime h mi sec ms) in
    if validTimeb t then Some t else None.

End Iso8601.

(* ================================================================== *)
(** ** date-fns *)

Module DateFns.
Import Calendar.

(** Modelled from the spec: the date-fns functions [addDays], [addWeeks],
    [addMonths] and [addYears] are an external package that is not part
    of the sources; the spec describes them as "+1 day / +1 week /
    +1 calendar month / +1 calendar year".  The definitions follow the
    package's algorithm on [Date] setters: the day of the month is kept
    and clamped to the length of the target month. *)
Definition addDays (date amount : Z) : Z :=
  if amount =? 0 then date else setDate date (getDate date + amount).

(** Modelled from the spec: "+1 week", as date-fns has it, seven days. *)
Definition addWeeks (date amount : Z) : Z := addDays date (amount * 7).

(** Modelled from the spec: "+1 calendar month", as date-fns has it: the
    last day of the target month when the day of the month does not
    exist there. *)
Definition addMonths (date amount : Z) : Z :=
  if amount =? 0 then date
  else
    let dayOfMonth := getDate date in
    let endOfDesiredMonth := setMonth date (getMonth date + amount + 1) 0 in
    let daysInMonth := getDate endOfDesiredMonth in
    if daysInMonth <=? dayOfMonth then endOfDesiredMonth
    else setFullYear date (getFullYear endOfDesiredMonth)
                     (getMonth endOfDesiredMonth) dayOfMonth.

(** Modelled from the spec: "+1 calendar year", as date-fns has it,
    twelve months. *)
Definition addYears (date amount : Z) : Z := addMonths date (amount * 12).

End DateFns.

(* ================================================================== *)
(** ** The data model ([types/index.ts]) *)

Inductive TransactionType := income | expense.

Definition TransactionType_eqb (a b : TransactionType) : bool :=
  match a, b with
  | income, income | expense, expense => true
  | _, _ => false
  end.

Module Transaction.
Record t := mk {
  id : string;
  amount : Q;
  type : TransactionType;
  category : string;
  categoryId : string;
  description : string;
  date : Z;
  receiptImage : option string;
  createdAt : Z;
  updatedAt : Z
}.
End Transaction.

(** [Omit<Transaction, 'id' | 'createdAt' | 'updatedAt'>] *)
Module TransactionData.
Record t := mk {
  amount : Q;
  type : TransactionType;
  category : string;
  categoryId : string;
  description : string;
  date : Z;
  receiptImage : option string
}.
End TransactionData.

Module Category.
Record t := mk {
  id : string;
  name : string;
  icon : string;
  color : string;
  type : TransactionType;
  budgetLimit : option Q
}.
End Category.

Module CategoryBudget.
Record t := mk {
  categoryId : string;
  limit : Q;
  spent : Q
}.
End CategoryBudget.

Module Budget.
Record t := mk {
  id : string;
  month : string;
  totalBudget : Q;
  categoryBudgets : list CategoryBudget.t
}.
End Budget.

(** [Partial<Budget>]: an absent property is [None]. *)
Module PartialBudget.
Record t := mk {
  id : option string;
  month : option string;
  totalBudget : option Q;
  categoryBudgets : option (list CategoryBudget.t)
}.
End PartialBudget.

Module UserSettings.
Record t := mk {
  currency : string;
  darkMode : bool;
  biometricEnabled : bool;
  notifications : bool;
  language : string
}.
End UserSettings.

Inductive RecurringFrequency := daily | weekly | monthly | yearly.

Module RecurringTransaction.
Record t := mk {
  id : string;
  amount : Q;
  type : TransactionType;
  category : string;
  categoryId : string;
  description : string;
  frequency : RecurringFrequency;
  startDate : Z;
  endDate : option Z;
  lastProcessed : option Z;
  isActive : bool;
  createdAt : Z
}.
End RecurringTransaction.

(* ================================================================== *)
(** ** The default categories ([constants/categories.ts]) *)

Module Constants.

Definition DEFAULT_EXPENSE_CATEGORIES : list Category.t :=
  [
    Category.mk "cat_food" "Food & Dining" "🍔" "#FF6B6B" expense None;
    Category.mk "cat_transport" "Transportation" "🚗" "#4ECDC4" expense None;
    Category.mk "cat_shopping" "Shopping" "🛍️" "#95E1D3" expense None;
    Category.mk "cat_entertainment" "Entertainment" "🎬" "#F38181" expense None;
    Category.mk "cat_bills" "Bills & Utilities" "💡" "#AA96DA" expense None;
    Category.mk "cat_health" "Health & Fitness" "💊" "#FCBAD3" expense None;
    Category.mk "cat_education" "Education" "📚" "#A8D8EA" expense None;
    Category.mk "cat_travel" "Travel" "✈️" "#FFD93D" expense None;
    Category.mk "cat_groceries" "Groceries" "🛒" "#6BCF7F" expense None;
    Category.mk "cat_other_expense" "Other" "📦" "#B8B8D1" expense None
  ].

Definition DEFAULT_INCOME_CATEGORIES : list Category.t :=
  [
    Category.mk "cat_salary" "Salary" "💰" "#2ECC71" income None;
    Category.mk "cat_freelance" "Freelance" "💼" "#58D68D" income None;
    Category.mk "cat_investment" "Investment" "📈" "#52BE80" income None;
    Category.mk "cat_gift" "Gift" "🎁" "#7DCEA0" income None;
    Category.mk "cat_other_income" "Other" "💵" "#A9DFBF" income None
  ].

Definition ALL_CATEGORIES : list Category.t :=
  DEFAULT_EXPENSE_CATEGORIES ++ DEFAULT_INCOME_CATEGORIES.

End Constants.

(* ================================================================== *)
(** ** JSON values, and what [JSON.stringify] / [JSON.parse] make of the
       four persisted collections *)

#[local] Unset Elimination Schemes.
Inductive json :=
| JNull
| JBool (b : bool)
| JNumber (q : Q)
| JString (s : string)
| JArray (items : list json)
| JObject (properties : list (string * json)).
#[local] Set Elimination Schemes.

Module Json.
Import Iso8601.

(** Property access on a parsed object: the first binding of the key. *)
Fixpoint get (k : string) (o : list (string * json)) : option json :=
  match o with
  | [] => None
  | (k', v) :: o' => if String.eqb k k' then Some v else get k o'
  end.

Definition as_string (j : json) : option string :=
  match j with JString s => Some s | _ => None end.
Definition as_number (j : json) : option Q :=
  match j with JNumber q => Some q | _ => None end.
Definition as_bool (j : json) : option bool :=
  match j with JBool b => Some b | _ => None end.
Definition as_object (j : json) : option (list (string * json)) :=
  match j with JObject o => Some o | _ => None end.
Definition as_array (j : json) : option (list json) :=
  match j with JArray l => Some l | _ => None end.

(** [new Date(v)] for a property that holds an ISO-8601 text. *)
Definition as_date (j : json) : option Z :=
  s ← as_string j; Date_parse s.

(** An optional property: left out by [JSON.stringify] when undefined. *)
Definition optional {A} (k : string) (enc : A -> json) (v : option A)
  : list (string * json) :=
  match v with Some a => [(k, enc a)] | None => [] end.

Definition get_optional {A} (k : string) (dec : json -> option A)
    (o : list (string * json)) : option (option A) :=
  match get k o with
  | Some j => a ← dec j; Some (Some a)
  | None => Some None
  end.

Definition of_TransactionType (ty : TransactionType) : json :=
  JString (match ty with income => "income" | expense => "expense" end).

Definition to_TransactionType (j : json) : option TransactionType :=
  s ← as_string j;
  if String.eqb s "income" then Some income
  else if String.eqb s "expense" then Some expense
  else None.

(** [JSON.stringify] of a [Transaction]: a [Date] property is written by
    its [toJSON], which is [toISOString].  The amount is a finite number
    here; [Ieee.Json.of_Transaction] also writes the amounts that are
    not. *)
Definition of_Transaction (x : Transaction.t) : json :=
  JObject
    ([ ("amount", JNumber (Transaction.amount x));
       ("type", of_TransactionType (Transaction.type x));
       ("category", JString (Transaction.category x));
       ("categoryId", JString (Transaction.categoryId x));
       ("description", JString (Transaction.description x));
       ("date", JString (toISOString (Transaction.date x))) ]
     ++ optional "receiptImage" JString (Transaction.receiptImage x)
     ++ [ ("id", JString (Transaction.id x));
          ("createdAt", JString (toISOString (Transaction.createdAt x)));
          ("updatedAt", JString (toISOString (Transaction.updatedAt x))) ]).

(** A parsed transaction as it is kept after [loadData]: the object's
    own properties, with [date], [createdAt] and [updatedAt] replaced by
    [new Date(...)] of the stored text.  [None] when the object does not
    have the shape of the [Transaction] interface or a date is invalid. *)
Definition revive_Transaction (j : json) : option Transaction.t :=
  o ← as_object j;
  id ← get "id" o ≫= as_string;
  amount ← get "amount" o ≫= as_number;
  type ← get "type" o ≫= to_TransactionType;
  category ← get "category" o ≫= as_string;
  categoryId ← get "categoryId" o ≫= as_string;
  description ← get "description" o ≫= as_string;
  date ← get "date" o ≫= as_date;
  receiptImage ← get_optional "receiptImage" as_string o;
  createdAt ← get "createdAt" o ≫= as_date;
  updatedAt ← get "updatedAt" o ≫= as_date;
  Some (Transaction.mk id amount type category categoryId description date
          receiptImage createdAt updatedAt).

Definition of_Category (c : Category.t) : json :=
  JObject
    ([ ("id", JString (Category.id c));
       ("name", JString (Category.name c));
       ("icon", JString (Category.icon c));
       ("color", JString (Category.color c));
       ("type", of_TransactionType (Category.type c)) ]
     ++ optional "budgetLimit" JNumber (Category.budgetLimit c)).

Definition to_Category (j : json) : option Category.t :=
  o ← as_object j;
  id ← get "id" o ≫= as_string;
  name ← get "name" o ≫= as_string;
  icon ← get "icon" o ≫= as_string;
  color ← get "color" o ≫= as_string;
  type ← get "type" o ≫= to_TransactionType;
  budgetLimit ← get_optional "budgetLimit" as_number o;
  Some (Category.mk id name icon color type budgetLimit).

Definition of_CategoryBudget (c : CategoryBudget.t) : json :=
  JObject [ ("categoryId", JString (CategoryBudget.categoryId c));
            ("limit", JNumber (CategoryBudget.limit c));
            ("spent", JNumber (CategoryBudget.spent c)) ].

Definition to_CategoryBudget (j : json) : option CategoryBudget.t :=
  o ← as_object j;
  categoryId ← get "categoryId" o ≫= as_string;
  limit ← get "limit" o ≫= as_number;
  spent ← get "spent" o ≫= as_number;
  Some (CategoryBudget.mk categoryId limit spent).

Definition of_Budget (b : Budget.t) : json :=
  JObject [ ("id", JString (Budget.id b));
            ("month", JString (Budget.month b));
            ("totalBudget", JNumber (Budget.totalBudget b));
            ("categoryBudgets",
              JArray (map of_CategoryBudget (Budget.categoryBudgets b))) ].

Definition to_Budget (j : json) : option Budget.t :=
  o ← as_object j;
  id ← get "id" o ≫= as_string;
  month ← get "month" o ≫= as_string;
  totalBudget ← get "totalBudget" o ≫= as_number;
  items ← get "categoryBudgets" o ≫= as_array;
  categoryBudgets ← mapM to_CategoryBudget items;
  Some (Budget.mk id month totalBudget categoryBudgets).

Definition of_UserSettings (s : UserSettings.t) : json :=
  JObject [ ("currency", JString (UserSettings.currency s));
            ("darkMode", JBool (UserSettings.darkMode s));
            ("biometricEnabled", JBool (UserSettings.biometricEnabled s));
            ("notifications", JBool (UserSettings.notifications s));
            ("language", JString (UserSettings.language s)) ].

Definition to_UserSettings (j : json) : option UserSettings.t :=
  o ← as_object j;
  currency ← get "currency" o ≫= as_string;
  darkMode ← get "darkMode" o ≫= as_bool;
  biometricEnabled ← get "biometricEnabled" o ≫= as_bool;
  notifications ← get "notifications" o ≫= as_bool;
  language ← get "language" o ≫= as_string;
  Some (UserSettings.mk currency darkMode biometricEnabled notifications
          language).

Definition of_list {A} (enc : A -> json) (l : list A) : json :=
  JArray (map enc l).

Definition to_list {A} (dec : json -> option A) (j : json) : option (list A) :=
  items ← as_array j; mapM dec items.

End Json.

(* ================================================================== *)
(** ** The store ([store/useStore.ts]) and its collaborators *)

Module Store.

Record AppState := mkAppState {
  transactions : list Transaction.t;
  categories : list Category.t;
  budgets : list Budget.t;
  settings : UserSettings.t;
  userId : option string;
  isOnline : bool;
  isSyncing : bool
}.

(** Calls issued to [services/firestoreService.ts]. *)
Inductive FirestoreCall :=
| syncTransaction (userId : string) (transaction : Transaction.t)
| deleteTransactionFromFirestore (userId : string) (transactionId : string)
| syncCategories (userId : string) (categories : list Category.t)
| syncBudget (userId : string) (budget : Budget.t)
| syncSettings (userId : string) (settings : UserSettings.t).

(** A call of [sendBudgetAlert] in [utils/notifications.ts]. *)
Record BudgetAlert := sendBudgetAlert {
  alert_categoryName : string;
  alert_percentage : Q;
  alert_spent : Q;
  alert_limit : Q;
  alert_currency : string
}.

(** The store together with what it acts on: the AsyncStorage blobs, the
    Firestore calls issued so far and the alerts sent so far (oldest
    first). *)
Record World := mkWorld {
  state : AppState;
  asyncStorage : gmap string json;
  firestore : list FirestoreCall;
  alerts : list BudgetAlert
}.

Definition STORAGE_KEYS_TRANSACTIONS : string := "@finance_tracker_transactions".
Definition STORAGE_KEYS_CATEGORIES : string := "@finance_tracker_categories".
Definition STORAGE_KEYS_BUDGETS : string := "@finance_tracker_budgets".
Definition STORAGE_KEYS_SETTINGS : string := "@finance_tracker_settings".

Definition initialSettings : UserSettings.t :=
  UserSettings.mk "USD" false false true "en".

(** zustand's [set] with an updater of one slice. *)
Definition set_transactions (f : list Transaction.t -> list Transaction.t)
    (w : World) : World :=
  let st := state w in
  mkWorld (mkAppState (f (transactions st)) (categories st) (budgets st)
             (settings st) (userId st) (isOnline st) (isSyncing st))
          (asyncStorage w) (firestore w) (alerts w).

Definition set_budgets (f : list Budget.t -> list Budget.t) (w : World)
  : World :=
  let st := state w in
  mkWorld (mkAppState (transactions st) (categories st) (f (budgets st))
             (settings st) (userId st) (isOnline st) (isSyncing st))
          (asyncStorage w) (firestore w) (alerts w).

Definition set_isSyncing (b : bool) (w : World) : World :=
  let st := state w in
  mkWorld (mkAppState (transactions st) (categories st) (budgets st)
             (settings st) (userId st) (isOnline st) b)
          (asyncStorage w) (firestore w) (alerts w).

Definition set_userId (u : option string) (w : World) : World :=
  let st := state w in
  mkWorld (mkAppState (transactions st) (categories st) (budgets st)
             (settings st) u (isOnline st) (isSyncing st))
          (asyncStorage w) (firestore w) (alerts w).

(** [userId] as the condition of [if (userId)] and [if (!userId)]: [null]
    and the empty string are falsy. *)
Definition signedInUser (w : World) : option string :=
  match userId (state w) with
  | Some uid => if JsString.truthy uid then Some uid else None
  | None => None
  end.

Definition AsyncStorage_setItem (k : string) (v : json) (w : World) : World :=
  mkWorld (state w) (<[k := v]> (asyncStorage w)) (firestore w) (alerts w).

Definition call (c : FirestoreCall) (w : World) : World :=
  mkWorld (state w) (asyncStorage w) (firestore w ++ [c]) (alerts w).

Definition notify (a : BudgetAlert) (w : World) : World :=
  mkWorld (state w) (asyncStorage w) (firestore w) (alerts w ++ [a]).

(** [saveData]: the four blobs are computed from the state read at the
    call and written under their keys.  (A rejected write is logged and
    otherwise ignored by the source; the model follows the writes that
    are accepted.) *)
Definition saveData (w : World) : World :=
  let st := state w in
  AsyncStorage_setItem STORAGE_KEYS_SETTINGS
    (Json.of_UserSettings (settings st))
    (AsyncStorage_setItem STORAGE_KEYS_BUDGETS
       (Json.of_list Json.of_Budget (budgets st))
       (AsyncStorage_setItem STORAGE_KEYS_CATEGORIES
          (Json.of_list Json.of_Category (categories st))
          (AsyncStorage_setItem STORAGE_KEYS_TRANSACTIONS
             (Json.of_list Json.of_Transaction (transactions st)) w))).

Import Constants.

Definition initialState : AppState :=
  mkAppState [] ALL_CATEGORIES [] initialSettings None true false.

(** [loadData]: an absent key gives the default of its collection; the
    transactions get their three dates revived.  [None] when a blob
    does not have the shape of its TypeScript type, which the source
    would keep as it is, untyped. *)
Definition loadData (w : World) : option World :=
  let transactionsData := asyncStorage w !! STORAGE_KEYS_TRANSACTIONS in
  let categoriesData := asyncStorage w !! STORAGE_KEYS_CATEGORIES in
  let budgetsData := asyncStorage w !! STORAGE_KEYS_BUDGETS in
  let settingsData := asyncStorage w !! STORAGE_KEYS_SETTINGS in
  transactionsWithDates ←
    match transactionsData with
    | Some j => Json.to_list Json.revive_Transaction j
    | None => Some []
    end;
  parsedCategories ←
    match categoriesData with
    | Some j => Json.to_list Json.to_Category j
    | None => Some ALL_CATEGORIES
    end;
  parsedBudgets ←
    match budgetsData with
    | Some j => Json.to_list Json.to_Budget j
    | None => Some []
    end;
  parsedSettings ←
    match settingsData with
    | Some j => Json.to_UserSettings j
    | None => Some (settings (state w))
    end;
  Some (mkWorld
          (mkAppState transactionsWithDates parsedCategories parsedBudgets
             parsedSettings (userId (state w)) (isOnline (state w))
             (isSyncing (state w)))
          (asyncStorage w) (firestore w) (alerts w)).

(** What one run of [syncWithFirestore] reads from Firestore: the
    results of [getTransactions], [getCategories], [getBudgets] and
    [getSettings], a rejected fetch standing as [[]] (or [None] for
    the settings), as the [.catch] handlers make it. *)
Record Fetched := mkFetched {
  firestoreTransactions : list Transaction.t;
  firestoreCategories : list Category.t;
  firestoreBudgets : list Budget.t;
  firestoreSettings : option UserSettings.t
}.

Definition isEmpty {A} (l : list A) : bool :=
  match l with [] => true | _ => false end.

Definition syncWithFirestore (remote : Fetched) (w : World) : World :=
  match signedInUser w with
  | None => w
  | Some uid =>
      let w := set_isSyncing true w in
      let localTransactions := transactions (state w) in
      let localCategories := categories (state w) in
      let mergedTransactions :=
        if negb (isEmpty (firestoreTransactions remote))
        then firestoreTransactions remote else localTransactions in
      let mergedCategories :=
        if negb (isEmpty (firestoreCategories remote))
        then firestoreCategories remote else localCategories in
      let w :=
        mkWorld
          (mkAppState mergedTransactions
             (if negb (isEmpty mergedCategories) then mergedCategories
              else ALL_CATEGORIES)
             (firestoreBudgets remote)
             (match firestoreSettings remote with
              | Some s => s
              | None => settings (state w)
              end)
             (userId (state w)) (isOnline (state w)) false)
          (asyncStorage w) (firestore w) (alerts w) in
      let w := saveData w in
      let w :=
        if negb (isEmpty localTransactions)
           && isEmpty (firestoreTransactions remote)
        then fold_left (fun w txn => call (syncTransaction uid txn) w)
               localTransactions w
        else w in
      if negb (isEmpty localCategories)
         && isEmpty (firestoreCategories remote)
      then call (syncCategories uid localCategories) w
      else w
  end.

(** [setUserId], called when the authentication state changes: a user id
    that is set starts the merge; [remote] is what that run fetches. *)
Definition setUserId (userId : option string) (remote : Fetched) (w : World)
  : World :=
  let w := set_userId userId w in
  match signedInUser w with
  | Some _ => syncWithFirestore remote w
  | None => w
  end.

(** The values [addTransaction] reads from its environment: [Date.now()]
    and [Math.random().toString(36).substr(2, 9)] for the id, the two
    [new Date()] of the record, and the [new Date()] of the budget
    check. *)
Record AddEnv := mkAddEnv {
  Date_now : Z;
  random_suffix : string;
  createdAt_now : Z;
  updatedAt_now : Z;
  alert_now : Z
}.

Definition new_id (prefix : string) (now : Z) (suffix : string) : string :=
  prefix +:+ JsString.of_Z now +:+ "_" +:+ suffix.

Definition newTransaction (env : AddEnv) (d : TransactionData.t)
  : Transaction.t :=
  Transaction.mk
    (new_id "txn_" (Date_now env) (random_suffix env))
    (TransactionData.amount d) (TransactionData.type d)
    (TransactionData.category d) (TransactionData.categoryId d)
    (TransactionData.description d) (TransactionData.date d)
    (TransactionData.receiptImage d)
    (createdAt_now env) (updatedAt_now env).

Definition monthStart (now : Z) : Z :=
  Calendar.setHours0 (Calendar.setDate now 1).

Definition Qsum (l : list Q) : Q := fold_left Qplus l 0%Q.

(** The budget check that follows the commit of an expense. *)
Definition checkBudget (env : AddEnv) (txn : Transaction.t) (w : World)
  : World :=
  let st := state w in
  match find (fun cat => String.eqb (Category.id cat)
                           (Transaction.categoryId txn)) (categories st) with
  | None => w
  | Some category =>
      match Category.budgetLimit category with
      | None => w
      | Some budgetLimit =>
          if Qeq_bool budgetLimit 0 then w
          else
            let monthExpenses :=
              List.filter (fun t =>
                        TransactionType_eqb (Transaction.type t) expense
                        && String.eqb (Transaction.categoryId t)
                             (Category.id category)
                        && (monthStart (alert_now env) <=? Transaction.date t))
                     (transactions st) in
            let totalSpent := Qsum (map Transaction.amount monthExpenses) in
            let percentage := (totalSpent / budgetLimit * 100)%Q in
            if Qle_bool 75 percentage
            then notify (sendBudgetAlert (Category.name category) percentage
                           totalSpent budgetLimit
                           (UserSettings.currency (settings st))) w
            else w
      end
  end.

Definition addTransaction (env : AddEnv) (transactionData : TransactionData.t)
    (w : World) : World :=
  let txn := newTransaction env transactionData in
  let w := set_transactions (fun l => txn :: l) w in
  let w := saveData w in
  let w :=
    match signedInUser w with
    | Some uid => call (syncTransaction uid txn) w
    | None => w
    end in
  match Transaction.type txn with
  | expense => checkBudget env txn w
  | income => w
  end.

Definition setBudget (budget : Budget.t) (w : World) : World :=
  let w :=
    set_budgets
      (fun l => (List.filter (fun b => negb (String.eqb (Budget.month b)
                                          (Budget.month budget))) l
                   ++ [budget])%list) w in
  let w := saveData w in
  match signedInUser w with
  | Some uid => call (syncBudget uid budget) w
  | None => w
  end.

(** [{ ...budget, ...updates }] *)
Definition patchBudget (budget : Budget.t) (updates : PartialBudget.t)
  : Budget.t :=
  Budget.mk
    (default (Budget.id budget) (PartialBudget.id updates))
    (default (Budget.month budget) (PartialBudget.month updates))
    (default (Budget.totalBudget budget) (PartialBudget.totalBudget updates))
    (default (Budget.categoryBudgets budget)
       (PartialBudget.categoryBudgets updates)).

Definition updateBudget (id : string) (updates : PartialBudget.t) (w : World)
  : World :=
  let w :=
    set_budgets
      (map (fun budget => if String.eqb (Budget.id budget) id
                          then patchBudget budget updates else budget)) w in
  let w := saveData w in
  match signedInUser w with
  | Some uid =>
      match find (fun b => String.eqb (Budget.id b) id)
              (budgets (state w)) with
      | Some updatedBudget => call (syncBudget uid updatedBudget) w
      | None => w
      end
  | None => w
  end.

(** The callback [subscribeToRealtimeUpdates] hands to
    [subscribeToTransactions], run on one delivered snapshot. *)
Definition onTransactionsSnapshot (snapshot : list Transaction.t) (w : World)
  : World :=
  let w := set_transactions (fun _ => snapshot) w in
  AsyncStorage_setItem STORAGE_KEYS_TRANSACTIONS
    (Json.of_list Json.of_Transaction snapshot) w.

(** No two budgets of the list are for the same month. *)
Definition oneBudgetPerMonth (l : list Budget.t) : Prop :=
  NoDup (map Budget.month l).

(** [subscribeToRealtimeUpdates]: [null] without a user; with one, the
    subscription, which is its callback here. *)
Definition subscribeToRealtimeUpdates (w : World)
  : option (list Transaction.t -> World -> World) :=
  match signedInUser w with
  | None => None
  | Some _ => Some onTransactionsSnapshot
  end.

(** Every instant of the transaction is a time value a [Date] can hold. *)
Definition validDates (x : Transaction.t) : Prop :=
  Calendar.validTime (Transaction.date x)
  /\ Calendar.validTime (Transaction.createdAt x)
  /\ Calendar.validTime (Transaction.updatedAt x).

(** The transaction pushes among the Firestore calls of a log. *)
Definition transactionPushes (log : list FirestoreCall)
  : list (string * Transaction.t) :=
  flat_map (fun c => match c with
                     | syncTransaction uid txn => [(uid, txn)]
                     | _ => []
                     end) log.

(** The drafts returned by the recurring processor, committed one by one
    through [addTransaction]; [env i] is what the [i]-th call reads from
    its environment. *)
Fixpoint commitAll (env : nat -> AddEnv) (i : nat)
    (drafts : list TransactionData.t) (w : World) : World :=
  match drafts with
  | [] => w
  | d :: drafts' => commitAll env (S i) drafts' (addTransaction (env i) d w)
  end.

End Store.

(* ================================================================== *)
(** ** The add-transaction screen ([screens/AddTransactionScreen.tsx]) *)

Module AddTransactionScreen.
Import Store.

(** The component's form state. *)
Record Form := mkForm {
  amount : string;
  type : TransactionType;
  selectedCategoryId : string;
  description : string
}.

Inductive Outcome :=
| Alert_alert (title message : string)
| navigation_goBack.

Section WithParseFloat.

(** The global [parseFloat]; [None] is NaN. *)
Variable parseFloat : string -> option Q.

(** [!amount || parseFloat(amount) <= 0]; NaN compares false. *)
Definition invalidAmount (amount : string) : bool :=
  String.eqb amount ""
  || match parseFloat amount with
     | Some q => Qle_bool q 0
     | None => false
     end.

(** [handleSave].  [date_now] is the [new Date()] of the record.  The
    result is [None] for an amount text that parses to NaN: it passes
    the guard and the source stores it, which the exact numbers do not
    cover; [Ieee.AddTransactionScreen.handleSave] does. *)
Definition handleSave (env : AddEnv) (date_now : Z) (form : Form)
    (w : World) : option (Outcome * World) :=
  if invalidAmount (amount form) then
    Some (Alert_alert "Invalid Amount"
            "Please enter a valid amount greater than 0", w)
  else if String.eqb (selectedCategoryId form) "" then
    Some (Alert_alert "Category Required" "Please select a category", w)
  else
    match find (fun cat => String.eqb (Category.id cat)
                             (selectedCategoryId form))
            (categories (state w)) with
    | None => Some (Alert_alert "Error" "Selected category not found", w)
    | Some category =>
        q ← parseFloat (amount form);
        Some (navigation_goBack,
              addTransaction env
                (TransactionData.mk q (type form) (Category.name category)
                   (selectedCategoryId form)
                   (if String.eqb (description form) ""
                    then Category.name category else description form)
                   date_now None)
                w)
    end.

End WithParseFloat.

End AddTransactionScreen.

(* ================================================================== *)
(** ** Budget health ([utils/budgetAlerts.ts]) *)

Module BudgetAlerts.

Inductive BudgetHealth := good | warning | danger.

(** [getBudgetHealth] in exact arithmetic; on the doubles of the
    program it is [Ieee.BudgetAlerts.getBudgetHealth]. *)
Definition getBudgetHealth (spent limit : Q) : BudgetHealth :=
  let percentage := (spent / limit * 100)%Q in
  if Qle_bool 90 percentage then danger
  else if Qle_bool 75 percentage then warning
  else good.

End BudgetAlerts.

(* ================================================================== *)
(** ** The recurring-transaction processor ([utils/recurringProcessor.ts]) *)

Module RecurringProcessor.
Import DateFns.

Definition getNextDate (date : Z) (frequency : RecurringFrequency) : Z :=
  match frequency with
  | daily => addDays date 1
  | weekly => addWeeks date 1
  | monthly => addMonths date 1
  | yearly => addYears date 1
  end.

(** [`[Auto: ${recurring.description}]`] *)
Definition autoDescription (recurring : RecurringTransaction.t) : string :=
  "[Auto: " +:+ RecurringTransaction.description recurring +:+ "]".

(** The variables the function works on: its two arguments and the
    array it builds.  Every step takes and returns the three, so that a
    write to an argument would show. *)
Record Vars := mkVars {
  recurringTransactions : list RecurringTransaction.t;
  existingTransactions : list Transaction.t;
  newTransactions : list TransactionData.t
}.

Definition push (d : TransactionData.t) (v : Vars) : Vars :=
  mkVars (recurringTransactions v) (existingTransactions v)
    (newTransactions v ++ [d]).

Definition alreadyExists (v : Vars) (recurring : RecurringTransaction.t)
    (nextDate : Z) : bool :=
  existsb
    (fun txn =>
       JsString.includes (Transaction.description txn)
         (autoDescription recurring)
       && (Z.abs (Transaction.date txn - nextDate) <? 24 * 60 * 60 * 1000))
    (existingTransactions v).

(** [while (nextDate <= now) { ... }]; [None] when the fuel runs out
    before the condition fails. *)
Fixpoint while_nextDate (fuel : nat) (now : Z)
    (recurring : RecurringTransaction.t) (nextDate : Z) (v : Vars)
  : option Vars :=
  if nextDate <=? now then
    match fuel with
    | O => None
    | S fuel' =>
        let v :=
          if negb (alreadyExists v recurring nextDate) then
            push (TransactionData.mk
                    (RecurringTransaction.amount recurring)
                    (RecurringTransaction.type recurring)
                    (RecurringTransaction.category recurring)
                    (RecurringTransaction.categoryId recurring)
                    (autoDescription recurring)
                    nextDate None) v
          else v in
        while_nextDate fuel' now recurring
          (getNextDate nextDate (RecurringTransaction.frequency recurring)) v
    end
  else Some v.

(** The callback of [recurringTransactions.forEach]. *)
Definition forEach_callback (fuel : nat) (now : Z)
    (recurring : RecurringTransaction.t) (v : Vars) : option Vars :=
  if negb (RecurringTransaction.isActive recurring) then Some v
  else if match RecurringTransaction.endDate recurring with
          | Some endDate => endDate <? now
          | None => false
          end then Some v
  else
    let lastProcessed :=
      default (RecurringTransaction.startDate recurring)
        (RecurringTransaction.lastProcessed recurring) in
    let nextDate :=
      getNextDate lastProcessed (RecurringTransaction.frequency recurring) in
    while_nextDate fuel now recurring nextDate v.

Fixpoint forEach (fuel : nat) (now : Z) (l : list RecurringTransaction.t)
    (v : Vars) : option Vars :=
  match l with
  | [] => Some v
  | recurring :: l' =>
      v' ← forEach_callback fuel now recurring v; forEach fuel now l' v'
  end.

(** [processRecurringTransactions]; [now] is its [new Date()].  The
    result is the variables at the [return]: the returned array is
    [newTransactions]. *)
Definition processRecurringTransactions (fuel : nat) (now : Z)
    (recurringTransactions : list RecurringTransaction.t)
    (existingTransactions : list Transaction.t) : option Vars :=
  forEach fuel now recurringTransactions
    (mkVars recurringTransactions existingTransactions []).

(** Fuel that is enough for every loop of a call: a step advances the
    cursor by a day at least. *)
Definition fuel_for (now : Z) (l : list RecurringTransaction.t) : nat :=
  Z.to_nat
    (fold_right
       (fun r acc =>
          Z.max acc
            ((now - default (RecurringTransaction.startDate r)
                      (RecurringTransaction.lastProcessed r))
             / Calendar.msPerDay))
       0 l).

(** Every draft of [out] is in [existing], up to the fields the store
    adds: same description, same date. *)
Definition committed (existing : list Transaction.t)
    (out : list TransactionData.t) : Prop :=
  forall d, In d out ->
    exists txn, In txn existing
      /\ Transaction.description txn = TransactionData.description d
      /\ Transaction.date txn = TransactionData.date d.

(** The draft pushed for one cursor value. *)
Definition occurrence (recurring : RecurringTransaction.t) (nextDate : Z)
  : TransactionData.t :=
  TransactionData.mk
    (RecurringTransaction.amount recurring)
    (RecurringTransaction.type recurring)
    (RecurringTransaction.category recurring)
    (RecurringTransaction.categoryId recurring)
    (autoDescription recurring)
    nextDate None.

(** The successive values of the cursor of one loop, up to [now]. *)
Fixpoint cursors (fuel : nat) (now : Z) (frequency : RecurringFrequency)
    (nextDate : Z) : option (list Z) :=
  if nextDate <=? now then
    match fuel with
    | O => None
    | S fuel' =>
        l ← cursors fuel' now frequency (getNextDate nextDate frequency);
        Some (nextDate :: l)
    end
  else Some [].

End RecurringProcessor.

(* ================================================================== *)
(** ** Sample data for the examples *)

Module Samples.
Import Store Constants.

Definition rent : RecurringTransaction.t :=
  RecurringTransaction.mk "rec_1" 1200 expense "Bills & Utilities"
    "cat_bills" "Rent" monthly 1735689600000 None None true 1735689600000.

Definition lunch : Transaction.t :=
  Transaction.mk "txn_1736000000000_k3j2h1g0f" 15 expense "Food & Dining"
    "cat_food" "Lunch" 1736000000000 None 1736000000000 1736000000000.

Definition taxi : Transaction.t :=
  Transaction.mk "txn_1736100000000_a1b2c3d4e" 22.5 expense "Transportation"
    "cat_transport" "Taxi" 1736100000000 (Some "file:///receipt.jpg")
    1736100000000 1736100000500.

Definition salary : Transaction.t :=
  Transaction.mk "txn_1736200000000_zz9yy8xx7" 3000 income "Salary"
    "cat_salary" "January salary" 1736200000000 None 1736200000000
    1736200000000.

Definition remote1 : Transaction.t :=
  Transaction.mk "txn_1735000000001_r1" 10 expense "Shopping" "cat_shopping"
    "Socks" 1735000000001 None 1735000000001 1735000000001.
Definition remote2 : Transaction.t :=
  Transaction.mk "txn_1735000000002_r2" 20 expense "Groceries"
    "cat_groceries" "Milk" 1735000000002 None 1735000000002 1735000000002.
Definition remote3 : Transaction.t :=
  Transaction.mk "txn_1735000000003_r3" 30 expense "Travel" "cat_travel"
    "Bus" 1735000000003 None 1735000000003 1735000000003.
Definition remote4 : Transaction.t :=
  Transaction.mk "txn_1735000000004_r4" 40 income "Gift" "cat_gift"
    "Birthday" 1735000000004 None 1735000000004 1735000000004.
Definition remote5 : Transaction.t :=
  Transaction.mk "txn_1735000000005_r5" 50 expense "Education"
    "cat_education" "Book" 1735000000005 None 1735000000005 1735000000005.

Definition january : Budget.t :=
  Budget.mk "budget_a" "2025-01" 1000
    [CategoryBudget.mk "cat_food" 300 120].
Definition february : Budget.t := Budget.mk "budget_b" "2025-02" 1200 [].

(** A fresh store, signed out. *)
Definition fresh : World := mkWorld initialState ∅ [] [].

(** A store with three local transactions and two budgets, signed in. *)
Definition signedIn : World :=
  mkWorld
    (mkAppState [salary; taxi; lunch] ALL_CATEGORIES [january; february]
       initialSettings (Some "user_1") true false)
    ∅ [] [].

Definition env0 : AddEnv :=
  mkAddEnv 1736300000000 "q7w8e9r0t" 1736300000000 1736300000000
    1736300000001.

(** An environment whose clock reading and random suffix are those of
    the id of [lunch]. *)
Definition envLunch : AddEnv :=
  mkAddEnv 1736000000000 "k3j2h1g0f" 1736000000000 1736000000000
    1736000000000.

Definition refund : TransactionData.t :=
  TransactionData.mk (-5) expense "Food & Dining" "cat_food" "Refund"
    1736300000000 None.

Definition coffee : TransactionData.t :=
  TransactionData.mk 4 expense "Food & Dining" "cat_food" "Coffee"
    1736300000000 None.

(** [parseFloat] on the texts of whole numbers; NaN elsewhere. *)
Definition parseWhole (text : string) : option Q :=
  z ← NilZero.int_of_string text; Some (inject_Z (Z.of_int z)).

End Samples.

(* ================================================================== *)
(** ** The other actions of the store ([store/useStore.ts]) *)

(** [Partial<Transaction>]: an absent property is [None]. *)
Module PartialTransaction.
Record t := mk {
  id : option string;
  amount : option Q;
  type : option TransactionType;
  category : option string;
  categoryId : option string;
  description : option string;
  date : option Z;
  receiptImage : option string;
  createdAt : option Z;
  updatedAt : option Z
}.
End PartialTransaction.

(** [Omit<Category, 'id'>] *)
Module CategoryData.
Record t := mk {
  name : string;
  icon : string;
  color : string;
  type : TransactionType;
  budgetLimit : option Q
}.
End CategoryData.

(** [Partial<Category>] *)
Module PartialCategory.
Record t := mk {
  id : option string;
  name : option string;
  icon : option string;
  color : option string;
  type : option TransactionType;
  budgetLimit : option Q
}.
End PartialCategory.

(** [Partial<UserSettings>] *)
Module PartialUserSettings.
Record t := mk {
  currency : option string;
  darkMode : option bool;
  biometricEnabled : option bool;
  notifications : option bool;
  language : option string
}.
End PartialUserSettings.

Module StoreActions.
Import Store.

Definition set_categories (f : list Category.t -> list Category.t) (w : World)
  : World :=
  let st := state w in
  mkWorld (mkAppState (transactions st) (f (categories st)) (budgets st)
             (settings st) (userId st) (isOnline st) (isSyncing st))
          (asyncStorage w) (firestore w) (alerts w).

Definition set_settings (f : UserSettings.t -> UserSettings.t) (w : World)
  : World :=
  let st := state w in
  mkWorld (mkAppState (transactions st) (categories st) (budgets st)
             (f (settings st)) (userId st) (isOnline st) (isSyncing st))
          (asyncStorage w) (firestore w) (alerts w).

(** [{ ...txn, ...updates, updatedAt: new Date() }] *)
Definition patchTransaction (txn : Transaction.t)
    (updates : PartialTransaction.t) (now : Z) : Transaction.t :=
  Transaction.mk
    (default (Transaction.id txn) (PartialTransaction.id updates))
    (default (Transaction.amount txn) (PartialTransaction.amount updates))
    (default (Transaction.type txn) (PartialTransaction.type updates))
    (default (Transaction.category txn) (PartialTransaction.category updates))
    (default (Transaction.categoryId txn)
       (PartialTransaction.categoryId updates))
    (default (Transaction.description txn)
       (PartialTransaction.description updates))
    (default (Transaction.date txn) (PartialTransaction.date updates))
    (match PartialTransaction.receiptImage updates with
     | Some r => Some r
     | None => Transaction.receiptImage txn
     end)
    (default (Transaction.createdAt txn) (PartialTransaction.createdAt updates))
    now.

(** [transactions.map((txn) => txn.id === id ? { ...txn, ...updates,
    updatedAt: new Date() } : txn)] from the record of index [i] on;
    [now i] is the [new Date()] read at the record of index [i]. *)
Fixpoint patchWhere (now : nat -> Z) (id : string)
    (updates : PartialTransaction.t) (i : nat) (l : list Transaction.t)
  : list Transaction.t :=
  match l with
  | [] => []
  | txn :: l' =>
      (if String.eqb (Transaction.id txn) id
       then patchTransaction txn updates (now i) else txn)
      :: patchWhere now id updates (S i) l'
  end.

(** [updateTransaction]; [now] gives the [new Date()] of each patch. *)
Definition updateTransaction (now : nat -> Z) (id : string)
    (updates : PartialTransaction.t) (w : World) : World :=
  let w := set_transactions (patchWhere now id updates 0) w in
  let w := saveData w in
  match signedInUser w with
  | Some uid =>
      match find (fun t => String.eqb (Transaction.id t) id)
              (transactions (state w)) with
      | Some updatedTransaction =>
          call (syncTransaction uid updatedTransaction) w
      | None => w
      end
  | None => w
  end.

Definition deleteTransaction (id : string) (w : World) : World :=
  let w :=
    set_transactions
      (List.filter (fun txn => negb (String.eqb (Transaction.id txn) id))) w in
  let w := saveData w in
  match signedInUser w with
  | Some uid => call (deleteTransactionFromFirestore uid id) w
  | None => w
  end.

Definition newCategory (now : Z) (suffix : string) (d : CategoryData.t)
  : Category.t :=
  Category.mk (new_id "cat_" now suffix) (CategoryData.name d)
    (CategoryData.icon d) (CategoryData.color d) (CategoryData.type d)
    (CategoryData.budgetLimit d).

(** [addCategory]; [now] and [suffix] are the [Date.now()] and the random
    text of the id. *)
Definition addCategory (now : Z) (suffix : string)
    (categoryData : CategoryData.t) (w : World) : World :=
  let w :=
    set_categories (fun l => l ++ [newCategory now suffix categoryData]) w in
  let w := saveData w in
  match signedInUser w with
  | Some uid => call (syncCategories uid (categories (state w))) w
  | None => w
  end.

(** [{ ...cat, ...updates }] *)
Definition patchCategory (cat : Category.t) (updates : PartialCategory.t)
  : Category.t :=
  Category.mk
    (default (Category.id cat) (PartialCategory.id updates))
    (default (Category.name cat) (PartialCategory.name updates))
    (default (Category.icon cat) (PartialCategory.icon updates))
    (default (Category.color cat) (PartialCategory.color updates))
    (default (Category.type cat) (PartialCategory.type updates))
    (match PartialCategory.budgetLimit updates with
     | Some l => Some l
     | None => Category.budgetLimit cat
     end).

Definition updateCategory (id : string) (updates : PartialCategory.t)
    (w : World) : World :=
  let w :=
    set_categories
      (map (fun cat => if String.eqb (Category.id cat) id
                       then patchCategory cat updates else cat)) w in
  let w := saveData w in
  match signedInUser w with
  | Some uid => call (syncCategories uid (categories (state w))) w
  | None => w
  end.

Definition deleteCategory (id : string) (w : World) : World :=
  let w :=
    set_categories
      (List.filter (fun cat => negb (String.eqb (Category.id cat) id))) w in
  let w := saveData w in
  match signedInUser w with
  | Some uid => call (syncCategories uid (categories (state w))) w
  | None => w
  end.

(** [{ ...state.settings, ...updates }] *)
Definition patchSettings (s : UserSettings.t) (updates : PartialUserSettings.t)
  : UserSettings.t :=
  UserSettings.mk
    (default (UserSettings.currency s) (PartialUserSettings.currency updates))
    (default (UserSettings.darkMode s) (PartialUserSettings.darkMode updates))
    (default (UserSettings.biometricEnabled s)
       (PartialUserSettings.biometricEnabled updates))
    (default (UserSettings.notifications s)
       (PartialUserSettings.notifications updates))
    (default (UserSettings.language s) (PartialUserSettings.language updates)).

Definition updateSettings (updates : PartialUserSettings.t) (w : World)
  : World :=
  let w := set_settings (fun s => patchSettings s updates) w in
  let w := saveData w in
  match signedInUser w with
  | Some uid => call (syncSettings uid (settings (state w))) w
  | None => w
  end.

(** One thing that happens to the store: a call of one of its actions,
    with what the call reads from outside, or the delivery of a snapshot
    by the real-time listener. *)
Inductive Action :=
| AddTransaction (env : AddEnv) (transactionData : TransactionData.t)
| UpdateTransaction (now : nat -> Z) (id : string)
    (updates : PartialTransaction.t)
| DeleteTransaction (id : string)
| AddCategory (now : Z) (suffix : string) (categoryData : CategoryData.t)
| UpdateCategory (id : string) (updates : PartialCategory.t)
| DeleteCategory (id : string)
| SetBudget (budget : Budget.t)
| UpdateBudget (id : string) (updates : PartialBudget.t)
| UpdateSettings (updates : PartialUserSettings.t)
| LoadData
| SaveData
| SetUserId (userId : option string) (remote : Fetched)
| SyncWithFirestore (remote : Fetched)
| TransactionsSnapshot (snapshot : list Transaction.t).

(** The store after the action; [None] only where [loadData] is. *)
Definition perform (a : Action) (w : World) : option World :=
  match a with
  | AddTransaction env d => Some (addTransaction env d w)
  | UpdateTransaction now id updates =>
      Some (updateTransaction now id updates w)
  | DeleteTransaction id => Some (deleteTransaction id w)
  | AddCategory now suffix d => Some (addCategory now suffix d w)
  | UpdateCategory id updates => Some (updateCategory id updates w)
  | DeleteCategory id => Some (deleteCategory id w)
  | SetBudget budget => Some (setBudget budget w)
  | UpdateBudget id updates => Some (updateBudget id updates w)
  | UpdateSettings updates => Some (updateSettings updates w)
  | LoadData => loadData w
  | SaveData => Some (saveData w)
  | SetUserId userId remote => Some (setUserId userId remote w)
  | SyncWithFirestore remote => Some (syncWithFirestore remote w)
  | TransactionsSnapshot snapshot => Some (onTransactionsSnapshot snapshot w)
  end.



(** The local storage is in step with the memory: every instant held is
    a time value, and what [loadData] would read is the store as it
    is. *)
Definition inStep (w : World) : Prop :=
  Forall validDates (transactions (state w)) /\ loadData w = Some w.

(** The user a Firestore call is made for. *)
Definition callUser (c : FirestoreCall) : string :=
  match c with
  | syncTransaction uid _ | deleteTransactionFromFirestore uid _
  | syncCategories uid _ | syncBudget uid _ | syncSettings uid _ => uid
  end.

(** The calls that write a budget or the settings. *)
Definition isBudgetOrSettings (c : FirestoreCall) : bool :=
  match c with syncBudget _ _ | syncSettings _ _ => true | _ => false end.

End StoreActions.

(* ================================================================== *)
(** ** The drafts of the recurring processor *)

Module RecurringDrafts.
Import RecurringProcessor.

(** What holds of a draft: it is an occurrence of a definition of the
    list that is active and not past its end, due after the date the
    definition was last processed (or its start) and not after [now],
    and not covered by an existing transaction. *)
Definition dueOccurrence (now : Z) (l : list RecurringTransaction.t)
    (existing : list Transaction.t) (d : TransactionData.t) : Prop :=
  exists r,
    In r l
    /\ RecurringTransaction.isActive r = true
    /\ (forall e, RecurringTransaction.endDate r = Some e -> now <= e)
    /\ d = occurrence r (TransactionData.date d)
    /\ default (RecurringTransaction.startDate r)
         (RecurringTransaction.lastProcessed r) < TransactionData.date d
    /\ TransactionData.date d <= now
    /\ alreadyExists (mkVars l existing []) r (TransactionData.date d) = false.

End RecurringDrafts.

(* ================================================================== *)
(** ** The [Date] constructor on fields *)

Module JsDate.
Import Calendar.

(** [new Date(year, monthIndex, date)], the local time taken as UTC: a
    year from 0 to 99 stands for 1900 + year, a month outside 0..11 or
    a day outside the month carries over; [None] is the Invalid Date,
    the result being outside the range of time values. *)
Definition new_Date (year month date : Z) : option Z :=
  let yr := if (0 <=? year) && (year <=? 99) then 1900 + year else year in
  let t := MakeDate (MakeDay yr month date) (MakeTime 0 0 0 0) in
  if validTimeb t then Some t else None.

End JsDate.

(* ================================================================== *)
(** ** The budget checks ([utils/budgetAlerts.ts]) *)

Module BudgetChecks.
Import Calendar JsDate Store BudgetAlerts.

(** [totalSpent] of [checkBudgetAlerts]: the expenses of the category
    since the start of the month. *)
Definition totalSpent (monthStart : Z) (transactions : list Transaction.t)
    (category : Category.t) : Q :=
  let monthExpenses :=
    List.filter (fun txn =>
              TransactionType_eqb (Transaction.type txn) expense
              && String.eqb (Transaction.categoryId txn) (Category.id category)
              && (monthStart <=? Transaction.date txn))
           transactions in
  Qsum (map Transaction.amount monthExpenses).

(** [checkBudgetAlerts]; [now] is its [new Date()], the result the calls
    of [sendBudgetAlert] in the order they are made. *)
Definition checkBudgetAlerts (now : Z) (transactions : list Transaction.t)
    (categories : list Category.t) (currency : string) : list BudgetAlert :=
  let monthStart := setHours0 (setDate now 1) in
  flat_map
    (fun category =>
       match Category.budgetLimit category with
       | None => []
       | Some budgetLimit =>
           if Qeq_bool budgetLimit 0 then []
           else
             let totalSpent := totalSpent monthStart transactions category in
             let percentage := (totalSpent / budgetLimit * 100)%Q in
             if Qle_bool 100 percentage then
               [sendBudgetAlert (Category.name category) percentage totalSpent
                  budgetLimit currency]
             else if Qle_bool 90 percentage then
               [sendBudgetAlert (Category.name category) percentage totalSpent
                  budgetLimit currency]
             else if Qle_bool 75 percentage then
               [sendBudgetAlert (Category.name category) percentage totalSpent
                  budgetLimit currency]
             else []
       end)
    categories.

(** [getDaysUntilReset]; [now] is its [new Date()].  [None] is NaN. *)
Definition getDaysUntilReset (now : Z) : option Z :=
  nextMonth ← new_Date (getFullYear now) (getMonth now + 1) 1;
  let diff := nextMonth - now in
  Some (Qceiling (inject_Z diff / inject_Z (1000 * 60 * 60 * 24))).

End BudgetChecks.

(* ================================================================== *)
(** ** Texts and arrays of the language *)

Module JsText.

(** [Number(text)] on a run of decimal digits, with a minus sign or
    without: leading zeros do not count, the empty text is 0.  [None]
    is NaN, and stands for the other numeric texts too (blanks, a plus
    sign, a fraction, an exponent), which are not modelled. *)
Definition Number (text : string) : option Z :=
  if String.eqb text "" then Some 0
  else z ← NilZero.int_of_string text; Some (Z.of_int z).

(** [text.split(separator)] for a separator of one character. *)
Fixpoint split (separator : ascii) (text : string) : list string :=
  match text with
  | EmptyString => [EmptyString]
  | String c text' =>
      if Ascii.eqb c separator then EmptyString :: split separator text'
      else
        match split separator text' with
        | piece :: pieces => String c piece :: pieces
        | [] => [String c EmptyString]
        end
  end.

(** A run of [n] zeros. *)
Definition zeros (n : nat) : string := String.concat "" (repeat "0" n).

(** [text.padStart(targetLength, "0")] *)
Definition padStart0 (targetLength : nat) (text : string) : string :=
  zeros (targetLength - String.length text) +:+ text.

End JsText.

Module JsArray.

(** [Array.prototype.sort] with a comparator, a stable sort: an element
    goes before the first element of the sorted rest that the
    comparator does not put before it ([compareFn x y > 0] puts [y]
    before [x]). *)
Fixpoint sort_insert {A} (compareFn : A -> A -> Q) (x : A) (l : list A)
  : list A :=
  match l with
  | [] => [x]
  | y :: l' =>
      if negb (Qle_bool (compareFn x y) 0)
      then y :: sort_insert compareFn x l'
      else x :: y :: l'
  end.

Fixpoint sort {A} (compareFn : A -> A -> Q) (l : list A) : list A :=
  match l with
  | [] => []
  | x :: l' => sort_insert compareFn x (sort compareFn l')
  end.

(** [array.slice(0, end)] for an integer [end]: a negative [end] counts
    from the end of the array. *)
Definition slice0 {A} (end_ : Z) (l : list A) : list A :=
  let len := Z.of_nat (length l) in
  let final := if end_ <? 0 then Z.max (len + end_) 0 else Z.min end_ len in
  firstn (Z.to_nat final) l.

End JsArray.

(* ================================================================== *)
(** ** date-fns on months *)

Module DateFnsMonth.
Import Calendar JsText.

(** Modelled from the package: date-fns is not part of the sources.
    [addLeadingZeros] of its formatters. *)
Definition addLeadingZeros (number : Z) (targetLength : nat) : string :=
  (if number <? 0 then "-" else "")
  +:+ padStart0 targetLength (JsString.of_Z (Z.abs number)).

(** Modelled from the package: [format(date, 'yyyy-MM')], the year
    written as a year of its era (the year 0 and the years before it
    count from 1 upwards), on four digits or more, the month on two. *)
Definition format_yyyy_MM (date : Z) : string :=
  let signedYear := getFullYear date in
  let year := if 0 <? signedYear then signedYear else 1 - signedYear in
  addLeadingZeros year 4 +:+ "-" +:+ addLeadingZeros (getMonth date + 1) 2.

(** Modelled from the package: [startOfMonth], the first day of the month
    at midnight. *)
Definition startOfMonth (date : Z) : Z := setHours0 (setDate date 1).

(** Modelled from the package: [endOfMonth], the last day of the month
    at 23:59:59.999: day 0 of the next month. *)
Definition endOfMonth (date : Z) : Z :=
  let month := getMonth date in
  let d := setFullYear date (getFullYear date) (month + 1) 0 in
  MakeDate (Day d) (MakeTime 23 59 59 999).

(** Modelled from the package: [isWithinInterval], both ends included.
    The sources call it with the start and the end of one month, an
    interval that is not inverted. *)
Definition isWithinInterval (date start end_ : Z) : bool :=
  (start <=? date) && (date <=? end_).

End DateFnsMonth.

(* ================================================================== *)
(** ** The formatters ([utils/formatters.ts]) *)

Module Formatters.
Import Calendar JsText JsArray JsDate DateFnsMonth Store.

Record MonthlyStats := mkMonthlyStats {
  totalIncome : Q;
  totalExpenses : Q;
  balance : Q;
  transactionCount : nat;
  averageDaily : Q
}.

Definition getCurrentMonthKey (now : Z) : string := format_yyyy_MM now.

Definition getMonthKey (date : Z) : string := format_yyyy_MM date.

(** [monthKey || getCurrentMonthKey()]: a key left out and the empty
    key stand for the current month. *)
Definition targetMonth (now : Z) (monthKey : option string) : string :=
  match monthKey with
  | Some key => if JsString.truthy key then key else getCurrentMonthKey now
  | None => getCurrentMonthKey now
  end.

(** The interval [[monthStart, monthEnd]] that [calculateMonthlyStats]
    and [calculateSpendingByCategory] work out of the key; [None] when
    a piece of the key is not a number or the date is invalid, the
    interval then holding no date. *)
Definition monthInterval (targetMonth : string) : option (Z * Z) :=
  match map Number (split "-" targetMonth) with
  | year :: month :: _ =>
      year ← year;
      month ← month;
      date ← new_Date year (month - 1) 1;
      Some (startOfMonth date, endOfMonth date)
  | _ => None
  end.

(** [calculateMonthlyStats]; [now] is the [new Date()] of the current
    month key.  [None] when the key gives no interval: the source then
    returns zeros and a NaN average. *)
Definition calculateMonthlyStats (now : Z) (transactions : list Transaction.t)
    (monthKey : option string) : option MonthlyStats :=
  '(monthStart, monthEnd) ← monthInterval (targetMonth now monthKey);
  let monthTransactions :=
    List.filter
      (fun txn => isWithinInterval (Transaction.date txn) monthStart monthEnd)
      transactions in
  let totalIncome :=
    Qsum (map Transaction.amount
            (List.filter
               (fun txn => TransactionType_eqb (Transaction.type txn) income)
               monthTransactions)) in
  let totalExpenses :=
    Qsum (map Transaction.amount
            (List.filter
               (fun txn => TransactionType_eqb (Transaction.type txn) expense)
               monthTransactions)) in
  let balance := (totalIncome - totalExpenses)%Q in
  let transactionCount := length monthTransactions in
  let daysInMonth := getDate monthEnd in
  let averageDaily := (totalExpenses / inject_Z daysInMonth)%Q in
  Some (mkMonthlyStats totalIncome totalExpenses balance transactionCount
          averageDaily).

(** [getCurrentMonthTransactions]; [now] is its [new Date()], read
    twice. *)
Definition getCurrentMonthTransactions (now : Z)
    (transactions : list Transaction.t) : list Transaction.t :=
  let monthStart := startOfMonth now in
  let monthEnd := endOfMonth now in
  List.filter
    (fun txn => isWithinInterval (Transaction.date txn) monthStart monthEnd)
    transactions.

(** [getRecentTransactions]; [limit] is [None] when the argument is
    left out. *)
Definition getRecentTransactions (transactions : list Transaction.t)
    (limit : option Z) : list Transaction.t :=
  let limit := default 5 limit in
  slice0 limit
    (sort (fun a b => inject_Z (Transaction.date b)
                      - inject_Z (Transaction.date a))%Q
       transactions).

End Formatters.

Module Spending.
Import Calendar JsText JsDate DateFnsMonth Store Formatters JsArray.

Record SpendingByCategory := mkSpendingByCategory {
  categoryId : string;
  categoryName : string;
  amount : Q;
  percentage : Q;
  color : string
}.

(** The expenses of the month, [monthExpenses] of
    [calculateSpendingByCategory]. *)
Definition monthExpenses (monthStart monthEnd : Z)
    (transactions : list Transaction.t) : list Transaction.t :=
  List.filter
    (fun txn => TransactionType_eqb (Transaction.type txn) expense
                && isWithinInterval (Transaction.date txn) monthStart monthEnd)
    transactions.

(** [calculateSpendingByCategory]; [None] when the key gives no
    interval. *)
Definition calculateSpendingByCategory (now : Z)
    (transactions : list Transaction.t) (categories : list Category.t)
    (monthKey : option string) : option (list SpendingByCategory) :=
  '(monthStart, monthEnd) ← monthInterval (targetMonth now monthKey);
  let monthExpenses := monthExpenses monthStart monthEnd transactions in
  let totalExpenses := Qsum (map Transaction.amount monthExpenses) in
  let categorySpending :=
    sort (fun a b => amount b - amount a)%Q
      (List.filter (fun item => negb (Qle_bool (amount item) 0))
         (map (fun category =>
                 let amount :=
                   Qsum (map Transaction.amount
                           (List.filter
                              (fun txn => String.eqb (Transaction.categoryId txn)
                                            (Category.id category))
                              monthExpenses)) in
                 mkSpendingByCategory (Category.id category)
                   (Category.name category) amount
                   (if negb (Qle_bool totalExpenses 0)
                    then amount / totalExpenses * 100 else 0)%Q
                   (Category.color category))
            (List.filter
               (fun cat => TransactionType_eqb (Category.type cat) expense)
               categories))) in
  Some categorySpending.

End Spending.

(* ================================================================== *)
(** ** The Firestore service ([services/firestoreService.ts]) *)

Module FirestoreDates.
Import Iso8601.

(** [dateToISO] of [syncTransaction], on a [Date]: the text stored in
    the document, and the one [orderBy('date', 'desc')] compares. *)
Definition dateToISO (date : Z) : string := toISOString date.

End FirestoreDates.

Module FirestoreCategories.
Import JsArray.

(** The documents of the [users/<userId>/categories] collections, by
    user id and document id. *)
Definition Docs := gmap (string * string) Category.t.

(** [setDoc(doc(db, getCategoriesPath(userId), id), data)]: the document
    is created or overwritten. *)
Definition setDoc (userId id : string) (data : Category.t) (docs : Docs)
  : Docs :=
  <[(userId, id) := data]> docs.

(** [syncCategories]: one [setDoc] per category of the list. *)
Definition syncCategories (userId : string) (categories : list Category.t)
    (docs : Docs) : Docs :=
  fold_left
    (fun docs category => setDoc userId (Category.id category) category docs)
    categories docs.

(** [getDocs] of a user's collection: its documents, in the order of
    their ids. *)
Definition getDocs (userId : string) (docs : Docs)
  : list (string * Category.t) :=
  sort
    (fun a b => match String.compare (fst a) (fst b) with
                | Lt => -1
                | Eq => 0
                | Gt => 1
                end)%Q
    (omap (fun '((user, id), data) =>
             if String.eqb user userId then Some (id, data) else None)
       (map_to_list docs)).

(** [getCategories]: [{ ...doc.data(), id: doc.id }] of each document. *)
Definition getCategories (userId : string) (docs : Docs) : list Category.t :=
  map (fun '(id, data) =>
         Category.mk id (Category.name data) (Category.icon data)
           (Category.color data) (Category.type data)
           (Category.budgetLimit data))
    (getDocs userId docs).

(** What a call of the store does to the categories collections. *)
Definition run (c : Store.FirestoreCall) (docs : Docs) : Docs :=
  match c with
  | Store.syncCategories userId categories =>
      syncCategories userId categories docs
  | _ => docs
  end.

End FirestoreCategories.

(* ================================================================== *)
(** ** The export filter ([utils/dataExport.ts]) *)

Module DataExport.
Import JsArray.

Inductive ExportFormat := csv | json | html.

(** ['income' | 'expense' | 'all'] *)
Inductive TransactionTypeOrAll := only (type : TransactionType) | all.

(** [ExportOptions]; an optional property left out is [None]. *)
Record ExportOptions := mkExportOptions {
  format : ExportFormat;
  dateRange : option (Z * Z);
  categoryIds : option (list string);
  transactionType : option TransactionTypeOrAll;
  includeMetadata : option bool;
  includeCategories : option bool;
  includeBudgets : option bool;
  includeSavingsGoals : option bool
}.

Definition filterTransactions (transactions : list Transaction.t)
    (options : ExportOptions) : list Transaction.t :=
  let filtered := transactions in
  let filtered :=
    match dateRange options with
    | Some (start, end_) =>
        List.filter
          (fun t => (start <=? Transaction.date t)
                    && (Transaction.date t <=? end_)) filtered
    | None => filtered
    end in
  let filtered :=
    match categoryIds options with
    | Some (id :: ids) =>
        List.filter
          (fun t => existsb (String.eqb (Transaction.categoryId t))
                      (id :: ids)) filtered
    | _ => filtered
    end in
  let filtered :=
    match transactionType options with
    | Some (only type) =>
        List.filter (fun t => TransactionType_eqb (Transaction.type t) type)
          filtered
    | _ => filtered
    end in
  sort (fun a b => inject_Z (Transaction.date b)
                   - inject_Z (Transaction.date a))%Q filtered.

End DataExport.

(* ================================================================== *)
(** * The same operations over IEEE-754 doubles

    Where NaN, an infinity or the rounding of an operation decides what
    the program does, the operation is embedded again with a JavaScript
    [number] as what the engine holds: a binary64 double, [float], with
    the arithmetic and the comparisons of IEEE 754 (round to nearest,
    ties to even; every comparison with NaN false).  A decimal literal
    stands for the double nearest to it, as in the source text. *)

Set Warnings "-inexact-float".

(** The modules of the embedding over exact numbers whose names are
    used again below. *)
Module Exact.
Module Category := Category.
Module Store := Store.
Module AddTransactionScreen := AddTransactionScreen.
Module BudgetAlerts := BudgetAlerts.
End Exact.

Module Ieee.

(** [Number.isFinite] *)
Definition Number_isFinite (x : float) : bool :=
  negb (is_nan x) && negb (is_infinity x).

(** A number as a condition: 0, -0 and NaN are falsy. *)
Definition truthy (x : float) : bool := negb (is_zero x) && negb (is_nan x).

(** [x || 0] *)
Definition or_0 (x : float) : float := if truthy x then x else 0%float.

(** [l.reduce((sum, x) => sum + x, 0)] *)
Definition sum (l : list float) : float := fold_left PrimFloat.add l 0%float.

(** The real number a finite double stands for. *)
Definition exactly (x : float) : option Q :=
  match Prim2SF x with
  | S754_zero _ => Some 0%Q
  | S754_finite s m e =>
      Some (inject_Z (if s then Z.neg m else Z.pos m) * 2 ^ e)%Q
  | S754_infinity _ | S754_nan => None
  end.

(** A double that [JSON.stringify] followed by [JSON.parse] gives back
    as it is: a finite one other than the negative zero. *)
Definition storable (x : float) : Prop :=
  Number_isFinite x = true /\ (is_zero x = true -> x = 0%float).

(* ------------------------------------------------------------------ *)
(** ** The data model ([types/index.ts]) *)

Module Transaction.
Record t := mk {
  id : string;
  amount : float;
  type : TransactionType;
  category : string;
  categoryId : string;
  description : string;
  date : Z;
  receiptImage : option string;
  createdAt : Z;
  updatedAt : Z
}.
End Transaction.

(** [Omit<Transaction, 'id' | 'createdAt' | 'updatedAt'>] *)
Module TransactionData.
Record t := mk {
  amount : float;
  type : TransactionType;
  category : string;
  categoryId : string;
  description : string;
  date : Z;
  receiptImage : option string
}.
End TransactionData.

Module Category.
Record t := mk {
  id : string;
  name : string;
  icon : string;
  color : string;
  type : TransactionType;
  budgetLimit : option float
}.
End Category.

Module CategoryBudget.
Record t := mk {
  categoryId : string;
  limit : float;
  spent : float
}.
End CategoryBudget.

Module Budget.
Record t := mk {
  id : string;
  month : string;
  totalBudget : float;
  categoryBudgets : list CategoryBudget.t
}.
End Budget.

(** The default categories; none of them has a budget limit. *)
Definition ALL_CATEGORIES : list Category.t :=
  map (fun c => Category.mk (Exact.Category.id c)
                  (Exact.Category.name c) (Exact.Category.icon c)
                  (Exact.Category.color c) (Exact.Category.type c)
                  None)
    Constants.ALL_CATEGORIES.

(* ------------------------------------------------------------------ *)
(** ** JSON values whose numbers are doubles *)

#[local] Unset Elimination Schemes.
Inductive json :=
| JNull
| JBool (b : bool)
| JNumber (x : float)
| JString (s : string)
| JArray (items : list json)
| JObject (properties : list (string * json)).
#[local] Set Elimination Schemes.

Module Json.
Import Iso8601.

(** Property access on a parsed object: the first binding of the key. *)
Fixpoint get (k : string) (o : list (string * json)) : option json :=
  match o with
  | [] => None
  | (k', v) :: o' => if String.eqb k k' then Some v else get k o'
  end.

Definition as_string (j : json) : option string :=
  match j with JString s => Some s | _ => None end.
Definition as_number (j : json) : option float :=
  match j with JNumber x => Some x | _ => None end.
Definition as_bool (j : json) : option bool :=
  match j with JBool b => Some b | _ => None end.
Definition as_object (j : json) : option (list (string * json)) :=
  match j with JObject o => Some o | _ => None end.
Definition as_array (j : json) : option (list json) :=
  match j with JArray l => Some l | _ => None end.

(** [new Date(v)] for a property that holds an ISO-8601 text. *)
Definition as_date (j : json) : option Z :=
  s ← as_string j; Date_parse s.

(** An optional property: left out by [JSON.stringify] when undefined. *)
Definition optional {A} (k : string) (enc : A -> json) (v : option A)
  : list (string * json) :=
  match v with Some a => [(k, enc a)] | None => [] end.

Definition get_optional {A} (k : string) (dec : json -> option A)
    (o : list (string * json)) : option (option A) :=
  match get k o with
  | Some j => a ← dec j; Some (Some a)
  | None => Some None
  end.

(** [JSON.stringify] of a number, read back by [JSON.parse]: NaN and
    the infinities are written as [null], the negative zero as [0], and
    every other double as a decimal text that reads back as the same
    double. *)
Definition of_number (x : float) : json :=
  if Number_isFinite x
  then JNumber (if is_zero x then 0%float else x)
  else JNull.

Definition of_TransactionType (ty : TransactionType) : json :=
  JString (match ty with income => "income" | expense => "expense" end).

Definition to_TransactionType (j : json) : option TransactionType :=
  s ← as_string j;
  if String.eqb s "income" then Some income
  else if String.eqb s "expense" then Some expense
  else None.

(** [JSON.stringify] of a [Transaction]: a [Date] property is written by
    its [toJSON], which is [toISOString]. *)
Definition of_Transaction (x : Transaction.t) : json :=
  JObject
    ([ ("amount", of_number (Transaction.amount x));
       ("type", of_TransactionType (Transaction.type x));
       ("category", JString (Transaction.category x));
       ("categoryId", JString (Transaction.categoryId x));
       ("description", JString (Transaction.description x));
       ("date", JString (toISOString (Transaction.date x))) ]
     ++ optional "receiptImage" JString (Transaction.receiptImage x)
     ++ [ ("id", JString (Transaction.id x));
          ("createdAt", JString (toISOString (Transaction.createdAt x)));
          ("updatedAt", JString (toISOString (Transaction.updatedAt x))) ]).

(** A parsed transaction as it is kept after [loadData]: the object's
    own properties, with [date], [createdAt] and [updatedAt] replaced by
    [new Date(...)] of the stored text.  [None] when the object does not
    have the shape of the [Transaction] interface, as when its amount is
    [null], or a date is invalid. *)
Definition revive_Transaction (j : json) : option Transaction.t :=
  o ← as_object j;
  id ← get "id" o ≫= as_string;
  amount ← get "amount" o ≫= as_number;
  type ← get "type" o ≫= to_TransactionType;
  category ← get "category" o ≫= as_string;
  categoryId ← get "categoryId" o ≫= as_string;
  description ← get "description" o ≫= as_string;
  date ← get "date" o ≫= as_date;
  receiptImage ← get_optional "receiptImage" as_string o;
  createdAt ← get "createdAt" o ≫= as_date;
  updatedAt ← get "updatedAt" o ≫= as_date;
  Some (Transaction.mk id amount type category categoryId description date
          receiptImage createdAt updatedAt).

Definition of_Category (c : Category.t) : json :=
  JObject
    ([ ("id", JString (Category.id c));
       ("name", JString (Category.name c));
       ("icon", JString (Category.icon c));
       ("color", JString (Category.color c));
       ("type", of_TransactionType (Category.type c)) ]
     ++ optional "budgetLimit" of_number (Category.budgetLimit c)).

Definition to_Category (j : json) : option Category.t :=
  o ← as_object j;
  id ← get "id" o ≫= as_string;
  name ← get "name" o ≫= as_string;
  icon ← get "icon" o ≫= as_string;
  color ← get "color" o ≫= as_string;
  type ← get "type" o ≫= to_TransactionType;
  budgetLimit ← get_optional "budgetLimit" as_number o;
  Some (Category.mk id name icon color type budgetLimit).

Definition of_CategoryBudget (c : CategoryBudget.t) : json :=
  JObject [ ("categoryId", JString (CategoryBudget.categoryId c));
            ("limit", of_number (CategoryBudget.limit c));
            ("spent", of_number (CategoryBudget.spent c)) ].

Definition to_CategoryBudget (j : json) : option CategoryBudget.t :=
  o ← as_object j;
  categoryId ← get "categoryId" o ≫= as_string;
  limit ← get "limit" o ≫= as_number;
  spent ← get "spent" o ≫= as_number;
  Some (CategoryBudget.mk categoryId limit spent).

Definition of_Budget (b : Budget.t) : json :=
  JObject [ ("id", JString (Budget.id b));
            ("month", JString (Budget.month b));
            ("totalBudget", of_number (Budget.totalBudget b));
            ("categoryBudgets",
              JArray (map of_CategoryBudget (Budget.categoryBudgets b))) ].

Definition to_Budget (j : json) : option Budget.t :=
  o ← as_object j;
  id ← get "id" o ≫= as_string;
  month ← get "month" o ≫= as_string;
  totalBudget ← get "totalBudget" o ≫= as_number;
  items ← get "categoryBudgets" o ≫= as_array;
  categoryBudgets ← mapM to_CategoryBudget items;
  Some (Budget.mk id month totalBudget categoryBudgets).

Definition of_UserSettings (s : UserSettings.t) : json :=
  JObject [ ("currency", JString (UserSettings.currency s));
            ("darkMode", JBool (UserSettings.darkMode s));
            ("biometricEnabled", JBool (UserSettings.biometricEnabled s));
            ("notifications", JBool (UserSettings.notifications s));
            ("language", JString (UserSettings.language s)) ].

Definition to_UserSettings (j : json) : option UserSettings.t :=
  o ← as_object j;
  currency ← get "currency" o ≫= as_string;
  darkMode ← get "darkMode" o ≫= as_bool;
  biometricEnabled ← get "biometricEnabled" o ≫= as_bool;
  notifications ← get "notifications" o ≫= as_bool;
  language ← get "language" o ≫= as_string;
  Some (UserSettings.mk currency darkMode biometricEnabled notifications
          language).

Definition of_list {A} (enc : A -> json) (l : list A) : json :=
  JArray (map enc l).

Definition to_list {A} (dec : json -> option A) (j : json) : option (list A) :=
  items ← as_array j; mapM dec items.

End Json.

(* ------------------------------------------------------------------ *)
(** ** The store ([store/useStore.ts]): saving, loading, adding a
       transaction, setting a budget *)

Module Store.
Import Exact.Store(STORAGE_KEYS_TRANSACTIONS, STORAGE_KEYS_CATEGORIES,
  STORAGE_KEYS_BUDGETS, STORAGE_KEYS_SETTINGS, initialSettings, AddEnv,
  Date_now, random_suffix, createdAt_now, updatedAt_now, alert_now, new_id,
  monthStart).

Record AppState := mkAppState {
  transactions : list Transaction.t;
  categories : list Category.t;
  budgets : list Budget.t;
  settings : UserSettings.t;
  userId : option string;
  isOnline : bool;
  isSyncing : bool
}.

(** The calls the two actions issue to [services/firestoreService.ts]. *)
Inductive FirestoreCall :=
| syncTransaction (userId : string) (transaction : Transaction.t)
| syncBudget (userId : string) (budget : Budget.t).

(** A call of [sendBudgetAlert] in [utils/notifications.ts]. *)
Record BudgetAlert := sendBudgetAlert {
  alert_categoryName : string;
  alert_percentage : float;
  alert_spent : float;
  alert_limit : float;
  alert_currency : string
}.

Record World := mkWorld {
  state : AppState;
  asyncStorage : gmap string json;
  firestore : list FirestoreCall;
  alerts : list BudgetAlert
}.

Definition set_transactions (f : list Transaction.t -> list Transaction.t)
    (w : World) : World :=
  let st := state w in
  mkWorld (mkAppState (f (transactions st)) (categories st) (budgets st)
             (settings st) (userId st) (isOnline st) (isSyncing st))
          (asyncStorage w) (firestore w) (alerts w).

Definition set_budgets (f : list Budget.t -> list Budget.t) (w : World)
  : World :=
  let st := state w in
  mkWorld (mkAppState (transactions st) (categories st) (f (budgets st))
             (settings st) (userId st) (isOnline st) (isSyncing st))
          (asyncStorage w) (firestore w) (alerts w).

Definition signedInUser (w : World) : option string :=
  match userId (state w) with
  | Some uid => if JsString.truthy uid then Some uid else None
  | None => None
  end.

Definition AsyncStorage_setItem (k : string) (v : json) (w : World) : World :=
  mkWorld (state w) (<[k := v]> (asyncStorage w)) (firestore w) (alerts w).

Definition call (c : FirestoreCall) (w : World) : World :=
  mkWorld (state w) (asyncStorage w) (firestore w ++ [c]) (alerts w).

Definition notify (a : BudgetAlert) (w : World) : World :=
  mkWorld (state w) (asyncStorage w) (firestore w) (alerts w ++ [a]).

Definition saveData (w : World) : World :=
  let st := state w in
  AsyncStorage_setItem STORAGE_KEYS_SETTINGS
    (Json.of_UserSettings (settings st))
    (AsyncStorage_setItem STORAGE_KEYS_BUDGETS
       (Json.of_list Json.of_Budget (budgets st))
       (AsyncStorage_setItem STORAGE_KEYS_CATEGORIES
          (Json.of_list Json.of_Category (categories st))
          (AsyncStorage_setItem STORAGE_KEYS_TRANSACTIONS
             (Json.of_list Json.of_Transaction (transactions st)) w))).

Definition initialState : AppState :=
  mkAppState [] ALL_CATEGORIES [] initialSettings None true false.

(** [loadData]; [None] when a blob does not have the shape of its
    TypeScript type, which the source would keep as it is, untyped: a
    transaction whose amount is [null], for one. *)
Definition loadData (w : World) : option World :=
  let transactionsData := asyncStorage w !! STORAGE_KEYS_TRANSACTIONS in
  let categoriesData := asyncStorage w !! STORAGE_KEYS_CATEGORIES in
  let budgetsData := asyncStorage w !! STORAGE_KEYS_BUDGETS in
  let settingsData := asyncStorage w !! STORAGE_KEYS_SETTINGS in
  transactionsWithDates ←
    match transactionsData with
    | Some j => Json.to_list Json.revive_Transaction j
    | None => Some []
    end;
  parsedCategories ←
    match categoriesData with
    | Some j => Json.to_list Json.to_Category j
    | None => Some ALL_CATEGORIES
    end;
  parsedBudgets ←
    match budgetsData with
    | Some j => Json.to_list Json.to_Budget j
    | None => Some []
    end;
  parsedSettings ←
    match settingsData with
    | Some j => Json.to_UserSettings j
    | None => Some (settings (state w))
    end;
  Some (mkWorld
          (mkAppState transactionsWithDates parsedCategories parsedBudgets
             parsedSettings (userId (state w)) (isOnline (state w))
             (isSyncing (state w)))
          (asyncStorage w) (firestore w) (alerts w)).

Definition newTransaction (env : AddEnv) (d : TransactionData.t)
  : Transaction.t :=
  Transaction.mk
    (new_id "txn_" (Date_now env) (random_suffix env))
    (TransactionData.amount d) (TransactionData.type d)
    (TransactionData.category d) (TransactionData.categoryId d)
    (TransactionData.description d) (TransactionData.date d)
    (TransactionData.receiptImage d)
    (createdAt_now env) (updatedAt_now env).

(** The budget check that follows the commit of an expense. *)
Definition checkBudget (env : AddEnv) (txn : Transaction.t) (w : World)
  : World :=
  let st := state w in
  match find (fun cat => String.eqb (Category.id cat)
                           (Transaction.categoryId txn)) (categories st) with
  | None => w
  | Some category =>
      match Category.budgetLimit category with
      | None => w
      | Some budgetLimit =>
          if negb (truthy budgetLimit) then w
          else
            let monthExpenses :=
              List.filter (fun t =>
                        TransactionType_eqb (Transaction.type t) expense
                        && String.eqb (Transaction.categoryId t)
                             (Category.id category)
                        && (monthStart (alert_now env) <=? Transaction.date t))
                     (transactions st) in
            let totalSpent := sum (map Transaction.amount monthExpenses) in
            let percentage := (totalSpent / budgetLimit * 100)%float in
            if (75 <=? percentage)%float
            then notify (sendBudgetAlert (Category.name category) percentage
                           totalSpent budgetLimit
                           (UserSettings.currency (settings st))) w
            else w
      end
  end.

Definition addTransaction (env : AddEnv) (transactionData : TransactionData.t)
    (w : World) : World :=
  let txn := newTransaction env transactionData in
  let w := set_transactions (fun l => txn :: l) w in
  let w := saveData w in
  let w :=
    match signedInUser w with
    | Some uid => call (syncTransaction uid txn) w
    | None => w
    end in
  match Transaction.type txn with
  | expense => checkBudget env txn w
  | income => w
  end.

Definition setBudget (budget : Budget.t) (w : World) : World :=
  let w :=
    set_budgets
      (fun l => (List.filter (fun b => negb (String.eqb (Budget.month b)
                                          (Budget.month budget))) l
                   ++ [budget])%list) w in
  let w := saveData w in
  match signedInUser w with
  | Some uid => call (syncBudget uid budget) w
  | None => w
  end.

(** Every instant of the transaction is a time value a [Date] can hold. *)
Definition validDates (x : Transaction.t) : Prop :=
  Calendar.validTime (Transaction.date x)
  /\ Calendar.validTime (Transaction.createdAt x)
  /\ Calendar.validTime (Transaction.updatedAt x).

(** Every number of the budget is one JSON gives back. *)
Definition storableBudget (b : Budget.t) : Prop :=
  storable (Budget.totalBudget b)
  /\ Forall (fun cb => storable (CategoryBudget.limit cb)
                       /\ storable (CategoryBudget.spent cb))
       (Budget.categoryBudgets b).

(** Every number of the four collections is one JSON gives back. *)
Definition storableNumbers (st : AppState) : Prop :=
  Forall (fun x => storable (Transaction.amount x)) (transactions st)
  /\ Forall (fun c => forall l, Category.budgetLimit c = Some l -> storable l)
       (categories st)
  /\ Forall storableBudget (budgets st).

(** The local storage is in step with the memory: every instant held is
    a time value, every number one JSON gives back, and what [loadData]
    would read is the store as it is. *)
Definition inStep (w : World) : Prop :=
  Forall validDates (transactions (state w))
  /\ storableNumbers (state w)
  /\ loadData w = Some w.

End Store.

(* ------------------------------------------------------------------ *)
(** ** The add-transaction screen ([screens/AddTransactionScreen.tsx]) *)

Module AddTransactionScreen.
Import Store.
Import Exact.AddTransactionScreen(Form, mkForm, amount, type,
  selectedCategoryId, description, Outcome, Alert_alert, navigation_goBack).

(** What the user can do on the screen before saving: type an amount,
    press one of the two type buttons, press a tile of the category
    grid, type a description. *)
Inductive Event :=
| onChangeAmount (text : string)
| onPressExpense
| onPressIncome
| onPressCategory (tile : nat)
| onChangeDescription (text : string).

(** The form as the component is mounted. *)
Definition initialForm : Form := mkForm "" expense "" "".

(** [filteredCategories], the categories the grid shows. *)
Definition filteredCategories (categories : list Category.t)
    (type : TransactionType) : list Category.t :=
  List.filter (fun cat => TransactionType_eqb (Category.type cat) type)
    categories.

(** The handlers of the screen: a type button also clears the selected
    category, a tile selects the category it shows. *)
Definition handle (categories : list Category.t) (form : Form) (e : Event)
  : Form :=
  match e with
  | onChangeAmount text =>
      mkForm text (type form) (selectedCategoryId form) (description form)
  | onPressExpense => mkForm (amount form) expense "" (description form)
  | onPressIncome => mkForm (amount form) income "" (description form)
  | onPressCategory tile =>
      match nth_error (filteredCategories categories (type form)) tile with
      | Some category =>
          mkForm (amount form) (type form) (Category.id category)
            (description form)
      | None => form
      end
  | onChangeDescription text =>
      mkForm (amount form) (type form) (selectedCategoryId form) text
  end.

(** The form after a run of events, the categories of the store being
    the same throughout. *)
Definition formAfter (categories : list Category.t) (events : list Event)
  : Form :=
  fold_left (handle categories) events initialForm.

Section WithParseFloat.

(** The global [parseFloat]; NaN for a text that does not start with a
    number. *)
Variable parseFloat : string -> float.

(** [!amount || parseFloat(amount) <= 0]; NaN compares false. *)
Definition invalidAmount (amount : string) : bool :=
  String.eqb amount "" || (parseFloat amount <=? 0)%float.

(** [handleSave].  [date_now] is the [new Date()] of the record. *)
Definition handleSave (env : Exact.Store.AddEnv) (date_now : Z)
    (form : Form) (w : World) : Outcome * World :=
  if invalidAmount (amount form) then
    (Alert_alert "Invalid Amount"
       "Please enter a valid amount greater than 0", w)
  else if String.eqb (selectedCategoryId form) "" then
    (Alert_alert "Category Required" "Please select a category", w)
  else
    match find (fun cat => String.eqb (Category.id cat)
                             (selectedCategoryId form))
            (categories (state w)) with
    | None => (Alert_alert "Error" "Selected category not found", w)
    | Some category =>
        (navigation_goBack,
         addTransaction env
           (TransactionData.mk (parseFloat (amount form)) (type form)
              (Category.name category) (selectedCategoryId form)
              (if String.eqb (description form) ""
               then Category.name category else description form)
              date_now None)
           w)
    end.

End WithParseFloat.

End AddTransactionScreen.

(* ------------------------------------------------------------------ *)
(** ** The edit-budget screen ([screens/EditBudgetScreen.tsx]) *)

Module EditBudgetScreen.
Import Store Formatters.

(** What [handleSave] ends with: the alert that the category budgets
    exceed the total (its message, which goes through
    [toLocaleString], is not modelled), or the alert of success
    followed by [navigation.goBack()]. *)
Inductive Outcome :=
| Alert_Budget_Exceeded
| Alert_Success_goBack.

Section WithParseFloat.

Variable parseFloat : string -> float.

(** [updateCategoryBudget], on the component's [categoryBudgets]. *)
Definition updateCategoryBudget (categoryId limitStr : string)
    (prev : list CategoryBudget.t) : list CategoryBudget.t :=
  let limit := or_0 (parseFloat limitStr) in
  map (fun cb => if String.eqb (CategoryBudget.categoryId cb) categoryId
                 then CategoryBudget.mk (CategoryBudget.categoryId cb) limit
                        (CategoryBudget.spent cb)
                 else cb) prev.

(** [handleSave].  [render_now] is the [new Date()] of the month key of
    the render, [Date_now] the clock reading of a new id,
    [totalBudget] and [categoryBudgets] the component's state. *)
Definition handleSave (render_now Date_now : Z) (totalBudget : string)
    (categoryBudgets : list CategoryBudget.t) (w : World)
  : Outcome * World :=
  let currentMonth := getCurrentMonthKey render_now in
  let currentBudget :=
    find (fun b => String.eqb (Budget.month b) currentMonth)
      (budgets (state w)) in
  let total := or_0 (parseFloat totalBudget) in
  let categoryTotal := sum (map CategoryBudget.limit categoryBudgets) in
  if (total <? categoryTotal)%float then (Alert_Budget_Exceeded, w)
  else
    let id :=
      match currentBudget with
      | Some b =>
          if JsString.truthy (Budget.id b) then Budget.id b
          else "budget_" +:+ JsString.of_Z Date_now
      | None => "budget_" +:+ JsString.of_Z Date_now
      end in
    (Alert_Success_goBack,
     setBudget (Budget.mk id currentMonth total categoryBudgets) w).

End WithParseFloat.

End EditBudgetScreen.

(* ------------------------------------------------------------------ *)
(** ** Budget health ([utils/budgetAlerts.ts]) *)

Module BudgetAlerts.
Import Exact.BudgetAlerts(BudgetHealth, good, warning, danger).

Definition getBudgetHealth (spent limit : float) : BudgetHealth :=
  let percentage := (spent / limit * 100)%float in
  if (90 <=? percentage)%float then danger
  else if (75 <=? percentage)%float then warning
  else good.

End BudgetAlerts.

(* ------------------------------------------------------------------ *)
(** ** Sample data *)

Module Samples.
Import Store.
Import Exact.Store(initialSettings, AddEnv, mkAddEnv).

(** A stand-in for the global [parseFloat]: the number for a text made
    of digits, with or without a minus sign in front, of a whole number
    of magnitude below 2^53; NaN for every other text, as [parseFloat]
    has it for the empty text and for a text that does not start with a
    number. *)
Definition parseWhole (text : string) : float :=
  match NilZero.int_of_string text with
  | Some (Decimal.Pos Decimal.Nil) | Some (Decimal.Neg Decimal.Nil) | None =>
      nan
  | Some (Decimal.Pos u) => of_uint63 (Uint63.of_Z (Z.of_uint u))
  | Some (Decimal.Neg u) => (- of_uint63 (Uint63.of_Z (Z.of_uint u)))%float
  end.

Definition lunch : Transaction.t :=
  Transaction.mk "txn_1736000000000_k3j2h1g0f" 15 expense "Food & Dining"
    "cat_food" "Lunch" 1736000000000 None 1736000000000 1736000000000.

Definition taxi : Transaction.t :=
  Transaction.mk "txn_1736100000000_a1b2c3d4e" 22.35 expense "Transportation"
    "cat_transport" "Taxi" 1736100000000 (Some "file:///receipt.jpg")
    1736100000000 1736100000500.

Definition january : Budget.t :=
  Budget.mk "budget_a" "2025-01" 1000
    [CategoryBudget.mk "cat_food" 300.5 0].

(** A fresh store, signed out. *)
Definition fresh : World := mkWorld initialState ∅ [] [].

(** A store with two local transactions and a budget, signed in. *)
Definition signedIn : World :=
  mkWorld
    (mkAppState [taxi; lunch]
       (Category.mk "cat_pets" "Pets" "P" "#123456" expense (Some 80.1%float)
        :: ALL_CATEGORIES)
       [january] initialSettings (Some "user_1") true false)
    ∅ [] [].

Definition env0 : AddEnv :=
  mkAddEnv 1736300000000 "q7w8e9r0t" 1736300000000 1736300000000
    1736300000001.

Definition coffee : TransactionData.t :=
  TransactionData.mk 4.2 expense "Food & Dining" "cat_food" "Coffee"
    1736300000000 None.

End Samples.

End Ieee.

(* ================================================================== *)
(** * Properties *)

(** ** The calendar *)

Module CalendarFacts.
Import Calendar.

Ltac div_lia := Z.div_mod_to_equations; lia.

Lemma DayFromYear_succ y : DayFromYear (y + 1) = DayFromYear y + DaysInYear y.
Proof.
  unfold DayFromYear, DaysInYear.
  destruct (Z.eqb_spec (y mod 4) 0), (Z.eqb_spec (y mod 100) 0),
    (Z.eqb_spec (y mod 400) 0); cbn [negb]; div_lia.
Qed.

Lemma DaysInYear_cases y : DaysInYear y = 365 \/ DaysInYear y = 366.
Proof.
  unfold DaysInYear.
  destruct (negb _); [tauto|]. destruct (negb _); [tauto|].
  destruct (negb _); tauto.
Qed.

Lemma YearFromDay_bracket d :
  DayFromYear (YearFromDay d) <= d < DayFromYear (YearFromDay d + 1).
Proof.
  unfold YearFromDay.
  set (y0 := 1970 + 400 * d / 146097).
  assert (H : DayFromYear (y0 - 1) <= d < DayFromYear (y0 + 2))
    by (unfold DayFromYear, y0; div_lia).
  destruct (Z.ltb_spec d (DayFromYear y0)).
  - replace (y0 - 1 + 1) with y0 by lia. lia.
  - destruct (Z.leb_spec (DayFromYear (y0 + 1)) d).
    + replace (y0 + 1 + 1) with (y0 + 2) by lia. lia.
    + lia.
Qed.

Lemma YearFromDay_estimate d :
  1969 + 400 * d / 146097 <= YearFromDay d <= 1971 + 400 * d / 146097.
Proof.
  unfold YearFromDay.
  destruct (_ <? _); [lia|]. destruct (_ <=? _); lia.
Qed.

Lemma DayWithinYear_range d :
  0 <= DayWithinYear d < 365 + InLeapYear (YearFromDay d).
Proof.
  unfold DayWithinYear, InLeapYear.
  pose proof (YearFromDay_bracket d) as H.
  rewrite DayFromYear_succ in H. lia.
Qed.

Lemma InLeapYear_cases y : InLeapYear y = 0 \/ InLeapYear y = 1.
Proof. unfold InLeapYear. destruct (DaysInYear_cases y); lia. Qed.

Lemma MakeDay_MonthStart y m date :
  MakeDay y m date = MonthStart (12 * y + m) + date - 1.
Proof.
  unfold MonthStart, MakeDay.
  replace (0 + (12 * y + m) / 12) with (y + m / 12) by div_lia.
  replace ((12 * y + m) mod 12) with (m mod 12) by div_lia.
  lia.
Qed.

Lemma MonthStart_in_year y m :
  0 <= m <= 11 ->
  MonthStart (12 * y + m) = DayFromYear y + DaysBeforeMonth (InLeapYear y) m.
Proof.
  intros Hm. unfold MonthStart, MakeDay.
  replace (0 + (12 * y + m) / 12) with y by div_lia.
  replace ((12 * y + m) mod 12) with m by div_lia.
  lia.
Qed.

Lemma MonthFromDay_range d : 0 <= MonthFromDay d <= 11.
Proof.
  unfold MonthFromDay.
  repeat (destruct (_ <? _); [lia|]). lia.
Qed.

Lemma MonthFromDay_bracket d :
  let leap := InLeapYear (YearFromDay d) in
  DaysBeforeMonth leap (MonthFromDay d) <= DayWithinYear d
    < DaysBeforeMonth leap (MonthFromDay d + 1).
Proof.
  intros leap.
  pose proof (DayWithinYear_range d) as Hr. fold leap in Hr.
  unfold MonthFromDay. fold leap.
  repeat (match goal with
          | |- context [DayWithinYear d <? ?b] =>
              destruct (Z.ltb_spec (DayWithinYear d) b);
              [unfold DaysBeforeMonth; simpl; lia|]
          end).
  unfold DaysBeforeMonth; simpl; lia.
Qed.

Lemma MonthStart_step k :
  MonthStart k + 28 <= MonthStart (k + 1) <= MonthStart k + 31.
Proof.
  assert (Hk : k = 12 * (k / 12) + k mod 12) by div_lia.
  set (y := k / 12) in *. set (m := k mod 12) in *.
  assert (Hm : 0 <= m <= 11) by (unfold m; div_lia).
  rewrite Hk.
  rewrite (MonthStart_in_year y m Hm).
  assert (Hd : DaysInYear y = 365 + InLeapYear y)
    by (unfold InLeapYear; lia).
  destruct (Z.eq_dec m 11) as [->|Hne].
  - replace (12 * y + 11 + 1) with (12 * (y + 1) + 0) by lia.
    rewrite MonthStart_in_year by lia.
    rewrite DayFromYear_succ, Hd.
    destruct (InLeapYear_cases y) as [-> | ->];
      unfold DaysBeforeMonth; simpl; lia.
  - replace (12 * y + m + 1) with (12 * y + (m + 1)) by lia.
    rewrite MonthStart_in_year by lia.
    assert (m = 0 \/ m = 1 \/ m = 2 \/ m = 3 \/ m = 4 \/ m = 5 \/ m = 6
            \/ m = 7 \/ m = 8 \/ m = 9 \/ m = 10) as Hc by lia.
    destruct (InLeapYear_cases y) as [-> | ->];
      repeat (destruct Hc as [-> | Hc];
              [unfold DaysBeforeMonth; simpl; lia|]);
      rewrite Hc; unfold DaysBeforeMonth; simpl; lia.
Qed.

Lemma MonthIndex_bracket d :
  MonthStart (MonthIndex d) <= d < MonthStart (MonthIndex d + 1).
Proof.
  pose proof (MonthFromDay_range d) as Hm.
  pose proof (MonthFromDay_bracket d) as Hb. cbv zeta in Hb.
  pose proof (YearFromDay_bracket d) as Hy.
  unfold MonthIndex, DayWithinYear in *.
  rewrite MonthStart_in_year by lia.
  destruct (Z.eq_dec (MonthFromDay d) 11) as [E|E].
  - rewrite E in *.
    replace (12 * YearFromDay d + 11 + 1)
      with (12 * (YearFromDay d + 1) + 0) by lia.
    rewrite MonthStart_in_year by lia.
    change (DaysBeforeMonth (InLeapYear (YearFromDay d + 1)) 0) with 0.
    rewrite DayFromYear_succ.
    change (DaysBeforeMonth (InLeapYear (YearFromDay d)) (11 + 1))
      with (365 + InLeapYear (YearFromDay d)) in Hb.
    unfold InLeapYear in *. lia.
  - replace (12 * YearFromDay d + MonthFromDay d + 1)
      with (12 * YearFromDay d + (MonthFromDay d + 1)) by lia.
    rewrite MonthStart_in_year by lia. lia.
Qed.

Lemma MonthStart_mono k n : 0 <= n -> MonthStart k + 28 * n <= MonthStart (k + n).
Proof.
  intros Hn. revert n Hn.
  apply natlike_ind.
  - replace (k + 0) with k by lia. lia.
  - intros n Hn IH.
    replace (k + Z.succ n) with (k + n + 1) by lia.
    pose proof (MonthStart_step (k + n)). lia.
Qed.

Lemma MonthIndex_unique d k :
  MonthStart k <= d < MonthStart (k + 1) -> MonthIndex d = k.
Proof.
  intros H. pose proof (MonthIndex_bracket d) as Hb.
  destruct (Z.lt_trichotomy (MonthIndex d) k) as [Hlt | [Heq | Hgt]]; [|exact Heq|].
  - pose proof (MonthStart_mono (MonthIndex d + 1) (k - (MonthIndex d + 1))
                  ltac:(lia)) as Hm.
    replace (MonthIndex d + 1 + (k - (MonthIndex d + 1))) with k in Hm by lia.
    lia.
  - pose proof (MonthStart_mono (k + 1) (MonthIndex d - (k + 1))
                  ltac:(lia)) as Hm.
    replace (k + 1 + (MonthIndex d - (k + 1))) with (MonthIndex d) in Hm by lia.
    lia.
Qed.

Lemma DateFromDay_MonthStart d :
  DateFromDay d = d - MonthStart (MonthIndex d) + 1.
Proof.
  pose proof (MonthFromDay_range d).
  unfold MonthIndex. rewrite MonthStart_in_year by lia.
  unfold DateFromDay, DayWithinYear. lia.
Qed.

Lemma DateFromDay_range d :
  1 <= DateFromDay d
    <= MonthStart (MonthIndex d + 1) - MonthStart (MonthIndex d).
Proof.
  rewrite DateFromDay_MonthStart.
  pose proof (MonthIndex_bracket d). lia.
Qed.

Lemma MakeDay_of_day d month date :
  MakeDay (YearFromDay d) month date
  = MonthStart (MonthIndex d - MonthFromDay d + month) + date - 1.
Proof. rewrite MakeDay_MonthStart. unfold MonthIndex. f_equal. f_equal. f_equal. lia. Qed.

Lemma TimeWithinDay_range t : 0 <= TimeWithinDay t < msPerDay.
Proof. unfold TimeWithinDay, msPerDay. div_lia. Qed.

Lemma Day_MakeDate d tw : 0 <= tw < msPerDay -> Day (MakeDate d tw) = d.
Proof. unfold Day, MakeDate, msPerDay. intros. div_lia. Qed.

Lemma TimeWithinDay_MakeDate d tw :
  0 <= tw < msPerDay -> TimeWithinDay (MakeDate d tw) = tw.
Proof. unfold TimeWithinDay, MakeDate, msPerDay. intros. div_lia. Qed.

Lemma MakeDate_Day t : MakeDate (Day t) (TimeWithinDay t) = t.
Proof. unfold TimeWithinDay, MakeDate, Day, msPerDay. div_lia. Qed.

Lemma setDate_getDate t n : setDate t (getDate t + n) = t + n * msPerDay.
Proof.
  unfold setDate, getDate, DateFromTime, YearFromTime, MonthFromTime.
  rewrite MakeDay_of_day, DateFromDay_MonthStart.
  replace (MonthIndex (Day t) - MonthFromDay (Day t) + MonthFromDay (Day t))
    with (MonthIndex (Day t)) by lia.
  pose proof (MakeDate_Day t). unfold MakeDate in *. lia.
Qed.

End CalendarFacts.

(** ** The calendar on known dates *)

Section CalendarExamples.
Import Calendar Iso8601 DateFns.

Example toISOString_2025_01_01 :
  toISOString 1735689600000 = "2025-01-01T00:00:00.000Z".
Proof. vm_compute. reflexivity. Qed.

Example Date_parse_2025_04_15 :
  Date_parse "2025-04-15T00:00:00.000Z" = Some 1744675200000.
Proof. vm_compute. reflexivity. Qed.

Example addMonths_clamps :
  toISOString
    (addMonths 1738326896789 1) = "2025-02-28T12:34:56.789Z".
Proof. vm_compute. reflexivity. Qed.

Example addMonths_year_end :
  toISOString (addMonths 1735603200000 2) = "2025-02-28T00:00:00.000Z".
Proof. vm_compute. reflexivity. Qed.

Example addYears_leap_day :
  toISOString (addYears 1709164800000 1) = "2025-02-28T00:00:00.000Z".
Proof. vm_compute. reflexivity. Qed.

Example toISOString_before_year_zero :
  toISOString (-62198755200000) = "-000001-01-01T00:00:00.000Z".
Proof. vm_compute. reflexivity. Qed.

End CalendarExamples.

(** ** The ISO-8601 text of an instant reads back as the instant *)

Module Iso8601Facts.
Import Calendar CalendarFacts Iso8601.

Lemma digit_value_digit k : 0 <= k <= 9 -> digit_value (digit k) = Some k.
Proof.
  intros H.
  assert (k = 0 \/ k = 1 \/ k = 2 \/ k = 3 \/ k = 4 \/ k = 5 \/ k = 6
          \/ k = 7 \/ k = 8 \/ k = 9) as Hc by lia.
  repeat (destruct Hc as [-> | Hc]; [reflexivity|]). subst k. reflexivity.
Qed.

Lemma append_String c a b : String c a +:+ b = String c (a +:+ b).
Proof. reflexivity. Qed.

Lemma read_digits_pad w :
  forall acc n rest,
    read_digits w acc (pad w n +:+ rest)
    = Some (acc * 10 ^ Z.of_nat w + n mod 10 ^ Z.of_nat w, rest).
Proof.
  induction w as [|w IH]; intros acc n rest.
  - cbn [read_digits pad String.append]. f_equal. f_equal.
    change (10 ^ Z.of_nat 0) with 1. rewrite Z.mod_1_r. lia.
  - change (pad (S w) n)
      with (String (digit ((n / 10 ^ Z.of_nat w) mod 10)) (pad w n)).
    rewrite append_String. cbn [read_digits].
    rewrite digit_value_digit
      by (pose proof (Z.mod_pos_bound (n / 10 ^ Z.of_nat w) 10); lia).
    rewrite IH. f_equal. f_equal.
    rewrite Nat2Z.inj_succ, Z.pow_succ_r by lia.
    assert (Hp : 0 < 10 ^ Z.of_nat w) by (apply Z.pow_pos_nonneg; lia).
    rewrite (Z.mul_comm 10 (10 ^ Z.of_nat w)).
    rewrite (Z.rem_mul_r n (10 ^ Z.of_nat w) 10) by lia.
    lia.
Qed.

Lemma read_digits_small w n rest :
  0 <= n < 10 ^ Z.of_nat w ->
  read_digits w 0 (pad w n +:+ rest) = Some (n, rest).
Proof.
  intros H. rewrite read_digits_pad, Z.mod_small by exact H.
  reflexivity.
Qed.

Lemma read_year_digit k s :
  0 <= k <= 9 ->
  read_year (String (digit k) s) = read_digits 4 0 (String (digit k) s).
Proof.
  intros H.
  assert (k = 0 \/ k = 1 \/ k = 2 \/ k = 3 \/ k = 4 \/ k = 5 \/ k = 6
          \/ k = 7 \/ k = 8 \/ k = 9) as Hc by lia.
  repeat (destruct Hc as [-> | Hc]; [reflexivity|]). subst k. reflexivity.
Qed.

Lemma read_year_text y rest :
  -1000000 < y < 1000000 ->
  read_year (year_text y +:+ rest) = Some (y, rest).
Proof.
  intros H. unfold year_text.
  destruct (Z.leb_spec 0 y) as [H0|H0]; cbn [andb].
  - destruct (Z.leb_spec y 9999) as [H1|H1].
    + change (pad 4 y) with
        (String (digit ((y / 10 ^ Z.of_nat 3) mod 10)) (pad 3 y)).
      rewrite append_String.
      rewrite read_year_digit
        by (pose proof (Z.mod_pos_bound (y / 10 ^ Z.of_nat 3) 10); lia).
      rewrite <- append_String.
      apply (read_digits_small 4 y rest). change (10 ^ Z.of_nat 4) with 10000.
      lia.
    + destruct (Z.ltb_spec y 0); [lia|].
      rewrite append_String. cbn [read_year].
      apply (read_digits_small 6 y rest).
      change (10 ^ Z.of_nat 6) with 1000000. lia.
  - destruct (Z.ltb_spec y 0); [|lia].
    rewrite append_String. cbn [read_year].
    rewrite (read_digits_small 6 (- y) rest)
      by (change (10 ^ Z.of_nat 6) with 1000000; lia).
    cbn [mbind option_bind].
    destruct (Z.eqb_spec (- y) 0); [lia|].
    f_equal. f_equal. lia.
Qed.

Lemma expect_literal c s : expect c (String c EmptyString +:+ s) = Some s.
Proof.
  rewrite append_String. unfold expect.
  rewrite Ascii.eqb_refl. reflexivity.
Qed.

Lemma YearFromTime_range t :
  validTime t -> -1000000 < YearFromTime t < 1000000.
Proof.
  unfold validTime, maxTime, YearFromTime. intros H.
  pose proof (YearFromDay_estimate (Day t)) as He.
  unfold Day, msPerDay in *. div_lia.
Qed.

Lemma MakeDay_fields d :
  MakeDay (YearFromDay d) (MonthFromDay d + 1 - 1) (DateFromDay d) = d.
Proof.
  rewrite MakeDay_of_day, DateFromDay_MonthStart.
  replace (MonthIndex d - MonthFromDay d + (MonthFromDay d + 1 - 1))
    with (MonthIndex d) by lia.
  lia.
Qed.

Lemma MakeTime_fields t :
  MakeTime (HourFromTime t) (MinFromTime t) (SecFromTime t) (msFromTime t)
  = TimeWithinDay t.
Proof.
  unfold MakeTime, HourFromTime, MinFromTime, SecFromTime, msFromTime,
    TimeWithinDay, msPerHour, msPerMinute, msPerSecond, msPerDay.
  div_lia.
Qed.

(** [new Date(d.toISOString())] is [d], for every [Date] value. *)
Theorem Date_parse_toISOString t :
  validTime t -> Date_parse (toISOString t) = Some t.
Proof.
  intros Hv. unfold Date_parse, toISOString.
  pose proof (MonthFromDay_range (Day t)) as Hm.
  pose proof (DateFromDay_range (Day t)) as Hd.
  pose proof (MonthStart_step (MonthIndex (Day t))) as Hs.
  rewrite read_year_text by (apply YearFromTime_range; exact Hv).
  cbn [mbind option_bind]. rewrite expect_literal. cbn [mbind option_bind].
  rewrite read_digits_small
    by (unfold MonthFromTime; change (10 ^ Z.of_nat 2) with 100; lia).
  cbn [mbind option_bind]. rewrite expect_literal. cbn [mbind option_bind].
  rewrite read_digits_small
    by (unfold DateFromTime; change (10 ^ Z.of_nat 2) with 100; lia).
  cbn [mbind option_bind]. rewrite expect_literal. cbn [mbind option_bind].
  rewrite read_digits_small
    by (unfold HourFromTime; change (10 ^ Z.of_nat 2) with 100; div_lia).
  cbn [mbind option_bind]. rewrite expect_literal. cbn [mbind option_bind].
  rewrite read_digits_small
    by (unfold MinFromTime; change (10 ^ Z.of_nat 2) with 100; div_lia).
  cbn [mbind option_bind]. rewrite expect_literal. cbn [mbind option_bind].
  rewrite read_digits_small
    by (unfold SecFromTime; change (10 ^ Z.of_nat 2) with 100; div_lia).
  cbn [mbind option_bind]. rewrite expect_literal. cbn [mbind option_bind].
  rewrite (read_digits_small 3 (msFromTime t) "Z")
    by (unfold msFromTime, msPerSecond; change (10 ^ Z.of_nat 3) with 1000;
        div_lia).
  cbn [mbind option_bind].
  change (expect "Z" "Z") with (Some EmptyString).
  cbn [mbind option_bind String.eqb negb].
  unfold YearFromTime, MonthFromTime, DateFromTime.
  rewrite MakeDay_fields, MakeTime_fields, MakeDate_Day.
  assert (H1 : (1 <=? MonthFromDay (Day t) + 1)
               && (MonthFromDay (Day t) + 1 <=? 12) = true)
    by (apply andb_true_iff; split; apply Z.leb_le; lia).
  assert (H2 : (1 <=? DateFromDay (Day t)) && (DateFromDay (Day t) <=? 31)
               = true)
    by (apply andb_true_iff; split; apply Z.leb_le; lia).
  assert (H3 : (MinFromTime t <=? 59) && (SecFromTime t <=? 59) = true).
  { unfold MinFromTime, SecFromTime.
    apply andb_true_iff; split; apply Z.leb_le; div_lia. }
  assert (H4 : (HourFromTime t <=? 23) = true)
    by (unfold HourFromTime; apply Z.leb_le; div_lia).
  assert (H5 : validTimeb t = true)
    by (unfold validTimeb, validTime in *; apply andb_true_iff;
        split; apply Z.leb_le; lia).
  rewrite H1, H2, H3, H4, H5. reflexivity.
Qed.

End Iso8601Facts.

(** ** date-fns steps and the cursor of the processor *)

Module DateFnsFacts.
Import Calendar CalendarFacts DateFns.

Lemma addDays_ms date amount : addDays date amount = date + amount * msPerDay.
Proof.
  unfold addDays. destruct (Z.eqb_spec amount 0) as [-> | _]; [lia|].
  apply setDate_getDate.
Qed.

Lemma addWeeks_ms date amount :
  addWeeks date amount = date + amount * (7 * msPerDay).
Proof. unfold addWeeks. rewrite addDays_ms. lia. Qed.

(** The day [addMonths] lands on: in the month [amount] months on, at
    the same day of the month or at the month's last day. *)
Lemma addMonths_day date amount :
  amount <> 0 ->
  let k := MonthIndex (Day date) + amount in
  addMonths date amount
  = MakeDate (MonthStart k
              + Z.min (DateFromDay (Day date))
                      (MonthStart (k + 1) - MonthStart k) - 1)
             (TimeWithinDay date).
Proof.
  intros Ha k. unfold addMonths.
  destruct (Z.eqb_spec amount 0) as [|_]; [contradiction|].
  unfold getDate, getMonth, getFullYear, setMonth, setFullYear.
  unfold DateFromTime, MonthFromTime, YearFromTime.
  pose proof (TimeWithinDay_range date) as Htw.
  rewrite !Day_MakeDate by exact Htw.
  set (E := MakeDay (YearFromDay (Day date))
              (MonthFromDay (Day date) + amount + 1) 0).
  assert (HE0 : E = MonthStart (k + 1) - 1).
  { unfold E. rewrite MakeDay_of_day.
    replace (MonthIndex (Day date) - MonthFromDay (Day date)
             + (MonthFromDay (Day date) + amount + 1)) with (k + 1)
      by (unfold k; lia).
    lia. }
  pose proof (MonthStart_step k) as Hstep.
  assert (HE : MonthIndex E = k)
    by (apply MonthIndex_unique; lia).
  rewrite (DateFromDay_MonthStart E), HE.
  destruct (Z.leb_spec (E - MonthStart k + 1) (DateFromDay (Day date))).
  - f_equal. lia.
  - rewrite MakeDay_MonthStart. fold (MonthIndex E). rewrite HE.
    f_equal. lia.
Qed.

Lemma addMonths_advances date amount :
  1 <= amount -> date + msPerDay <= addMonths date amount.
Proof.
  intros Ha. rewrite addMonths_day by lia. cbv zeta.
  set (k := MonthIndex (Day date)).
  pose proof (MonthIndex_bracket (Day date)) as Hb. fold k in Hb.
  pose proof (DateFromDay_range (Day date)) as Hd. fold k in Hd.
  pose proof (MonthStart_step (k + amount)) as Hs.
  pose proof (MonthStart_mono (k + 1) (amount - 1) ltac:(lia)) as Hm.
  replace (k + 1 + (amount - 1)) with (k + amount) in Hm by lia.
  pose proof (MakeDate_Day date) as Ht.
  unfold MakeDate, msPerDay in *. lia.
Qed.

End DateFnsFacts.

Module RecurringFacts.
Import Calendar DateFns DateFnsFacts RecurringProcessor.

Lemma getNextDate_advances date frequency :
  date + msPerDay <= getNextDate date frequency.
Proof.
  destruct frequency; unfold getNextDate.
  - rewrite addDays_ms. lia.
  - rewrite addWeeks_ms. unfold msPerDay. lia.
  - apply addMonths_advances. lia.
  - unfold addYears. apply addMonths_advances. lia.
Qed.

End RecurringFacts.

(** ** The recurring processor *)

Module ProcessorFacts.
Import Calendar RecurringProcessor RecurringFacts.

Lemma prefix_refl s : String.prefix s s = true.
Proof.
  induction s as [|c s IH]; [reflexivity|].
  cbn. destruct (ascii_dec c c); [exact IH | congruence].
Qed.

Lemma includes_refl s : JsString.includes s s = true.
Proof. destruct s; cbn -[String.prefix]; rewrite prefix_refl; reflexivity. Qed.

Lemma alreadyExists_push d v recurring nextDate :
  alreadyExists (push d v) recurring nextDate
  = alreadyExists v recurring nextDate.
Proof. reflexivity. Qed.

(** A loop emits, in order, the occurrences at the cursor values that
    no existing transaction covers, and touches nothing else. *)
Lemma while_nextDate_spec fuel now recurring :
  forall nextDate v,
    while_nextDate fuel now recurring nextDate v
    = cs ← cursors fuel now (RecurringTransaction.frequency recurring) nextDate;
      Some (mkVars (recurringTransactions v) (existingTransactions v)
              (newTransactions v
               ++ map (occurrence recurring)
                    (List.filter
                       (fun d => negb (alreadyExists v recurring d)) cs))).
Proof.
  induction fuel as [|fuel IH]; intros nextDate v; cbn [while_nextDate cursors].
  - destruct (nextDate <=? now); [reflexivity|].
    cbn. rewrite app_nil_r. destruct v; reflexivity.
  - destruct (nextDate <=? now).
    + rewrite IH.
      destruct (cursors fuel now _ _) as [cs|]; [|reflexivity].
      cbn [mbind option_bind List.filter].
      destruct (alreadyExists v recurring nextDate) eqn:E; cbn [negb].
      * reflexivity.
      * cbn [push recurringTransactions existingTransactions
               newTransactions map].
        rewrite <- app_assoc. reflexivity.
    + cbn. rewrite app_nil_r. destruct v; reflexivity.
Qed.

(** Enough fuel: every step advances the cursor by a day or more. *)
Lemma cursors_total fuel now frequency :
  forall nextDate,
    now - nextDate < Z.of_nat fuel * msPerDay ->
    is_Some (cursors fuel now frequency nextDate).
Proof.
  induction fuel as [|fuel IH]; intros nextDate H; cbn [cursors].
  - destruct (Z.leb_spec nextDate now); [lia | eauto].
  - destruct (Z.leb_spec nextDate now); [|eauto].
    pose proof (getNextDate_advances nextDate frequency) as Ha.
    destruct (IH (getNextDate nextDate frequency)) as [l Hl].
    { unfold msPerDay in *. lia. }
    rewrite Hl. cbn. eauto.
Qed.

Lemma forEach_callback_total fuel now recurring v :
  now - default (RecurringTransaction.startDate recurring)
          (RecurringTransaction.lastProcessed recurring)
    < (Z.of_nat fuel + 1) * msPerDay ->
  is_Some (forEach_callback fuel now recurring v).
Proof.
  intros H. unfold forEach_callback.
  destruct (negb _); [eauto|].
  destruct (match RecurringTransaction.endDate recurring with
            | Some e => e <? now | None => false end); [eauto|].
  rewrite while_nextDate_spec.
  set (last := default _ _) in *.
  pose proof (getNextDate_advances last
                (RecurringTransaction.frequency recurring)) as Ha.
  destruct (cursors_total fuel now
              (RecurringTransaction.frequency recurring)
              (getNextDate last (RecurringTransaction.frequency recurring)))
    as [cs Hcs].
  { unfold msPerDay in *. lia. }
  rewrite Hcs. cbn. eauto.
Qed.

Lemma forEach_total fuel now l :
  forall v,
    (forall r, In r l ->
       now - default (RecurringTransaction.startDate r)
               (RecurringTransaction.lastProcessed r)
         < (Z.of_nat fuel + 1) * msPerDay) ->
    is_Some (forEach fuel now l v).
Proof.
  induction l as [|r l IH]; intros v H; cbn [forEach]; [eauto|].
  destruct (forEach_callback_total fuel now r v) as [v' Hv'].
  { apply H. left. reflexivity. }
  rewrite Hv'. cbn. apply IH. intros r' Hr'. apply H. right. exact Hr'.
Qed.

Lemma fuel_for_enough now l r :
  In r l ->
  now - default (RecurringTransaction.startDate r)
          (RecurringTransaction.lastProcessed r)
    < (Z.of_nat (fuel_for now l) + 1) * msPerDay.
Proof.
  unfold fuel_for.
  set (f := fun (r : RecurringTransaction.t) acc => Z.max acc _).
  assert (Hm : forall l',
             0 <= fold_right f 0 l'
             /\ (In r l' ->
                 (now - default (RecurringTransaction.startDate r)
                          (RecurringTransaction.lastProcessed r))
                 / msPerDay <= fold_right f 0 l')).
  { induction l' as [|r' l' [IH0 IH]]; cbn [fold_right].
    - split; [lia | intros []].
    - unfold f at 1 3. split; [lia|].
      intros [-> | Hin]; [lia | specialize (IH Hin); lia]. }
  intros Hin. destruct (Hm l) as [H0 H1]. specialize (H1 Hin).
  rewrite Z2Nat.id by exact H0.
  unfold msPerDay in *. Z.div_mod_to_equations. lia.
Qed.

(** The processor returns for every input: [fuel_for] is enough. *)
Lemma processRecurringTransactions_total now recurring existing :
  is_Some (processRecurringTransactions (fuel_for now recurring) now
             recurring existing).
Proof.
  unfold processRecurringTransactions. apply forEach_total.
  intros r Hr. apply fuel_for_enough. exact Hr.
Qed.

(** The two arguments are the same at the return as at the call, and
    the array built only grows. *)
Lemma forEach_callback_frame fuel now recurring v v' :
  forEach_callback fuel now recurring v = Some v' ->
  recurringTransactions v' = recurringTransactions v
  /\ existingTransactions v' = existingTransactions v
  /\ exists out, newTransactions v' = newTransactions v ++ out.
Proof.
  unfold forEach_callback.
  destruct (negb _).
  { intros [= <-]. repeat split. exists []. symmetry. apply app_nil_r. }
  destruct (match RecurringTransaction.endDate recurring with
            | Some e => e <? now | None => false end).
  { intros [= <-]. repeat split. exists []. symmetry. apply app_nil_r. }
  rewrite while_nextDate_spec.
  destruct (cursors _ _ _ _) as [cs|]; [|discriminate].
  cbn. intros [= <-]. cbn. repeat split. eauto.
Qed.

Lemma forEach_frame fuel now l :
  forall v v',
    forEach fuel now l v = Some v' ->
    recurringTransactions v' = recurringTransactions v
    /\ existingTransactions v' = existingTransactions v
    /\ exists out, newTransactions v' = newTransactions v ++ out.
Proof.
  induction l as [|r l IH]; intros v v'; cbn [forEach].
  - intros [= <-]. repeat split. exists []. symmetry. apply app_nil_r.
  - destruct (forEach_callback fuel now r v) as [v1|] eqn:E1; [|discriminate].
    cbn. intros H.
    destruct (forEach_callback_frame _ _ _ _ _ E1) as (Hr1 & He1 & out1 & Hn1).
    destruct (IH _ _ H) as (Hr & He & out & Hn).
    repeat split; [congruence | congruence |].
    exists (out1 ++ out). rewrite Hn, Hn1, app_assoc. reflexivity.
Qed.

End ProcessorFacts.

(** ** The store *)

Module StoreFacts.
Import Store.

Lemma state_saveData w : state (saveData w) = state w.
Proof. reflexivity. Qed.

Lemma state_checkBudget env txn w : state (checkBudget env txn w) = state w.
Proof.
  unfold checkBudget.
  destruct (find _ _) as [category|]; [|reflexivity].
  destruct (Category.budgetLimit category) as [budgetLimit|]; [|reflexivity].
  destruct (Qeq_bool budgetLimit 0); [reflexivity|].
  destruct (Qle_bool 75 _); reflexivity.
Qed.

(** What [addTransaction] does to the store itself. *)
Lemma state_addTransaction env d w :
  state (addTransaction env d w)
  = state (set_transactions (fun l => newTransaction env d :: l) w).
Proof.
  unfold addTransaction.
  destruct (Transaction.type _); [|rewrite state_checkBudget];
    destruct (signedInUser _); reflexivity.
Qed.

Lemma transactions_addTransaction env d w :
  transactions (state (addTransaction env d w))
  = newTransaction env d :: transactions (state w).
Proof. rewrite state_addTransaction. reflexivity. Qed.

Lemma asyncStorage_checkBudget env txn w :
  asyncStorage (checkBudget env txn w) = asyncStorage w.
Proof.
  unfold checkBudget.
  destruct (find _ _) as [category|]; [|reflexivity].
  destruct (Category.budgetLimit category) as [budgetLimit|]; [|reflexivity].
  destruct (Qeq_bool budgetLimit 0); [reflexivity|].
  destruct (Qle_bool 75 _); reflexivity.
Qed.

Lemma asyncStorage_addTransaction env d w :
  asyncStorage (addTransaction env d w)
  = asyncStorage
      (saveData (set_transactions (fun l => newTransaction env d :: l) w)).
Proof.
  unfold addTransaction.
  destruct (Transaction.type _); [|rewrite asyncStorage_checkBudget];
    destruct (signedInUser _); reflexivity.
Qed.

(** After [saveData] each key holds the blob of its collection. *)
Lemma saveData_blobs w :
  asyncStorage (saveData w) !! STORAGE_KEYS_TRANSACTIONS
    = Some (Json.of_list Json.of_Transaction (transactions (state w)))
  /\ asyncStorage (saveData w) !! STORAGE_KEYS_CATEGORIES
     = Some (Json.of_list Json.of_Category (categories (state w)))
  /\ asyncStorage (saveData w) !! STORAGE_KEYS_BUDGETS
     = Some (Json.of_list Json.of_Budget (budgets (state w)))
  /\ asyncStorage (saveData w) !! STORAGE_KEYS_SETTINGS
     = Some (Json.of_UserSettings (settings (state w))).
Proof.
  unfold saveData, AsyncStorage_setItem. cbn [asyncStorage].
  repeat split.
  - do 3 (rewrite lookup_insert_ne by discriminate). apply lookup_insert_eq.
  - do 2 (rewrite lookup_insert_ne by discriminate). apply lookup_insert_eq.
  - rewrite lookup_insert_ne by discriminate. apply lookup_insert_eq.
  - apply lookup_insert_eq.
Qed.

Lemma transactions_commitAll env drafts :
  forall i w,
    exists added,
      transactions (state (commitAll env i drafts w))
      = added ++ transactions (state w)
      /\ Forall2 (fun d txn =>
                    Transaction.description txn = TransactionData.description d
                    /\ Transaction.date txn = TransactionData.date d)
           drafts (rev added).
Proof.
  induction drafts as [|d drafts IH]; intros i w; cbn [commitAll].
  - exists []. split; [reflexivity | constructor].
  - destruct (IH (S i) (addTransaction (env i) d w)) as (added & Heq & Hall).
    exists (added ++ [newTransaction (env i) d]). split.
    + rewrite Heq, transactions_addTransaction, <- app_assoc. reflexivity.
    + rewrite rev_app_distr. cbn. constructor; [split; reflexivity | exact Hall].
Qed.

End StoreFacts.

Module IdempotenceFacts.
Import Calendar RecurringProcessor RecurringFacts ProcessorFacts.

Lemma alreadyExists_intro v recurring nextDate txn :
  In txn (existingTransactions v) ->
  Transaction.description txn = autoDescription recurring ->
  Transaction.date txn = nextDate ->
  alreadyExists v recurring nextDate = true.
Proof.
  intros Hin Hd Ht. unfold alreadyExists. apply existsb_exists.
  exists txn. split; [exact Hin|].
  rewrite Hd, includes_refl, Ht, Z.sub_diag. reflexivity.
Qed.

Lemma alreadyExists_incl v v2 recurring nextDate :
  incl (existingTransactions v) (existingTransactions v2) ->
  alreadyExists v recurring nextDate = true ->
  alreadyExists v2 recurring nextDate = true.
Proof.
  unfold alreadyExists. intros Hi H.
  apply existsb_exists in H as (txn & Hin & Ht).
  apply existsb_exists. exists txn. split; [apply Hi; exact Hin | exact Ht].
Qed.

Lemma Forall2_In_l {A B} (P : A -> B -> Prop) l1 l2 x :
  Forall2 P l1 l2 -> In x l1 -> exists y, In y l2 /\ P x y.
Proof.
  induction 1 as [|a b l1 l2 Hab _ IH]; intros Hin; [destruct Hin|].
  destruct Hin as [-> | Hin].
  - exists b. split; [left; reflexivity | exact Hab].
  - destruct (IH Hin) as (y & Hy & Hp). exists y. split; [right|]; assumption.
Qed.

Lemma filter_nil {A} (f : A -> bool) l :
  (forall x, In x l -> f x = false) -> List.filter f l = [].
Proof.
  induction l as [|a l IH]; intros H; cbn; [reflexivity|].
  rewrite (H a (or_introl eq_refl)). apply IH. intros x Hx. apply H. right. exact Hx.
Qed.

(** A callback that ran on [v] and emitted [out] emits nothing when it
    runs on a list that has kept [v]'s records and holds [out]. *)
Lemma forEach_callback_again fuel now recurring v v' out v2 :
  forEach_callback fuel now recurring v = Some v' ->
  newTransactions v' = newTransactions v ++ out ->
  incl (existingTransactions v) (existingTransactions v2) ->
  committed (existingTransactions v2) out ->
  forEach_callback fuel now recurring v2 = Some v2.
Proof.
  unfold forEach_callback.
  destruct (negb _); [reflexivity|].
  destruct (match RecurringTransaction.endDate recurring with
            | Some e => e <? now | None => false end); [reflexivity|].
  rewrite !while_nextDate_spec.
  destruct (cursors _ _ _ _) as [cs|]; [|discriminate].
  cbn. intros [= <-]. cbn. intros Hout Hincl Hcom.
  apply app_inv_head in Hout. subst out.
  rewrite filter_nil.
  - cbn. rewrite app_nil_r. destruct v2; reflexivity.
  - intros d Hd.
    destruct (alreadyExists v recurring d) eqn:E.
    + rewrite (alreadyExists_incl v v2 _ _ Hincl E). reflexivity.
    + destruct (Hcom (occurrence recurring d)) as (txn & Hin & Hdesc & Hdate).
      { apply in_map. apply filter_In. split; [exact Hd|].
        rewrite E. reflexivity. }
      rewrite (alreadyExists_intro v2 recurring d txn Hin Hdesc Hdate).
      reflexivity.
Qed.

Lemma forEach_again fuel now l :
  forall v v' out v2,
    forEach fuel now l v = Some v' ->
    newTransactions v' = newTransactions v ++ out ->
    incl (existingTransactions v) (existingTransactions v2) ->
    committed (existingTransactions v2) out ->
    forEach fuel now l v2 = Some v2.
Proof.
  induction l as [|r l IH]; intros v v' out v2; cbn [forEach]; [reflexivity|].
  destruct (forEach_callback fuel now r v) as [v1|] eqn:E1; [|discriminate].
  cbn. intros H Hout Hincl Hcom.
  destruct (forEach_callback_frame _ _ _ _ _ E1) as (_ & He1 & out1 & Hn1).
  destruct (forEach_frame _ _ _ _ _ H) as (_ & _ & out2 & Hn2).
  assert (out = out1 ++ out2) as ->.
  { rewrite Hn2, Hn1, <- app_assoc in Hout. apply app_inv_head in Hout.
    symmetry. exact Hout. }
  rewrite (forEach_callback_again _ _ _ _ _ _ v2 E1 Hn1 Hincl).
  - cbn. apply (IH v1 v' out2 v2 H Hn2).
    + rewrite He1. exact Hincl.
    + intros d Hd. apply Hcom. apply in_or_app. right. exact Hd.
  - intros d Hd. apply Hcom. apply in_or_app. left. exact Hd.
Qed.

End IdempotenceFacts.

(* ================================================================== *)
(** * The recurring processor: idempotence, the monthly scenario and the
      frame of a run *)

Section Materialization.
Import Store RecurringProcessor ProcessorFacts IdempotenceFacts StoreFacts.

(** C2.  Materialization is idempotent.  For every list of recurring
    definitions, every store and every instant [now]: the processor
    returns; once each transaction it produced has been committed
    through [addTransaction], a second run with the same [now] returns
    as well and produces no transaction at all. *)
Theorem materialization_idempotent :
  forall (now : Z) (recurring : list RecurringTransaction.t) (w : World)
         (env : nat -> AddEnv),
  exists v1,
    processRecurringTransactions (fuel_for now recurring) now recurring
      (transactions (state w)) = Some v1
    /\ exists v2,
         processRecurringTransactions (fuel_for now recurring) now recurring
           (transactions (state (commitAll env 0 (newTransactions v1) w)))
         = Some v2
         /\ newTransactions v2 = [].
Proof.
  intros now recurring w env.
  destruct (processRecurringTransactions_total now recurring
              (transactions (state w))) as [v1 H1].
  exists v1. split; [exact H1|].
  destruct (transactions_commitAll env (newTransactions v1) 0 w)
    as (added & Heq & Hall).
  rewrite Heq.
  exists (mkVars recurring (added ++ transactions (state w)) []).
  split; [|reflexivity].
  unfold processRecurringTransactions in *.
  apply (forEach_again _ _ _ _ v1 (newTransactions v1) _ H1).
  - reflexivity.
  - cbn. intros x Hx. apply in_or_app. right. exact Hx.
  - cbn. intros d Hd.
    destruct (Forall2_In_l _ _ _ d Hall Hd) as (txn & Htxn & Hd1 & Hd2).
    exists txn. split; [|split; assumption].
    apply in_or_app. left. apply in_rev. exact Htxn.
Qed.

(** C10.  A run only reads its arguments.  For every invocation the
    processor returns, and at the return both argument arrays are what
    they were at the call, so no [lastProcessed] has been written; what
    it produces depends on the existing transactions only through the
    tag-and-24-hours test [alreadyExists]. *)
Theorem materialization_reads_only :
  forall (now : Z) (recurring : list RecurringTransaction.t)
         (existing : list Transaction.t),
  exists v,
    processRecurringTransactions (fuel_for now recurring) now recurring
      existing = Some v
    /\ recurringTransactions v = recurring
    /\ existingTransactions v = existing
    /\ map RecurringTransaction.lastProcessed (recurringTransactions v)
       = map RecurringTransaction.lastProcessed recurring
    /\ forall existing',
         (forall r d,
            alreadyExists (mkVars recurring existing' []) r d
            = alreadyExists (mkVars recurring existing []) r d) ->
         exists v',
           processRecurringTransactions (fuel_for now recurring) now
             recurring existing' = Some v'
           /\ newTransactions v' = newTransactions v.
Proof.
  intros now recurring existing.
  destruct (processRecurringTransactions_total now recurring existing)
    as [v Hv].
  exists v. split; [exact Hv|].
  unfold processRecurringTransactions in *.
  destruct (forEach_frame _ _ _ _ _ Hv) as (Hr & He & _). cbn in Hr, He.
  split; [exact Hr|]. split; [exact He|]. split; [rewrite Hr; reflexivity|].
  intros existing' Hsame.
  revert Hv. generalize (fuel_for now recurring) as fuel.
  generalize (@nil TransactionData.t) as acc.
  assert (Hgen : forall l fuel acc v,
             forEach fuel now l (mkVars recurring existing acc) = Some v ->
             exists v',
               forEach fuel now l (mkVars recurring existing' acc) = Some v'
               /\ newTransactions v' = newTransactions v).
  { clear v Hr He. induction l as [|r l IH]; intros fuel acc v; cbn [forEach].
    - intros [= <-]. eauto.
    - unfold forEach_callback.
      destruct (negb _); [cbn; apply IH|].
      destruct (match RecurringTransaction.endDate r with
                | Some e => e <? now | None => false end); [cbn; apply IH|].
      rewrite !while_nextDate_spec.
      destruct (cursors _ _ _ _) as [cs|]; [|discriminate].
      cbn [mbind option_bind recurringTransactions existingTransactions
             newTransactions].
      intros H.
      rewrite (List.filter_ext
                 (fun d => negb (alreadyExists
                                   (mkVars recurring existing' acc) r d))
                 (fun d => negb (alreadyExists
                                   (mkVars recurring existing acc) r d))).
      + apply IH. exact H.
      + intros d. f_equal. apply (Hsame r d). }
  intros acc fuel Hv. apply (Hgen recurring fuel acc v Hv).
Qed.

End Materialization.

Section MonthlyScenario.
Import Store RecurringProcessor ProcessorFacts Iso8601 Samples.

Lemma alreadyExists_untagged recurring existing acc recurring' nextDate :
  (forall txn, In txn existing ->
     JsString.includes (Transaction.description txn)
       (autoDescription recurring') = false) ->
  alreadyExists (mkVars recurring existing acc) recurring' nextDate = false.
Proof.
  intros H. unfold alreadyExists. cbn [existingTransactions].
  induction existing as [|txn l IH]; [reflexivity|].
  cbn [existsb]. rewrite (H txn (or_introl eq_refl)). cbn.
  apply IH. intros t Ht. apply H. right. exact Ht.
Qed.

(** C6.  A monthly definition that starts on 2025-01-01, has never been
    processed, has no end date and is active, processed at 2025-04-15
    against transactions none of which carries its auto tag, yields
    exactly three occurrences, dated 2025-02-01, 2025-03-01 and
    2025-04-01, in this order: the cursor is advanced once before the
    first test, so nothing is produced at the start date itself. *)
Theorem monthly_from_january_to_mid_april :
  forall (r : RecurringTransaction.t) (existing : list Transaction.t)
         (now : Z),
    RecurringTransaction.frequency r = monthly ->
    Date_parse "2025-01-01T00:00:00.000Z"
      = Some (RecurringTransaction.startDate r) ->
    RecurringTransaction.lastProcessed r = None ->
    RecurringTransaction.endDate r = None ->
    RecurringTransaction.isActive r = true ->
    Date_parse "2025-04-15T00:00:00.000Z" = Some now ->
    (forall txn, In txn existing ->
       JsString.includes (Transaction.description txn) (autoDescription r)
       = false) ->
    exists v d1 d2 d3,
      processRecurringTransactions (fuel_for now [r]) now [r] existing
        = Some v
      /\ Date_parse "2025-02-01T00:00:00.000Z" = Some d1
      /\ Date_parse "2025-03-01T00:00:00.000Z" = Some d2
      /\ Date_parse "2025-04-01T00:00:00.000Z" = Some d3
      /\ newTransactions v
         = [ occurrence r d1; occurrence r d2; occurrence r d3 ].
Proof.
  intros r existing now Hf Hs Hl He Ha Hn Hex.
  replace (Date_parse "2025-01-01T00:00:00.000Z")
    with (Some 1735689600000) in Hs by (vm_compute; reflexivity).
  replace (Date_parse "2025-04-15T00:00:00.000Z")
    with (Some 1744675200000) in Hn by (vm_compute; reflexivity).
  injection Hs as Hs. injection Hn as Hn. subst now.
  assert (Hfuel : fuel_for 1744675200000 [r] = 104%nat).
  { unfold fuel_for. cbn [fold_right]. rewrite Hl, <- Hs. reflexivity. }
  rewrite Hfuel.
  unfold processRecurringTransactions. cbn [forEach].
  unfold forEach_callback. rewrite Ha, He, Hl, <- Hs. cbn [negb default].
  rewrite while_nextDate_spec, Hf.
  replace (cursors 104 1744675200000 monthly
             (getNextDate 1735689600000 monthly))
    with (Some [1738368000000; 1740787200000; 1743465600000])
    by (vm_compute; reflexivity).
  cbn [mbind option_bind recurringTransactions existingTransactions
         newTransactions List.filter].
  rewrite !(alreadyExists_untagged [r] existing [] r _ Hex).
  cbn [negb map app].
  eexists _, _, _, _. split; [reflexivity|].
  split; [vm_compute; reflexivity|].
  split; [vm_compute; reflexivity|].
  split; [vm_compute; reflexivity|].
  reflexivity.
Qed.

Lemma monthly_from_january_to_mid_april_witness :
  exists v d1 d2 d3,
    processRecurringTransactions (fuel_for 1744675200000 [rent])
      1744675200000 [rent] [lunch] = Some v
    /\ Date_parse "2025-02-01T00:00:00.000Z" = Some d1
    /\ Date_parse "2025-03-01T00:00:00.000Z" = Some d2
    /\ Date_parse "2025-04-01T00:00:00.000Z" = Some d3
    /\ newTransactions v
       = [ occurrence rent d1; occurrence rent d2; occurrence rent d3 ].
Proof.
  apply (monthly_from_january_to_mid_april rent [lunch] 1744675200000).
  - reflexivity.
  - vm_compute; reflexivity.
  - reflexivity.
  - reflexivity.
  - reflexivity.
  - vm_compute; reflexivity.
  - intros txn [<- | []]. vm_compute. reflexivity.
Defined.

End MonthlyScenario.

(* ================================================================== *)
(** * Budget health *)

(** Comparisons of doubles, from the specification of the primitive
    operations. *)
Module DoubleFacts.
Import Ieee.

(** Not below or at zero: above zero, or not a number. *)
Lemma not_leb_0 x :
  (x <=? 0)%float = false -> (0 <? x)%float = true \/ is_nan x = true.
Proof.
  unfold is_nan.
  rewrite FloatAxioms.leb_spec, FloatAxioms.ltb_spec, FloatAxioms.eqb_spec.
  change (Prim2SF 0) with (S754_zero false).
  destruct (Prim2SF x) as [s|[]| |[] m e]; cbn; auto; discriminate.
Qed.


End DoubleFacts.

Section DoubleBudgetHealth.
Import Ieee Ieee.BudgetAlerts DoubleFacts.
Import Exact.BudgetAlerts(BudgetHealth, good, warning, danger).



(** Without a limit: a spend against a limit of 0 has the percentage
    Infinity and is danger; 0 against 0, and a spend that is not a
    number, have the percentage NaN and are good. *)
Example budget_health_without_a_limit :
  getBudgetHealth 10 0 = danger
  /\ getBudgetHealth 0 0 = good
  /\ getBudgetHealth nan 100 = good.
Proof. repeat split; vm_compute; reflexivity. Qed.

End DoubleBudgetHealth.

(* ================================================================== *)
(** * The store: snapshot listener, bootstrap merge, budgets *)

Section Listener.
Import Store.

(** C4.  A snapshot delivered by the real-time listener replaces the
    transaction list in memory, whatever it held, and is written under
    the transactions key; the categories, the budgets and the settings
    are untouched in memory, and every other key of the local storage
    keeps its blob. *)
Theorem snapshot_replaces_transactions_only :
  forall (snapshot : list Transaction.t) (w : World),
    let w' := onTransactionsSnapshot snapshot w in
    transactions (state w') = snapshot
    /\ asyncStorage w' !! STORAGE_KEYS_TRANSACTIONS
       = Some (Json.of_list Json.of_Transaction snapshot)
    /\ categories (state w') = categories (state w)
    /\ budgets (state w') = budgets (state w)
    /\ settings (state w') = settings (state w)
    /\ asyncStorage w' !! STORAGE_KEYS_CATEGORIES
       = asyncStorage w !! STORAGE_KEYS_CATEGORIES
    /\ asyncStorage w' !! STORAGE_KEYS_BUDGETS
       = asyncStorage w !! STORAGE_KEYS_BUDGETS
    /\ asyncStorage w' !! STORAGE_KEYS_SETTINGS
       = asyncStorage w !! STORAGE_KEYS_SETTINGS
    /\ (forall k, k <> STORAGE_KEYS_TRANSACTIONS ->
          asyncStorage w' !! k = asyncStorage w !! k).
Proof.
  intros snapshot w w'. subst w'.
  unfold onTransactionsSnapshot, AsyncStorage_setItem, set_transactions.
  cbn [state asyncStorage transactions categories budgets settings].
  repeat split.
  - apply lookup_insert_eq.
  - apply lookup_insert_ne. discriminate.
  - apply lookup_insert_ne. discriminate.
  - apply lookup_insert_ne. discriminate.
  - intros k Hk. apply lookup_insert_ne. congruence.
Qed.

(** Every callback the store subscribes with is that one. *)
Lemma subscribed_callback w callback :
  subscribeToRealtimeUpdates w = Some callback ->
  callback = onTransactionsSnapshot.
Proof.
  unfold subscribeToRealtimeUpdates.
  destruct (signedInUser w); [intros [= <-]; reflexivity | discriminate].
Qed.

End Listener.

Section Bootstrap.
Import Store.

Lemma push_each uid (l : list Transaction.t) :
  forall w,
    let w' := fold_left (fun w txn => call (syncTransaction uid txn) w) l w in
    state w' = state w
    /\ asyncStorage w' = asyncStorage w
    /\ firestore w' = firestore w ++ map (syncTransaction uid) l.
Proof.
  induction l as [|txn l IH]; intros w; cbn [fold_left map].
  - rewrite app_nil_r. auto.
  - destruct (IH (call (syncTransaction uid txn) w)) as (Hs & Ha & Hf).
    cbv zeta in *. rewrite Hs, Ha, Hf. cbn. rewrite <- app_assoc. auto.
Qed.

Lemma transactionPushes_app l1 l2 :
  transactionPushes (l1 ++ l2) = transactionPushes l1 ++ transactionPushes l2.
Proof. apply flat_map_app. Qed.

Lemma transactionPushes_map uid l :
  transactionPushes (map (syncTransaction uid) l) = map (pair uid) l.
Proof. induction l as [|t l IH]; cbn; [|rewrite <- IH]; reflexivity. Qed.

(** C3.  The bootstrap merge, for a signed-in user with a non-empty
    local transaction list.  When the remote collection is empty, one
    push is issued per local transaction, each on its own and in list
    order, and the local list is kept; when the remote collection is
    not empty, the local list becomes the remote one as it is, whatever
    the local records were, and no transaction is pushed. *)
Theorem bootstrap_merge_transactions :
  forall (remote : Fetched) (w : World) (uid : string),
    userId (state w) = Some uid ->
    uid <> "" ->
    transactions (state w) <> [] ->
    let w' := syncWithFirestore remote w in
    let issued := transactionPushes (firestore w') in
    (firestoreTransactions remote = [] ->
       transactions (state w') = transactions (state w)
       /\ issued = transactionPushes (firestore w)
                   ++ map (pair uid) (transactions (state w))
       /\ length issued
          = (length (transactionPushes (firestore w))
             + length (transactions (state w)))%nat)
    /\ (firestoreTransactions remote <> [] ->
          transactions (state w') = firestoreTransactions remote
          /\ length (transactions (state w'))
             = length (firestoreTransactions remote)
          /\ issued = transactionPushes (firestore w)).
Proof.
  intros remote w uid Hu Hne Hn w' issued. subst issued w'.
  unfold syncWithFirestore, signedInUser, JsString.truthy. rewrite Hu.
  destruct (String.eqb_spec uid "") as [|_]; [contradiction|]. cbn [negb].
  cbn [state set_isSyncing transactions categories].
  destruct (transactions (state w)) as [|t0 local] eqn:Hl; [congruence|].
  split.
  - intros Hr. rewrite Hr. cbn [isEmpty negb andb].
    match goal with
    | |- context [fold_left ?f ?l ?w0] =>
        destruct (push_each uid l w0) as (Hs & _ & Hf)
    end.
    cbv zeta in Hs, Hf.
    destruct (negb (isEmpty (categories (state w)))
              && isEmpty (firestoreCategories remote)).
    + cbn [call state firestore]. rewrite Hs, Hf. cbn [state saveData
        AsyncStorage_setItem firestore transactions].
      rewrite !transactionPushes_app, transactionPushes_map.
      cbn [transactionPushes flat_map app]. rewrite app_nil_r.
      split; [reflexivity|]. split; [reflexivity|].
      rewrite length_app, length_map. reflexivity.
    + rewrite Hs, Hf. cbn [state saveData AsyncStorage_setItem firestore
        transactions].
      rewrite !transactionPushes_app, transactionPushes_map.
      split; [reflexivity|]. split; [reflexivity|].
      rewrite length_app, length_map. reflexivity.
  - intros Hr.
    destruct (firestoreTransactions remote) as [|r0 rs] eqn:Hrem;
      [congruence|].
    cbn [isEmpty negb andb].
    destruct (negb (isEmpty (categories (state w)))
              && isEmpty (firestoreCategories remote)).
    + cbn. rewrite transactionPushes_app. cbn. rewrite app_nil_r. auto.
    + cbn. auto.
Qed.

(** Attaching an identity runs the merge, on the store as it is then. *)
Lemma setUserId_merges uid remote w :
  uid <> "" ->
  setUserId (Some uid) remote w
  = syncWithFirestore remote (set_userId (Some uid) w).
Proof.
  intros Hne. unfold setUserId, signedInUser, JsString.truthy.
  cbn [set_userId state userId].
  destruct (String.eqb_spec uid "") as [|_]; [contradiction | reflexivity].
Qed.

End Bootstrap.

Section BootstrapExamples.
Import Store Samples.

Lemma bootstrap_merge_transactions_witness :
  transactions (state (syncWithFirestore (mkFetched [] [] [] None) signedIn))
    = [salary; taxi; lunch]
  /\ transactionPushes
       (firestore (syncWithFirestore (mkFetched [] [] [] None) signedIn))
     = [("user_1", salary); ("user_1", taxi); ("user_1", lunch)]
  /\ transactions
       (state (syncWithFirestore
                 (mkFetched [remote1; remote2; remote3; remote4; remote5]
                    [] [] None) signedIn))
     = [remote1; remote2; remote3; remote4; remote5].
Proof.
  pose proof (bootstrap_merge_transactions (mkFetched [] [] [] None)
                signedIn "user_1" eq_refl ltac:(discriminate)
                ltac:(discriminate)) as [H0 _].
  pose proof (bootstrap_merge_transactions
                (mkFetched [remote1; remote2; remote3; remote4; remote5]
                   [] [] None)
                signedIn "user_1" eq_refl ltac:(discriminate)
                ltac:(discriminate)) as [_ H5].
  destruct (H0 eq_refl) as (Ha & Hb & _).
  destruct (H5 ltac:(discriminate)) as (Hc & _).
  split; [exact Ha|]. split; [exact Hb | exact Hc].
Defined.

End BootstrapExamples.

Section Budgets.
Import Store Samples.

Lemma months_without m (l : list Budget.t) :
  let kept := List.filter
                (fun b => negb (String.eqb (Budget.month b) m)) l in
  ~ In m (map Budget.month kept)
  /\ (forall x, In x (map Budget.month kept) -> In x (map Budget.month l))
  /\ (NoDup (map Budget.month l) -> NoDup (map Budget.month kept)).
Proof.
  induction l as [|b l (IH1 & IH2 & IH3)]; cbn [List.filter map].
  - split; [intros []|]. split; [intros x []|]. intros _. constructor.
  - destruct (String.eqb_spec (Budget.month b) m) as [E|E]; cbn [negb map].
    + split; [exact IH1|]. split.
      * intros x Hx. right. apply IH2. exact Hx.
      * intros Hnd. apply IH3. inversion Hnd; assumption.
    + split; [|split].
      * intros [H|H]; [congruence | apply IH1; exact H].
      * intros x [H|H]; [left; exact H | right; apply IH2; exact H].
      * intros Hnd. inversion Hnd as [|? ? Hnotin Hnd']; subst.
        constructor; [|apply IH3; exact Hnd'].
        intros Hin. apply Hnotin. apply list_elem_of_In.
        apply IH2. apply list_elem_of_In. exact Hin.
Qed.

(** [setBudget] keeps the months distinct: it drops the budget of the
    submitted month, if any, before it appends. *)
Lemma setBudget_keeps_one_per_month budget w :
  oneBudgetPerMonth (budgets (state w)) ->
  oneBudgetPerMonth (budgets (state (setBudget budget w))).
Proof.
  unfold oneBudgetPerMonth, setBudget. intros H.
  assert (Hb : budgets (state (setBudget budget w))
               = List.filter (fun b => negb (String.eqb (Budget.month b)
                                               (Budget.month budget)))
                   (budgets (state w)) ++ [budget]).
  { unfold setBudget. destruct (signedInUser _); reflexivity. }
  fold (setBudget budget w). rewrite Hb, map_app. cbn [map].
  destruct (months_without (Budget.month budget) (budgets (state w)))
    as (H1 & _ & H3).
  apply NoDup_app. split; [apply H3; exact H|]. split.
  - intros x Hx Hx'. apply list_elem_of_In in Hx, Hx'.
    destruct Hx' as [<- | []]. exact (H1 Hx).
  - repeat constructor. intros Hx. apply list_elem_of_In in Hx. destruct Hx.
Qed.

(** C8 (the code departs from the claim).  [updateBudget] patches the
    month without looking at the other budgets: on a store that holds
    one budget for January and one for February, moving the January
    budget to February leaves two budgets for February. *)
Theorem updateBudget_duplicates_a_month :
  oneBudgetPerMonth (budgets (state signedIn))
  /\ map Budget.month
       (budgets (state (updateBudget "budget_a"
                          (PartialBudget.mk None (Some "2025-02") None None)
                          signedIn)))
     = ["2025-02"; "2025-02"]
  /\ ~ oneBudgetPerMonth
         (budgets (state (updateBudget "budget_a"
                            (PartialBudget.mk None (Some "2025-02") None None)
                            signedIn))).
Proof.
  split; [|split].
  - unfold oneBudgetPerMonth. cbn.
    constructor; [|constructor; [|constructor]].
    + intros H. apply list_elem_of_In in H. destruct H as [H|[]]. discriminate.
    + intros H. apply list_elem_of_In in H. destruct H.
  - reflexivity.
  - unfold oneBudgetPerMonth. intros H. cbn in H.
    inversion H as [|? ? Hn _]; subst. apply Hn. left.
Qed.

End Budgets.

(* ================================================================== *)
(** * Adding a transaction: validation and identifiers *)

Section Validation.
Import Store AddTransactionScreen Samples StoreFacts.

(** C1, as stated, fails: [addTransaction] takes an amount of -5 as it
    takes any other; the record enters the list, the snapshot and,
    with a user signed in, Firestore. *)
Lemma addTransaction_takes_nonpositive_amount :
  let w' := addTransaction env0 refund signedIn in
  (TransactionData.amount refund <= 0)%Q
  /\ transactions (state w') <> transactions (state signedIn)
  /\ transactions (state w')
     = [newTransaction env0 refund; salary; taxi; lunch]
  /\ asyncStorage w' !! STORAGE_KEYS_TRANSACTIONS
     = Some (Json.of_list Json.of_Transaction
               [newTransaction env0 refund; salary; taxi; lunch])
  /\ firestore w' = [syncTransaction "user_1" (newTransaction env0 refund)]
  /\ ~ (forall env d w,
          (TransactionData.amount d <= 0)%Q ->
          transactions (state (addTransaction env d w))
          = transactions (state w)).
Proof.
  cbv zeta. split; [discriminate|]. split; [discriminate|].
  split; [reflexivity|]. split; [|split; [reflexivity|]].
  - rewrite asyncStorage_addTransaction.
    apply (saveData_blobs
             (set_transactions (fun l => newTransaction env0 refund :: l)
                signedIn)).
  - intros H. specialize (H env0 refund signedIn ltac:(discriminate)).
    discriminate H.
Qed.

(** C1, amended.  The guard is in the screen: [handleSave] answers an
    amount text that is empty or parses to a number that is zero or
    negative with the "Invalid Amount" alert and returns before it
    calls the store, so the list, the snapshot and the Firestore log
    are as they were.  [addTransaction] does not look at the amount:
    whatever it is handed becomes the first record of the list. *)
Theorem handleSave_rejects_nonpositive_amount :
  forall (parseFloat : string -> option Q) (env : AddEnv) (date_now : Z)
         (form : Form) (w : World),
    (amount form = ""
     \/ exists q, parseFloat (amount form) = Some q /\ (q <= 0)%Q) ->
    handleSave parseFloat env date_now form w
      = Some (Alert_alert "Invalid Amount"
                "Please enter a valid amount greater than 0", w)
    /\ forall d,
         transactions (state (addTransaction env d w))
         = newTransaction env d :: transactions (state w).
Proof.
  intros parseFloat env date_now form w H.
  split; [|intros d; apply transactions_addTransaction].
  unfold handleSave, invalidAmount.
  destruct H as [-> | (q & -> & Hq)].
  - reflexivity.
  - apply Qle_bool_iff in Hq. rewrite Hq, orb_true_r. reflexivity.
Qed.

Lemma handleSave_rejects_nonpositive_amount_witness :
  handleSave parseWhole env0 1736300000000
    (mkForm "-5" expense "cat_food" "Refund") signedIn
  = Some (Alert_alert "Invalid Amount"
            "Please enter a valid amount greater than 0", signedIn).
Proof.
  apply (handleSave_rejects_nonpositive_amount parseWhole env0 1736300000000
           (mkForm "-5" expense "cat_food" "Refund") signedIn).
  right. exists (-5)%Q. split; [reflexivity | discriminate].
Defined.

End Validation.

Section Identifiers.
Import Store Samples StoreFacts.

Lemma uint_text_free_of_underscore d :
  JsString.free_of "_" (NilEmpty.string_of_uint d) = true.
Proof. induction d; cbn; auto. Qed.

Lemma of_Z_free_of_underscore z : JsString.free_of "_" (JsString.of_Z z) = true.
Proof.
  unfold JsString.of_Z, NilZero.string_of_int, NilZero.string_of_uint.
  assert (H : forall d,
             JsString.free_of "_" (match d with
                          | Decimal.Nil => "0"
                          | _ => NilEmpty.string_of_uint d
                          end) = true).
  { intros d. destruct d; try reflexivity;
      apply (uint_text_free_of_underscore (_ _)). }
  destruct (Z.to_int z) as [d|d]; [apply H|].
  cbn [JsString.free_of]. rewrite H. reflexivity.
Qed.

Lemma to_int_not_nil z : Z.to_int z <> Decimal.Pos Decimal.Nil
                         /\ Z.to_int z <> Decimal.Neg Decimal.Nil.
Proof.
  assert (H : Z.to_int z = Decimal.norm (Z.to_int z)).
  { rewrite <- DecimalZ.to_of, DecimalZ.of_to. reflexivity. }
  split; intros E; rewrite E in H; discriminate H.
Qed.

Lemma of_Z_inj z z' : JsString.of_Z z = JsString.of_Z z' -> z = z'.
Proof.
  unfold JsString.of_Z. intros H.
  apply DecimalZ.to_int_inj.
  destruct (to_int_not_nil z), (to_int_not_nil z').
  assert (Some (Z.to_int z) = Some (Z.to_int z')) as [= E]; [|exact E].
  rewrite <- (NilZero.isi (Z.to_int z)), <- (NilZero.isi (Z.to_int z'))
    by assumption.
  rewrite H. reflexivity.
Qed.

(** A text without underscore is recovered from what follows it up to
    the first underscore. *)
Lemma split_at_underscore a :
  forall a' s s',
    JsString.free_of "_" a = true -> JsString.free_of "_" a' = true ->
    a +:+ String "_" s = a' +:+ String "_" s' -> a = a' /\ s = s'.
Proof.
  induction a as [|c a IH]; intros [|c' a'] s s' Ha Ha'; cbn.
  - intros [= ->]. auto.
  - intros [= <- _]. cbn in Ha'. discriminate.
  - intros [= -> _]. cbn in Ha. discriminate.
  - intros [= -> H]. cbn in Ha, Ha'.
    apply andb_true_iff in Ha as [_ Ha]. apply andb_true_iff in Ha' as [_ Ha'].
    destruct (IH a' s s' Ha Ha' H) as [-> ->]. auto.
Qed.

(** The id generator is injective in the clock reading and the suffix. *)
Lemma new_id_inj now suffix now' suffix' :
  new_id "txn_" now suffix = new_id "txn_" now' suffix' ->
  now = now' /\ suffix = suffix'.
Proof.
  unfold new_id. cbn [String.append]. intros [= H].
  apply split_at_underscore in H as [H1 H2];
    auto using of_Z_free_of_underscore.
  split; [apply of_Z_inj; exact H1 | exact H2].
Qed.

(** C7, as stated, fails: the id is not compared with the ids in the
    list.  With the clock reading and the random suffix of the id of
    [lunch], a valid input gets the id [lunch] already has. *)
Lemma addTransaction_can_repeat_an_id :
  let w' := addTransaction envLunch coffee signedIn in
  (0 < TransactionData.amount coffee)%Q
  /\ In lunch (transactions (state signedIn))
  /\ transactions (state w')
     = [newTransaction envLunch coffee; salary; taxi; lunch]
  /\ Transaction.id (newTransaction envLunch coffee) = Transaction.id lunch
  /\ ~ NoDup (map Transaction.id (transactions (state w')))
  /\ ~ (forall env d w,
          (0 < TransactionData.amount d)%Q ->
          forall t, In t (transactions (state w)) ->
            Transaction.id t <> Transaction.id (newTransaction env d)).
Proof.
  cbv zeta. split; [reflexivity|].
  split; [right; right; left; reflexivity|].
  split; [reflexivity|]. split; [vm_compute; reflexivity|]. split.
  - rewrite transactions_addTransaction. intros H.
    inversion H as [|? ? Hn _]; subst. apply Hn.
    apply list_elem_of_In. right. right. left. vm_compute. reflexivity.
  - intros H.
    apply (H envLunch coffee signedIn eq_refl lunch).
    + right. right. left. reflexivity.
    + vm_compute. reflexivity.
Qed.

(** C7, amended.  For every input and every prior list, [addTransaction]
    makes the list one longer, the new record first, with the id
    [txn_<Date.now()>_<suffix>].  Two ids of that form are equal only
    for the same clock reading and the same suffix; so the ids of the
    list stay distinct whenever no record already carries the new id,
    which nothing in the store checks. *)
Theorem addTransaction_adds_one_record :
  forall (env : AddEnv) (d : TransactionData.t) (w : World),
    let w' := addTransaction env d w in
    let txn := newTransaction env d in
    transactions (state w') = txn :: transactions (state w)
    /\ length (transactions (state w'))
       = S (length (transactions (state w)))
    /\ Transaction.id txn
       = new_id "txn_" (Date_now env) (random_suffix env)
    /\ (forall now' suffix',
          Transaction.id txn = new_id "txn_" now' suffix' ->
          Date_now env = now' /\ random_suffix env = suffix')
    /\ ((forall t, In t (transactions (state w)) ->
           Transaction.id t <> Transaction.id txn) ->
        NoDup (map Transaction.id (transactions (state w))) ->
        NoDup (map Transaction.id (transactions (state w')))).
Proof.
  intros env d w w' txn. subst w' txn.
  rewrite transactions_addTransaction.
  split; [reflexivity|]. split; [reflexivity|]. split; [reflexivity|].
  split; [intros now' suffix' H; apply new_id_inj; exact H|].
  intros Hfresh Hnd. cbn [map]. constructor; [|exact Hnd].
  intros Hin. apply list_elem_of_In, in_map_iff in Hin as (t & Ht & Hin).
  exact (Hfresh t Hin Ht).
Qed.

End Identifiers.

(* ================================================================== *)
(** * Persistence: what is saved is what is loaded *)

Section Persistence.
Import Store Json Iso8601 Iso8601Facts StoreFacts Samples.







End Persistence.

(* ------------------------------------------------------------------ *)
(** ** What is saved is what is loaded, when JSON can carry it *)

Module DoubleStoreFacts.
Import Ieee Ieee.Store.
Import Exact.Store(STORAGE_KEYS_TRANSACTIONS, STORAGE_KEYS_CATEGORIES,
  STORAGE_KEYS_BUDGETS, STORAGE_KEYS_SETTINGS).

Lemma state_checkBudget_doubles env txn w :
  state (checkBudget env txn w) = state w.
Proof.
  unfold checkBudget.
  destruct (find _ _) as [category|]; [|reflexivity].
  destruct (Category.budgetLimit category) as [budgetLimit|]; [|reflexivity].
  destruct (negb (truthy budgetLimit)); [reflexivity|].
  destruct (75 <=? _)%float; reflexivity.
Qed.

Lemma state_addTransaction_doubles env d w :
  state (addTransaction env d w)
  = state (set_transactions (fun l => newTransaction env d :: l) w).
Proof.
  unfold addTransaction.
  destruct (Transaction.type _); [|rewrite state_checkBudget_doubles];
    destruct (signedInUser _); reflexivity.
Qed.

Lemma transactions_addTransaction_doubles env d w :
  transactions (state (addTransaction env d w))
  = newTransaction env d :: transactions (state w).
Proof. rewrite state_addTransaction_doubles. reflexivity. Qed.

Lemma asyncStorage_checkBudget_doubles env txn w :
  asyncStorage (checkBudget env txn w) = asyncStorage w.
Proof.
  unfold checkBudget.
  destruct (find _ _) as [category|]; [|reflexivity].
  destruct (Category.budgetLimit category) as [budgetLimit|]; [|reflexivity].
  destruct (negb (truthy budgetLimit)); [reflexivity|].
  destruct (75 <=? _)%float; reflexivity.
Qed.

Lemma asyncStorage_addTransaction_doubles env d w :
  asyncStorage (addTransaction env d w)
  = asyncStorage
      (saveData (set_transactions (fun l => newTransaction env d :: l) w)).
Proof.
  unfold addTransaction.
  destruct (Transaction.type _); [|rewrite asyncStorage_checkBudget_doubles];
    destruct (signedInUser _); reflexivity.
Qed.

(** After [saveData] each key holds the blob of its collection. *)
Lemma saveData_blobs_doubles w :
  asyncStorage (saveData w) !! STORAGE_KEYS_TRANSACTIONS
    = Some (Json.of_list Json.of_Transaction (transactions (state w)))
  /\ asyncStorage (saveData w) !! STORAGE_KEYS_CATEGORIES
     = Some (Json.of_list Json.of_Category (categories (state w)))
  /\ asyncStorage (saveData w) !! STORAGE_KEYS_BUDGETS
     = Some (Json.of_list Json.of_Budget (budgets (state w)))
  /\ asyncStorage (saveData w) !! STORAGE_KEYS_SETTINGS
     = Some (Json.of_UserSettings (settings (state w))).
Proof.
  unfold saveData, AsyncStorage_setItem. cbn [asyncStorage].
  repeat split.
  - do 3 (rewrite lookup_insert_ne by discriminate). apply lookup_insert_eq.
  - do 2 (rewrite lookup_insert_ne by discriminate). apply lookup_insert_eq.
  - rewrite lookup_insert_ne by discriminate. apply lookup_insert_eq.
  - apply lookup_insert_eq.
Qed.

End DoubleStoreFacts.

Module DoubleJsonFacts.
Import Ieee Ieee.Store Ieee.Json Iso8601 Iso8601Facts.

(** A storable number is written as itself. *)
Lemma of_number_storable x : storable x -> of_number x = JNumber x.
Proof.
  intros [Hf Hz]. unfold of_number. rewrite Hf.
  destruct (is_zero x) eqn:E; [|reflexivity].
  rewrite (Hz eq_refl). reflexivity.
Qed.

(** NaN and the infinities are written as [null]. *)
Lemma of_number_not_finite x : Number_isFinite x = false -> of_number x = JNull.
Proof. intros H. unfold of_number. rewrite H. reflexivity. Qed.

(** What [JSON.stringify] makes of the numbers that are not storable. *)
Example of_number_not_storable :
  of_number nan = JNull
  /\ of_number infinity = JNull
  /\ of_number neg_infinity = JNull
  /\ of_number (-0) = JNumber 0.
Proof. repeat split; vm_compute; reflexivity. Qed.

Lemma to_list_of_list_doubles {A} (enc : A -> json) (dec : json -> option A)
    l :
  Forall (fun x => dec (enc x) = Some x) l ->
  to_list dec (of_list enc l) = Some l.
Proof.
  unfold to_list, of_list. cbn [as_array mbind option_bind].
  intros H. apply mapM_Some_2.
  induction H as [|x l Hx _ IH]; cbn [map]; constructor; assumption.
Qed.

Lemma revive_of_Transaction_doubles x :
  validDates x -> storable (Transaction.amount x) ->
  revive_Transaction (of_Transaction x) = Some x.
Proof.
  intros (Hd & Hc & Hu) Ha. destruct x as [i a ty c ci de d r ca ua].
  cbn [Transaction.date Transaction.createdAt Transaction.updatedAt
       Transaction.amount] in *.
  unfold revive_Transaction, of_Transaction, as_date.
  cbn [Transaction.date Transaction.createdAt Transaction.updatedAt
       Transaction.amount Transaction.id Transaction.type
       Transaction.category Transaction.categoryId Transaction.description
       Transaction.receiptImage].
  rewrite (of_number_storable a Ha).
  destruct r as [img|], ty;
    cbn -[toISOString Date_parse];
    rewrite !Date_parse_toISOString by assumption; reflexivity.
Qed.

Lemma to_of_Category_doubles c :
  (forall l, Category.budgetLimit c = Some l -> storable l) ->
  to_Category (of_Category c) = Some c.
Proof.
  destruct c as [i n ic co ty [l|]]; cbn [Category.budgetLimit]; intros H.
  - unfold of_Category. cbn [Category.budgetLimit optional].
    rewrite (of_number_storable l (H l eq_refl)). destruct ty; reflexivity.
  - destruct ty; reflexivity.
Qed.

Lemma to_of_CategoryBudget_doubles c :
  storable (CategoryBudget.limit c) -> storable (CategoryBudget.spent c) ->
  to_CategoryBudget (of_CategoryBudget c) = Some c.
Proof.
  destruct c as [i l s]; cbn [CategoryBudget.limit CategoryBudget.spent].
  intros Hl Hs. unfold of_CategoryBudget.
  cbn [CategoryBudget.limit CategoryBudget.spent CategoryBudget.categoryId].
  rewrite (of_number_storable l Hl), (of_number_storable s Hs). reflexivity.
Qed.

Lemma to_of_Budget_doubles b :
  storable (Budget.totalBudget b) ->
  Forall (fun cb => storable (CategoryBudget.limit cb)
                    /\ storable (CategoryBudget.spent cb))
    (Budget.categoryBudgets b) ->
  to_Budget (of_Budget b) = Some b.
Proof.
  destruct b as [i m t cbs].
  cbn [Budget.totalBudget Budget.categoryBudgets]. intros Ht Hcbs.
  unfold to_Budget, of_Budget.
  cbn [Budget.totalBudget Budget.categoryBudgets Budget.id Budget.month].
  rewrite (of_number_storable t Ht).
  cbn -[mapM].
  pose proof (to_list_of_list_doubles of_CategoryBudget to_CategoryBudget cbs)
    as H.
  unfold to_list, of_list in H. cbn [as_array mbind option_bind] in H.
  rewrite H; [reflexivity|].
  eapply Forall_impl; [exact Hcbs|].
  intros c [Hl Hs]. apply to_of_CategoryBudget_doubles; assumption.
Qed.

Lemma to_of_UserSettings_doubles u :
  to_UserSettings (of_UserSettings u) = Some u.
Proof. destruct u; reflexivity. Qed.

(** A number that is not finite makes the record one that is not read
    back. *)
Lemma revive_of_Transaction_not_finite x :
  Number_isFinite (Transaction.amount x) = false ->
  revive_Transaction (of_Transaction x) = None.
Proof.
  intros Ha. destruct x as [i a ty c ci de d r ca ua].
  cbn [Transaction.amount] in Ha.
  unfold revive_Transaction, of_Transaction.
  cbn [Transaction.date Transaction.createdAt Transaction.updatedAt
       Transaction.amount Transaction.id Transaction.type
       Transaction.category Transaction.categoryId Transaction.description
       Transaction.receiptImage].
  rewrite (of_number_not_finite a Ha).
  destruct r as [img|]; reflexivity.
Qed.

(** What [loadData] reads from the storage [saveData] has written, when
    the numbers are storable and the instants are [Date] values. *)
Lemma loadData_saved_doubles w w0 :
  Forall validDates (transactions (state w)) ->
  storableNumbers (state w) ->
  asyncStorage w0 = asyncStorage (saveData w) ->
  loadData w0
  = Some (mkWorld
            (mkAppState (transactions (state w)) (categories (state w))
               (budgets (state w)) (settings (state w)) (userId (state w0))
               (isOnline (state w0)) (isSyncing (state w0)))
            (asyncStorage w0) (firestore w0) (alerts w0)).
Proof.
  intros Hv (Hnt & Hnc & Hnb) Hs.
  destruct (DoubleStoreFacts.saveData_blobs_doubles w) as (Ht & Hc & Hb & Hu).
  unfold loadData. rewrite Hs, Ht, Hc, Hb, Hu.
  rewrite (to_list_of_list_doubles of_Transaction revive_Transaction).
  2: { rewrite Forall_forall in Hv, Hnt. apply Forall_forall. intros x Hx.
       apply revive_of_Transaction_doubles; auto. }
  rewrite (to_list_of_list_doubles of_Category to_Category)
    by (eapply Forall_impl; [exact Hnc|]; apply to_of_Category_doubles).
  rewrite (to_list_of_list_doubles of_Budget to_Budget)
    by (eapply Forall_impl; [exact Hnb|];
        intros b [H1 H2]; apply to_of_Budget_doubles; assumption).
  rewrite to_of_UserSettings_doubles.
  reflexivity.
Qed.

(** What it reads when one of the amounts is not finite. *)
Lemma loadData_saved_not_finite w w0 :
  Exists (fun x => Number_isFinite (Transaction.amount x) = false)
    (transactions (state w)) ->
  asyncStorage w0 = asyncStorage (saveData w) ->
  loadData w0 = None.
Proof.
  intros He Hs.
  destruct (DoubleStoreFacts.saveData_blobs_doubles w) as (Ht & _).
  unfold loadData. rewrite Hs, Ht.
  replace (to_list revive_Transaction
             (of_list of_Transaction (transactions (state w))))
    with (@None (list Transaction.t)); [reflexivity|].
  symmetry. unfold to_list, of_list. cbn [as_array mbind option_bind].
  apply mapM_None. apply Exists_exists in He. destruct He as (x & Hx & Ha).
  apply Exists_exists. exists (of_Transaction x). split.
  - apply list_elem_of_fmap. exists x. auto.
  - apply revive_of_Transaction_not_finite. exact Ha.
Qed.

Lemma inStep_saved_doubles w w0 :
  Forall validDates (transactions (state w)) ->
  storableNumbers (state w) ->
  state w0 = state w ->
  asyncStorage w0 = asyncStorage (saveData w) ->
  inStep w0.
Proof.
  intros Hv Hn Hst Hs. unfold inStep. rewrite Hst.
  split; [exact Hv|]. split; [exact Hn|].
  rewrite (loadData_saved_doubles w w0 Hv Hn Hs).
  rewrite <- Hst. destruct w0 as [[] ? ? ?]. reflexivity.
Qed.

End DoubleJsonFacts.

Section DoublePersistence.
Import Ieee Ieee.Store Ieee.Json Ieee.AddTransactionScreen Ieee.Samples.
Import DoubleStoreFacts DoubleJsonFacts.
Import Exact.Store(STORAGE_KEYS_TRANSACTIONS, initialSettings, AddEnv,
  createdAt_now, updatedAt_now).
Import Exact.AddTransactionScreen(navigation_goBack).

(** C5.  Save, then load: for every state of the four collections whose
    instants are [Date] values and whose numbers are finite doubles
    other than the negative zero, [saveData] followed by [loadData], on
    the storage as [saveData] left it and whatever the memory holds
    then, gives back the same transactions, categories, budgets and
    settings, field for field, the three dates of each transaction read
    back from their ISO-8601 texts to the same instants. *)
Theorem save_then_load_of_storable_numbers :
  forall (w w0 : World),
    Forall validDates (transactions (state w)) ->
    storableNumbers (state w) ->
    asyncStorage w0 = asyncStorage (saveData w) ->
    exists w1,
      loadData w0 = Some w1
      /\ transactions (state w1) = transactions (state w)
      /\ categories (state w1) = categories (state w)
      /\ budgets (state w1) = budgets (state w)
      /\ settings (state w1) = settings (state w).
Proof.
  intros w w0 Hv Hn Hs. eexists. split.
  - apply loadData_saved_doubles; eassumption.
  - cbn. auto.
Qed.

Lemma save_then_load_of_storable_numbers_witness :
  exists w1,
    loadData (mkWorld initialState (asyncStorage (saveData signedIn)) [] [])
      = Some w1
    /\ transactions (state w1) = [taxi; lunch]
    /\ categories (state w1) = categories (state signedIn)
    /\ budgets (state w1) = [january]
    /\ settings (state w1) = initialSettings.
Proof.
  apply (save_then_load_of_storable_numbers signedIn
           (mkWorld initialState (asyncStorage (saveData signedIn)) [] [])).
  - repeat constructor; cbn; unfold Calendar.validTime, Calendar.maxTime; lia.
  - split; [|split].
    + repeat constructor; vm_compute; discriminate.
    + apply Forall_forall. intros c Hc l Hl.
      apply list_elem_of_In in Hc.
      repeat (destruct Hc as [<- | Hc]; [try discriminate|]);
        [|destruct Hc].
      injection Hl as <-. split; vm_compute; [reflexivity | discriminate].
    + repeat constructor; vm_compute; discriminate.
  - reflexivity.
Defined.

(** An amount text that is not a number passes the guard of the
    add-transaction screen and is stored as NaN; [saveData] writes it
    as [null], and what is loaded from the storage is not the state
    that was saved. *)
Lemma a_NaN_amount_is_not_loaded_back :
  let saved :=
    handleSave parseWhole env0 1736300000000
      (formAfter (categories (state fresh))
         [onChangeAmount "abc"; onPressCategory 0])
      fresh in
  fst saved = navigation_goBack
  /\ map Transaction.amount (transactions (state (snd saved))) = [nan]
  /\ Forall validDates (transactions (state (snd saved)))
  /\ (exists rest,
        asyncStorage (snd saved) !! STORAGE_KEYS_TRANSACTIONS
        = Some (JArray [JObject (("amount", JNull) :: rest)]))
  /\ loadData (snd saved) = None
  /\ loadData (saveData (snd saved)) = None.
Proof.
  cbv zeta.
  set (form := formAfter _ _).
  assert (Hform : form = Exact.AddTransactionScreen.mkForm "abc" expense
                           "cat_food" "") by (vm_compute; reflexivity).
  rewrite Hform. clear form Hform.
  unfold handleSave.
  replace (invalidAmount parseWhole _) with false by (vm_compute; reflexivity).
  cbn [Exact.AddTransactionScreen.amount
       Exact.AddTransactionScreen.selectedCategoryId
       Exact.AddTransactionScreen.type
       Exact.AddTransactionScreen.description].
  replace (String.eqb "cat_food" "") with false by reflexivity.
  replace (find _ (categories (state fresh)))
    with (Some (Category.mk "cat_food" "Food & Dining" "🍔" "#FF6B6B"
                  expense None)) by (vm_compute; reflexivity).
  cbn [fst snd].
  split; [reflexivity|].
  rewrite transactions_addTransaction_doubles.
  split; [vm_compute; reflexivity|].
  split.
  { repeat constructor; cbn; unfold Calendar.validTime, Calendar.maxTime;
      lia. }
  set (w := addTransaction _ _ _).
  assert (Hblob : asyncStorage w !! STORAGE_KEYS_TRANSACTIONS
                  = Some (of_list of_Transaction (transactions (state w)))).
  { unfold w. rewrite asyncStorage_addTransaction_doubles.
    rewrite state_addTransaction_doubles.
    apply saveData_blobs_doubles. }
  assert (Ht : of_list of_Transaction (transactions (state w))
               = JArray
                   [JObject
                      [("amount", JNull); ("type", JString "expense");
                       ("category", JString "Food & Dining");
                       ("categoryId", JString "cat_food");
                       ("description", JString "Food & Dining");
                       ("date", JString "2025-01-08T01:33:20.000Z");
                       ("id", JString "txn_1736300000000_q7w8e9r0t");
                       ("createdAt", JString "2025-01-08T01:33:20.000Z");
                       ("updatedAt", JString "2025-01-08T01:33:20.000Z")]]).
  { unfold w. rewrite transactions_addTransaction_doubles.
    vm_compute. reflexivity. }
  split; [eexists; rewrite Hblob, Ht; reflexivity|].
  split.
  - unfold loadData. rewrite Hblob, Ht. reflexivity.
  - unfold loadData.
    destruct (saveData_blobs_doubles w) as (-> & _). rewrite Ht. reflexivity.
Qed.

(** X27.  With the numbers as doubles: on a store whose storage is in
    step with the memory, [addTransaction] of a record with a storable
    amount and [setBudget] of a budget with storable numbers lead to a
    store of which the same holds; after [addTransaction] of an amount
    that is NaN or infinite, what [loadData] reads from the storage is
    not a list of transactions. *)
Theorem storage_in_step_when_the_numbers_are_storable env d budget w :
  inStep w ->
  Calendar.validTime (TransactionData.date d) ->
  Calendar.validTime (createdAt_now env) ->
  Calendar.validTime (updatedAt_now env) ->
  (storable (TransactionData.amount d) -> inStep (addTransaction env d w))
  /\ (Number_isFinite (TransactionData.amount d) = false ->
      loadData (addTransaction env d w) = None)
  /\ (storableBudget budget -> inStep (setBudget budget w)).
Proof.
  intros (Hv & (Hnt & Hnc & Hnb) & _) Hd Hc Hu. split; [|split].
  - intros Ha.
    apply inStep_saved_doubles
      with (w := set_transactions (fun l => newTransaction env d :: l) w).
    + cbn. constructor; [|exact Hv]. exact (conj Hd (conj Hc Hu)).
    + cbn. split; [|split]; try assumption. constructor; assumption.
    + apply state_addTransaction_doubles.
    + apply asyncStorage_addTransaction_doubles.
  - intros Ha.
    apply loadData_saved_not_finite
      with (w := set_transactions (fun l => newTransaction env d :: l) w).
    + cbn. apply Exists_cons_hd. exact Ha.
    + apply asyncStorage_addTransaction_doubles.
  - intros Hb.
    apply inStep_saved_doubles with (w := set_budgets
      (fun l => (List.filter (fun b => negb (String.eqb (Budget.month b)
                                          (Budget.month budget))) l
                   ++ [budget])%list) w).
    + exact Hv.
    + cbn. split; [|split]; try assumption.
      apply Forall_app. split; [|constructor; [exact Hb | constructor]].
      apply Forall_forall. intros b Hin. apply list_elem_of_In in Hin.
      apply filter_In in Hin. destruct Hin as [Hin _].
      rewrite Forall_forall in Hnb. apply Hnb. apply list_elem_of_In.
      exact Hin.
    + unfold setBudget. destruct (signedInUser _); reflexivity.
    + unfold setBudget. destruct (signedInUser _); reflexivity.
Qed.

Lemma storage_in_step_when_the_numbers_are_storable_witness :
  inStep (addTransaction env0 coffee fresh)
  /\ inStep (setBudget january fresh).
Proof.
  assert (Hfresh : inStep fresh).
  { split; [constructor|]. split; [|reflexivity].
    split; [constructor|]. split; [|constructor].
    apply Forall_forall. intros c Hc l Hl. apply list_elem_of_In in Hc.
    repeat (destruct Hc as [<- | Hc]; [discriminate|]). destruct Hc. }
  assert (Ht : Calendar.validTime 1736300000000)
    by (unfold Calendar.validTime, Calendar.maxTime; lia).
  destruct (storage_in_step_when_the_numbers_are_storable env0 coffee january
              fresh Hfresh Ht Ht Ht) as (Ha & _ & Hb).
  split.
  - apply Ha. split; vm_compute; [reflexivity | discriminate].
  - apply Hb. repeat constructor; vm_compute; discriminate.
Defined.

End DoublePersistence.

(* ================================================================== *)
(** * The operations run on sample data *)

Section Runs.
Import Store RecurringProcessor Samples.

(** The store test of the testing guide: one add on a fresh store gives
    a list of one and a blob under the transactions key. *)
Example addTransaction_persists :
  let w := addTransaction env0 coffee fresh in
  length (transactions (state w)) = 1%nat
  /\ map Transaction.amount (transactions (state w)) = [4%Q]
  /\ is_Some (asyncStorage w !! STORAGE_KEYS_TRANSACTIONS)
  /\ firestore w = [].
Proof.
  cbv zeta. split; [reflexivity|]. split; [reflexivity|].
  split; [|reflexivity].
  rewrite StoreFacts.asyncStorage_addTransaction.
  destruct (StoreFacts.saveData_blobs
              (set_transactions (fun l => newTransaction env0 coffee :: l)
                 fresh)) as [H _].
  rewrite H. eauto.
Qed.

(** Rent since January, processed in mid April, committed, processed
    again. *)
Example rent_processed_twice :
  exists v1 v2,
    processRecurringTransactions 104 1744675200000 [rent] [lunch] = Some v1
    /\ map TransactionData.date (newTransactions v1)
       = [1738368000000; 1740787200000; 1743465600000]
    /\ processRecurringTransactions 104 1744675200000 [rent]
         (transactions
            (state (commitAll (fun _ => env0) 0 (newTransactions v1) signedIn)))
       = Some v2
    /\ newTransactions v2 = [].
Proof.
  eexists _, _. split; [vm_compute; reflexivity|].
  split; [reflexivity|]. split; [vm_compute; reflexivity | reflexivity].
Qed.

(** An expense that takes a category past 75% of its limit raises the
    alert. *)
Example addTransaction_alerts :
  let limited :=
    mkWorld
      (mkAppState [] [Category.mk "cat_food" "Food & Dining" "F" "#FF6B6B"
                        expense (Some 5%Q)]
         [] initialSettings None true false) ∅ [] [] in
  alerts (addTransaction env0 coffee limited)
  = [sendBudgetAlert "Food & Dining" (4 / 5 * 100)%Q 4%Q 5%Q "USD"].
Proof. vm_compute. reflexivity. Qed.

End Runs.

(* ================================================================== *)
(** * The store's other actions *)

Module ActionFacts.
Import Store StoreActions StoreFacts Json.




Lemma state_push_each uid (l : list Transaction.t) w :
  state (fold_left (fun w txn => call (syncTransaction uid txn) w) l w)
  = state w
  /\ asyncStorage
       (fold_left (fun w txn => call (syncTransaction uid txn) w) l w)
     = asyncStorage w
  /\ firestore (fold_left (fun w txn => call (syncTransaction uid txn) w) l w)
     = firestore w ++ map (syncTransaction uid) l.
Proof. apply (push_each uid l w). Qed.

Lemma alerts_checkBudget_firestore env txn w :
  firestore (checkBudget env txn w) = firestore w.
Proof.
  unfold checkBudget.
  destruct (find _ _) as [category|]; [|reflexivity].
  destruct (Category.budgetLimit category) as [budgetLimit|]; [|reflexivity].
  destruct (Qeq_bool budgetLimit 0); [reflexivity|].
  destruct (Qle_bool 75 _); reflexivity.
Qed.

Lemma userId_checkBudget env txn w :
  signedInUser (checkBudget env txn w) = signedInUser w.
Proof. unfold signedInUser. rewrite state_checkBudget. reflexivity. Qed.

Lemma filter_all {A} (f : A -> bool) l :
  Forall (fun x => f x = true) l -> List.filter f l = l.
Proof.
  induction 1 as [|x l Hx _ IH]; cbn; [reflexivity|]. rewrite Hx, IH.
  reflexivity.
Qed.

Lemma find_none {A} (f : A -> bool) l :
  Forall (fun x => f x = false) l -> find f l = None.
Proof.
  induction 1 as [|x l Hx _ IH]; cbn; [reflexivity|]. rewrite Hx. exact IH.
Qed.

Lemma patchWhere_none now id updates l :
  forall i,
    Forall (fun t => String.eqb (Transaction.id t) id = false) l ->
    patchWhere now id updates i l = l.
Proof.
  induction l as [|x l IH]; intros i H; cbn [patchWhere]; [reflexivity|].
  apply Forall_cons in H as [Hx H]. rewrite Hx, IH by exact H. reflexivity.
Qed.


Lemma patchWhere_ids now id updates l :
  PartialTransaction.id updates = None ->
  forall i,
    map Transaction.id (patchWhere now id updates i l) = map Transaction.id l.
Proof.
  intros Hid. induction l as [|x l IH]; intros i; cbn [patchWhere map];
    [reflexivity|].
  rewrite IH. f_equal. destruct (String.eqb _ _); [|reflexivity].
  unfold patchTransaction. cbn [Transaction.id]. rewrite Hid. reflexivity.
Qed.

Lemma patchWhere_stamp now id updates l :
  PartialTransaction.id updates = None ->
  forall i j t,
    patchWhere now id updates i l !! j = Some t ->
    Transaction.id t = id ->
    Transaction.updatedAt t = now (i + j)%nat.
Proof.
  intros Hid. induction l as [|x l IH]; intros i j t; cbn [patchWhere];
    [discriminate|].
  destruct j as [|j].
  - cbn. intros [= <-].
    destruct (String.eqb_spec (Transaction.id x) id) as [E|E].
    + intros _. rewrite Nat.add_0_r. reflexivity.
    + intros E'. contradiction.
  - cbn. intros H Ht. rewrite (IH (S i) j t H Ht). f_equal. lia.
Qed.

Lemma patchWhere_find now id updates l t0 :
  PartialTransaction.id updates = None ->
  forall i,
    find (fun t => String.eqb (Transaction.id t) id) l = Some t0 ->
    exists j,
      l !! j = Some t0
      /\ find (fun t => String.eqb (Transaction.id t) id)
           (patchWhere now id updates i l)
         = Some (patchTransaction t0 updates (now (i + j)%nat)).
Proof.
  intros Hid. induction l as [|x l IH]; intros i; cbn [find patchWhere];
    [discriminate|].
  destruct (String.eqb (Transaction.id x) id) eqn:E.
  - intros [= <-]. exists 0%nat. split; [reflexivity|].
    assert (Hg : Transaction.id (patchTransaction x updates (now i))
                 = Transaction.id x).
    { unfold patchTransaction. cbn [Transaction.id]. rewrite Hid.
      reflexivity. }
    rewrite Hg, E, Nat.add_0_r. reflexivity.
  - rewrite E. intros H. destruct (IH (S i) H) as (j & Hj & Hf).
    exists (S j). split; [exact Hj|]. rewrite Hf. do 3 f_equal. lia.
Qed.

Lemma patchWhere_renamed now id id' updates l :
  PartialTransaction.id updates = Some id' ->
  id' <> id ->
  forall i,
    Forall (fun t => Transaction.id t <> id) (patchWhere now id updates i l).
Proof.
  intros Hid Hne. induction l as [|x l IH]; intros i; cbn [patchWhere];
    constructor; [|apply IH].
  destruct (String.eqb_spec (Transaction.id x) id) as [E|E]; [|exact E].
  unfold patchTransaction. cbn [Transaction.id]. rewrite Hid. exact Hne.
Qed.

Lemma state_deleteTransaction id w :
  state (deleteTransaction id w)
  = state (set_transactions
             (List.filter (fun txn => negb (String.eqb (Transaction.id txn) id)))
             w).
Proof. unfold deleteTransaction. destruct (signedInUser _); reflexivity. Qed.

Lemma asyncStorage_deleteTransaction id w :
  asyncStorage (deleteTransaction id w)
  = asyncStorage
      (saveData
         (set_transactions
            (List.filter (fun txn => negb (String.eqb (Transaction.id txn) id)))
            w)).
Proof. unfold deleteTransaction. destruct (signedInUser _); reflexivity. Qed.




Lemma syncWithFirestore_calls remote w :
  exists calls,
    firestore (syncWithFirestore remote w) = firestore w ++ calls
    /\ Forall (fun c => signedInUser (syncWithFirestore remote w)
                        = Some (callUser c)) calls.
Proof.
  unfold syncWithFirestore.
  destruct (signedInUser w) as [uid|] eqn:E.
  2: { exists []. split; [rewrite app_nil_r; reflexivity | constructor]. }
  match goal with
  | |- context [fold_left ?f ?l ?w0] =>
      destruct (state_push_each uid l w0) as (Hs & _ & Hf)
  end.
  assert (Hall : Forall (fun c => signedInUser w = Some (callUser c))
                   (map (syncTransaction uid) (transactions (state w)))).
  { apply Forall_map. apply Forall_forall. intros x _. exact E. }
  destruct (negb (isEmpty (transactions _)) && _);
    destruct (negb (isEmpty (categories _)) && _).
  - eexists (_ ++ [_]). cbn [call firestore]. rewrite Hf.
    cbn [firestore saveData AsyncStorage_setItem].
    split; [rewrite <- app_assoc; reflexivity|].
    unfold signedInUser. cbn [call state]. rewrite Hs. cbn [state saveData
      AsyncStorage_setItem userId].
    apply Forall_app. split; [exact Hall|]. repeat constructor. exact E.
  - eexists. rewrite Hf. cbn [firestore saveData AsyncStorage_setItem].
    split; [reflexivity|].
    unfold signedInUser. rewrite Hs. exact Hall.
  - eexists [_]. split; [reflexivity|]. repeat constructor. exact E.
  - exists []. split; [cbn; rewrite app_nil_r; reflexivity | constructor].
Qed.


Lemma syncWithFirestore_pushes_local remote w uid :
  signedInUser w = Some uid ->
  firestoreTransactions remote = [] ->
  transactions (state w) <> [] ->
  transactions (state (syncWithFirestore remote w)) = transactions (state w)
  /\ transactionPushes (firestore (syncWithFirestore remote w))
     = transactionPushes (firestore w)
       ++ map (pair uid) (transactions (state w)).
Proof.
  intros Hu Hr Hl. unfold syncWithFirestore. rewrite Hu, Hr.
  cbn [state set_isSyncing transactions categories].
  destruct (transactions (state w)) as [|t0 local] eqn:Hloc; [congruence|].
  cbn [isEmpty negb andb].
  match goal with
  | |- context [fold_left ?f ?l ?w0] =>
      destruct (state_push_each uid l w0) as (Hs & _ & Hf)
  end.
  destruct (negb (isEmpty (categories (state w))) && _).
  - cbn [call state firestore]. rewrite Hs, Hf.
    cbn [state saveData AsyncStorage_setItem firestore transactions].
    rewrite !transactionPushes_app, transactionPushes_map.
    cbn [transactionPushes flat_map app]. rewrite app_nil_r.
    split; reflexivity.
  - rewrite Hs, Hf.
    cbn [state saveData AsyncStorage_setItem firestore transactions].
    rewrite !transactionPushes_app, transactionPushes_map.
    split; reflexivity.
Qed.

Lemma filter_filter_same {A} (f : A -> bool) l :
  List.filter f (List.filter f l) = List.filter f l.
Proof.
  induction l as [|x l IH]; cbn; [reflexivity|].
  destruct (f x) eqn:E; cbn; [rewrite E, IH|]; auto.
Qed.

Ltac user_cbn :=
  unfold signedInUser in *;
  cbn [state call saveData AsyncStorage_setItem set_transactions
       set_categories set_budgets set_settings set_userId set_isSyncing
       userId firestore] in *.

End ActionFacts.

Section Actions.
Import Store StoreActions StoreFacts Json ActionFacts Samples.



(** X2.  The Firestore log only grows, every call an action adds is made
    for the user signed in when the action ends, and an action that ends
    signed out adds none. *)
Theorem calls_are_for_the_signed_in_user a w w' :
  perform a w = Some w' ->
  exists calls,
    firestore w' = firestore w ++ calls
    /\ Forall (fun c => signedInUser w' = Some (callUser c)) calls
    /\ (signedInUser w' = None -> calls = []).
Proof.
  intros Hp.
  assert (Hmain : exists calls,
    firestore w' = firestore w ++ calls
    /\ Forall (fun c => signedInUser w' = Some (callUser c)) calls).
  2: { destruct Hmain as (calls & Hf & Hall). exists calls.
       split; [exact Hf|]. split; [exact Hall|]. intros Hn.
       destruct Hall as [|c calls Hc _]; [reflexivity | congruence]. }
  destruct a as [env transactionData | now id updates | id
    | now sfx categoryData | id updates | id | budget | id updates
    | updates | | | uid remote | remote | snapshot];
    cbn [perform] in Hp; try (injection Hp as <-).
  - unfold addTransaction.
    match goal with
    | |- context [match Transaction.type ?t with _ => _ end] =>
        destruct (Transaction.type t)
    end.
    + destruct (signedInUser _) as [u|] eqn:E.
      * eexists [_]. split; [reflexivity|]. repeat constructor.
        user_cbn. exact E.
      * exists []. split; [cbn; rewrite app_nil_r; reflexivity | constructor].
    + rewrite userId_checkBudget.
      setoid_rewrite alerts_checkBudget_firestore.
      destruct (signedInUser _) as [u|] eqn:E.
      * eexists [_]. split; [reflexivity|]. repeat constructor.
        user_cbn. exact E.
      * exists []. split; [cbn; rewrite app_nil_r; reflexivity | constructor].
  - unfold updateTransaction.
    destruct (signedInUser _) as [u|] eqn:E.
    + destruct (find _ _).
      * eexists [_]. split; [reflexivity|]. repeat constructor.
        user_cbn. exact E.
      * exists []. split; [cbn; rewrite app_nil_r; reflexivity | constructor].
    + exists []. split; [cbn; rewrite app_nil_r; reflexivity | constructor].
  - unfold deleteTransaction.
    destruct (signedInUser _) as [u|] eqn:E.
    + eexists [_]. split; [reflexivity|]. repeat constructor.
      user_cbn. exact E.
    + exists []. split; [cbn; rewrite app_nil_r; reflexivity | constructor].
  - unfold addCategory.
    destruct (signedInUser _) as [u|] eqn:E.
    + eexists [_]. split; [reflexivity|]. repeat constructor.
      user_cbn. exact E.
    + exists []. split; [cbn; rewrite app_nil_r; reflexivity | constructor].
  - unfold updateCategory.
    destruct (signedInUser _) as [u|] eqn:E.
    + eexists [_]. split; [reflexivity|]. repeat constructor.
      user_cbn. exact E.
    + exists []. split; [cbn; rewrite app_nil_r; reflexivity | constructor].
  - unfold deleteCategory.
    destruct (signedInUser _) as [u|] eqn:E.
    + eexists [_]. split; [reflexivity|]. repeat constructor.
      user_cbn. exact E.
    + exists []. split; [cbn; rewrite app_nil_r; reflexivity | constructor].
  - unfold setBudget.
    destruct (signedInUser _) as [u|] eqn:E.
    + eexists [_]. split; [reflexivity|]. repeat constructor.
      user_cbn. exact E.
    + exists []. split; [cbn; rewrite app_nil_r; reflexivity | constructor].
  - unfold updateBudget.
    destruct (signedInUser _) as [u|] eqn:E.
    + destruct (find _ _).
      * eexists [_]. split; [reflexivity|]. repeat constructor.
        user_cbn. exact E.
      * exists []. split; [cbn; rewrite app_nil_r; reflexivity | constructor].
    + exists []. split; [cbn; rewrite app_nil_r; reflexivity | constructor].
  - unfold updateSettings.
    destruct (signedInUser _) as [u|] eqn:E.
    + eexists [_]. split; [reflexivity|]. repeat constructor.
      user_cbn. exact E.
    + exists []. split; [cbn; rewrite app_nil_r; reflexivity | constructor].
  - unfold loadData in Hp.
    destruct (match asyncStorage w !! STORAGE_KEYS_TRANSACTIONS with
              | Some j => _ | None => _ end) as [t|]; [|discriminate].
    destruct (match asyncStorage w !! STORAGE_KEYS_CATEGORIES with
              | Some j => _ | None => _ end) as [c0|]; [|discriminate].
    destruct (match asyncStorage w !! STORAGE_KEYS_BUDGETS with
              | Some j => _ | None => _ end) as [b|]; [|discriminate].
    destruct (match asyncStorage w !! STORAGE_KEYS_SETTINGS with
              | Some j => _ | None => _ end) as [s|]; [|discriminate].
    cbn [mbind option_bind] in Hp. injection Hp as <-.
    exists []. split; [cbn; rewrite app_nil_r; reflexivity | constructor].
  - exists []. split; [cbn; rewrite app_nil_r; reflexivity | constructor].
  - unfold setUserId.
    destruct (signedInUser (set_userId uid w)) as [u|] eqn:E.
    + destruct (syncWithFirestore_calls remote (set_userId uid w))
        as (calls & Hf & Hall).
      exists calls. split; [exact Hf | exact Hall].
    + exists []. split; [cbn; rewrite app_nil_r; reflexivity|]. constructor.
  - apply syncWithFirestore_calls.
  - exists []. split; [cbn; rewrite app_nil_r; reflexivity | constructor].
Qed.

Lemma calls_are_for_the_signed_in_user_witness :
  exists calls,
    firestore (deleteTransaction "txn_0_none" signedIn)
    = firestore signedIn ++ calls
    /\ Forall (fun c => signedInUser (deleteTransaction "txn_0_none" signedIn)
                        = Some (callUser c)) calls
    /\ (signedInUser (deleteTransaction "txn_0_none" signedIn) = None
        -> calls = []).
Proof.
  apply (calls_are_for_the_signed_in_user (DeleteTransaction "txn_0_none")
           signedIn).
  reflexivity.
Defined.

(** X3.  Deleting the id that [addTransaction] has just given undoes the
    add when no older record carries that id: the list and its blob are
    those of before, and a signed-in user gets the push followed by the
    remote delete. *)
Theorem deleteTransaction_undoes_addTransaction env d w :
  Forall (fun t => Transaction.id t <> Transaction.id (newTransaction env d))
    (transactions (state w)) ->
  let w' := deleteTransaction (Transaction.id (newTransaction env d))
              (addTransaction env d w) in
  transactions (state w') = transactions (state w)
  /\ asyncStorage w' !! STORAGE_KEYS_TRANSACTIONS
     = Some (of_list of_Transaction (transactions (state w)))
  /\ (forall uid, signedInUser w = Some uid ->
        firestore w'
        = firestore w
          ++ [syncTransaction uid (newTransaction env d);
              deleteTransactionFromFirestore uid
                (Transaction.id (newTransaction env d))]).
Proof.
  intros Hfresh w'. subst w'.
  assert (Ht : transactions
                 (state (deleteTransaction (Transaction.id (newTransaction env d))
                           (addTransaction env d w)))
               = transactions (state w)).
  { rewrite state_deleteTransaction. cbn [state set_transactions transactions].
    rewrite transactions_addTransaction. cbn [List.filter].
    rewrite String.eqb_refl. cbn [negb]. apply filter_all.
    eapply Forall_impl; [exact Hfresh|]. intros t Ht. cbn beta.
    destruct (String.eqb_spec (Transaction.id t)
                (Transaction.id (newTransaction env d))); [contradiction|].
    reflexivity. }
  split; [exact Ht|]. split.
  - rewrite asyncStorage_deleteTransaction.
    match goal with
    | |- asyncStorage (saveData ?w1) !! _ = _ =>
        destruct (saveData_blobs w1) as [H _]; rewrite H
    end.
    rewrite state_deleteTransaction in Ht. rewrite Ht. reflexivity.
  - intros uid Hu. unfold deleteTransaction.
    assert (Hu' : signedInUser
                    (saveData
                       (set_transactions
                          (List.filter
                             (fun txn => negb (String.eqb (Transaction.id txn)
                                (Transaction.id (newTransaction env d)))))
                          (addTransaction env d w))) = Some uid).
    { unfold signedInUser. cbn [state saveData AsyncStorage_setItem
        set_transactions userId]. rewrite state_addTransaction. exact Hu. }
    rewrite Hu'. cbn [call firestore saveData AsyncStorage_setItem
      set_transactions].
    unfold addTransaction.
    assert (Hu2 : signedInUser
                    (saveData (set_transactions
                       (fun l => newTransaction env d :: l) w)) = Some uid)
      by exact Hu.
    rewrite Hu2.
    destruct (Transaction.type _);
      [|rewrite alerts_checkBudget_firestore]; cbn [call firestore];
      rewrite <- app_assoc; reflexivity.
Qed.

Lemma deleteTransaction_undoes_addTransaction_witness :
  transactions
    (state (deleteTransaction (Transaction.id (newTransaction env0 coffee))
              (addTransaction env0 coffee signedIn)))
  = [salary; taxi; lunch].
Proof.
  apply (deleteTransaction_undoes_addTransaction env0 coffee signedIn).
  repeat constructor; discriminate.
Defined.

(** X4.  [updateTransaction] with an id that no record carries changes
    nothing in memory and issues no Firestore call, signed in or not. *)
Theorem updateTransaction_unknown_id now id updates w :
  Forall (fun t => Transaction.id t <> id) (transactions (state w)) ->
  state (updateTransaction now id updates w) = state w
  /\ firestore (updateTransaction now id updates w) = firestore w.
Proof.
  intros Hno.
  assert (Hf : Forall (fun t => String.eqb (Transaction.id t) id = false)
                 (transactions (state w))).
  { eapply Forall_impl; [exact Hno|]. intros t Ht. cbn beta.
    destruct (String.eqb_spec (Transaction.id t) id); [contradiction|].
    reflexivity. }
  unfold updateTransaction.
  assert (Hm : set_transactions (patchWhere now id updates 0) w = w).
  { unfold set_transactions. rewrite patchWhere_none by exact Hf.
    destruct w as [[] ? ? ?]. reflexivity. }
  rewrite Hm. destruct (signedInUser _); [|split; reflexivity].
  cbn [state saveData AsyncStorage_setItem]. rewrite find_none by exact Hf.
  split; reflexivity.
Qed.

Lemma updateTransaction_unknown_id_witness :
  state (updateTransaction (fun _ => 1736300000000) "txn_0_none"
           (PartialTransaction.mk None (Some 1%Q) None None None None None
              None None None) signedIn)
  = state signedIn.
Proof.
  apply (updateTransaction_unknown_id (fun _ => 1736300000000) "txn_0_none"
           (PartialTransaction.mk None (Some 1%Q) None None None None None
              None None None) signedIn).
  repeat constructor; discriminate.
Defined.

(** X5.  [updateTransaction] with an id that is in the list and a patch
    that leaves the id alone: the ids stay as they were, in the same
    order, every record with that id gets the time read at its patch as
    its [updatedAt], and a signed-in user gets exactly one push, of the
    first record with that id, patched. *)
Theorem updateTransaction_patches_and_pushes now id updates w uid t0 :
  signedInUser w = Some uid ->
  find (fun t => String.eqb (Transaction.id t) id) (transactions (state w))
    = Some t0 ->
  PartialTransaction.id updates = None ->
  let w' := updateTransaction now id updates w in
  map Transaction.id (transactions (state w'))
    = map Transaction.id (transactions (state w))
  /\ (forall j t,
        transactions (state w') !! j = Some t ->
        Transaction.id t = id -> Transaction.updatedAt t = now j)
  /\ exists j,
       transactions (state w) !! j = Some t0
       /\ firestore w'
          = firestore w
            ++ [syncTransaction uid (patchTransaction t0 updates (now j))].
Proof.
  intros Hu Hfind Hid w'. subst w'. unfold updateTransaction.
  assert (Hu' : signedInUser
                  (saveData
                     (set_transactions (patchWhere now id updates 0) w))
                = Some uid) by exact Hu.
  rewrite Hu'. cbn [state saveData AsyncStorage_setItem set_transactions
    transactions].
  destruct (patchWhere_find now id updates _ t0 Hid 0%nat Hfind)
    as (j & Hj & Hf).
  rewrite Hf. cbn [call state firestore transactions].
  split; [apply patchWhere_ids; exact Hid|]. split.
  - intros j' t Ht Ht'.
    apply (patchWhere_stamp now id updates _ Hid 0%nat j' t Ht Ht').
  - exists j. split; [exact Hj | reflexivity].
Qed.

Lemma updateTransaction_patches_and_pushes_witness :
  map Transaction.id
    (transactions
       (state (updateTransaction (fun _ => 1736300000000)
                 "txn_1736000000000_k3j2h1g0f"
                 (PartialTransaction.mk None (Some 20%Q) None None None None
                    None None None None) signedIn)))
  = map Transaction.id (transactions (state signedIn)).
Proof.
  apply (updateTransaction_patches_and_pushes (fun _ => 1736300000000)
           "txn_1736000000000_k3j2h1g0f"
           (PartialTransaction.mk None (Some 20%Q) None None None None None
              None None None) signedIn "user_1" lunch);
    reflexivity.
Defined.

(** X6.  A patch that changes the id is applied in memory and in the
    storage but never pushed: after it no record carries the id the
    action was called with, so the lookup that precedes the push finds
    nothing. *)
Theorem updateTransaction_renaming_is_not_pushed now id id' updates w :
  PartialTransaction.id updates = Some id' ->
  id' <> id ->
  let w' := updateTransaction now id updates w in
  Forall (fun t => Transaction.id t <> id) (transactions (state w'))
  /\ firestore w' = firestore w.
Proof.
  intros Hid Hne w'. subst w'.
  pose proof (patchWhere_renamed now id id' updates (transactions (state w))
                Hid Hne 0%nat) as Hall.
  unfold updateTransaction. destruct (signedInUser _).
  - cbn [state saveData AsyncStorage_setItem set_transactions transactions].
    rewrite find_none.
    + split; [exact Hall | reflexivity].
    + eapply Forall_impl; [exact Hall|]. intros t Ht. cbn beta.
      destruct (String.eqb_spec (Transaction.id t) id); [contradiction|].
      reflexivity.
  - split; [exact Hall | reflexivity].
Qed.

Lemma updateTransaction_renaming_is_not_pushed_witness :
  firestore
    (updateTransaction (fun _ => 1736300000000)
       "txn_1736000000000_k3j2h1g0f"
       (PartialTransaction.mk (Some "txn_renamed") None None None None None
          None None None None) signedIn)
  = [].
Proof.
  apply (updateTransaction_renaming_is_not_pushed (fun _ => 1736300000000)
           "txn_1736000000000_k3j2h1g0f" "txn_renamed"
           (PartialTransaction.mk (Some "txn_renamed") None None None None
              None None None None None) signedIn);
    [reflexivity | discriminate].
Defined.

(** X7.  Signing out clears nothing: the transactions, the storage and
    the log are as before.  When another user then signs in and the
    remote collection of that user is empty, the transactions left in
    memory are pushed, one by one, under the new user's id. *)
Theorem sign_out_keeps_data_for_the_next_user w uid remote0 cats buds sets :
  uid <> "" ->
  transactions (state w) <> [] ->
  let w1 := setUserId None remote0 w in
  let w2 := setUserId (Some uid) (mkFetched [] cats buds sets) w1 in
  transactions (state w1) = transactions (state w)
  /\ asyncStorage w1 = asyncStorage w
  /\ firestore w1 = firestore w
  /\ transactions (state w2) = transactions (state w)
  /\ transactionPushes (firestore w2)
     = transactionPushes (firestore w)
       ++ map (pair uid) (transactions (state w)).
Proof.
  intros Hne Hl w1 w2. subst w2 w1.
  replace (setUserId None remote0 w) with (set_userId None w) by reflexivity.
  split; [reflexivity|]. split; [reflexivity|]. split; [reflexivity|].
  assert (Hu : signedInUser (set_userId (Some uid) (set_userId None w))
               = Some uid).
  { unfold signedInUser, JsString.truthy. cbn [set_userId state userId].
    destruct (String.eqb_spec uid "") as [|_]; [contradiction | reflexivity]. }
  unfold setUserId. rewrite Hu.
  apply (syncWithFirestore_pushes_local (mkFetched [] cats buds sets)
           (set_userId (Some uid) (set_userId None w)) uid Hu eq_refl Hl).
Qed.

Lemma sign_out_keeps_data_for_the_next_user_witness :
  transactionPushes
    (firestore
       (setUserId (Some "user_2") (mkFetched [] [] [] None)
          (setUserId None (mkFetched [] [] [] None) signedIn)))
  = [("user_2", salary); ("user_2", taxi); ("user_2", lunch)].
Proof.
  apply (sign_out_keeps_data_for_the_next_user signedIn "user_2"
           (mkFetched [] [] [] None) [] [] None); discriminate.
Defined.

(** X8.  [deleteCategory] leaves every transaction in place, those of
    the deleted category too; a transaction added afterwards under the
    deleted category is stored like any other and raises no budget
    alert. *)
Theorem deleteCategory_leaves_orphans env d id w :
  TransactionData.categoryId d = id ->
  let w1 := deleteCategory id w in
  transactions (state w1) = transactions (state w)
  /\ transactions (state (addTransaction env d w1))
     = newTransaction env d :: transactions (state w)
  /\ alerts (addTransaction env d w1) = alerts w.
Proof.
  intros Hd w1. subst w1.
  assert (Hst : state (deleteCategory id w)
                = state (set_categories
                           (List.filter
                              (fun cat => negb (String.eqb (Category.id cat) id)))
                           w)).
  { unfold deleteCategory. destruct (signedInUser _); reflexivity. }
  assert (Hal : alerts (deleteCategory id w) = alerts w).
  { unfold deleteCategory. destruct (signedInUser _); reflexivity. }
  split; [rewrite Hst; reflexivity|].
  split; [rewrite transactions_addTransaction, Hst; reflexivity|].
  unfold addTransaction.
  assert (Hnone :
    forall w0, state w0 = state (set_transactions
                                   (fun l => newTransaction env d :: l)
                                   (deleteCategory id w)) ->
               checkBudget env (newTransaction env d) w0 = w0).
  { intros w0 H0. unfold checkBudget. rewrite H0.
    cbn [state set_transactions categories]. rewrite Hst.
    cbn [state set_categories categories newTransaction
         Transaction.categoryId]. rewrite Hd.
    rewrite find_none; [reflexivity|].
    apply Forall_forall. intros c Hc. apply list_elem_of_In in Hc.
    apply filter_In in Hc. destruct Hc as [_ Hc].
    destruct (String.eqb (Category.id c) id); [discriminate | reflexivity]. }
  destruct (Transaction.type _).
  - destruct (signedInUser _); exact Hal.
  - rewrite Hnone; [destruct (signedInUser _); exact Hal|].
    destruct (signedInUser _); reflexivity.
Qed.

Lemma deleteCategory_leaves_orphans_witness :
  transactions (state (deleteCategory "cat_food" signedIn))
  = [salary; taxi; lunch].
Proof.
  apply (deleteCategory_leaves_orphans env0 coffee "cat_food" signedIn).
  reflexivity.
Defined.

(** X9.  [setBudget] twice for the same month: the budgets are those of
    the second call alone. *)
Theorem setBudget_last_write_wins b1 b2 w :
  Budget.month b1 = Budget.month b2 ->
  budgets (state (setBudget b2 (setBudget b1 w)))
  = budgets (state (setBudget b2 w)).
Proof.
  intros Hm.
  assert (Hb : forall b w0,
             budgets (state (setBudget b w0))
             = List.filter (fun x => negb (String.eqb (Budget.month x)
                                             (Budget.month b)))
                 (budgets (state w0)) ++ [b]).
  { intros b w0. unfold setBudget. destruct (signedInUser _); reflexivity. }
  rewrite !Hb, Hm, List.filter_app, filter_filter_same.
  cbn [List.filter]. rewrite Hm, String.eqb_refl. cbn [negb].
  rewrite app_nil_r. reflexivity.
Qed.

Lemma setBudget_last_write_wins_witness :
  budgets (state (setBudget (Budget.mk "budget_c" "2025-02" 900 [])
                    (setBudget february signedIn)))
  = budgets (state (setBudget (Budget.mk "budget_c" "2025-02" 900 [])
                      signedIn)).
Proof.
  apply (setBudget_last_write_wins february
           (Budget.mk "budget_c" "2025-02" 900 []) signedIn).
  reflexivity.
Defined.

(** X10.  The merge of a signed-in user replaces the budgets by the
    fetched ones, in memory and in the storage, whatever the local ones
    were and also when none was fetched; it issues no call that writes
    a budget or the settings. *)
Theorem merge_takes_the_remote_budgets remote w uid :
  signedInUser w = Some uid ->
  let w' := syncWithFirestore remote w in
  budgets (state w') = firestoreBudgets remote
  /\ asyncStorage w' !! STORAGE_KEYS_BUDGETS
     = Some (of_list of_Budget (firestoreBudgets remote))
  /\ List.filter isBudgetOrSettings (firestore w')
     = List.filter isBudgetOrSettings (firestore w).
Proof.
  intros Hu w'. subst w'. unfold syncWithFirestore. rewrite Hu.
  match goal with
  | |- context [fold_left ?f ?l ?w0] =>
      destruct (state_push_each uid l w0) as (Hs & Ha & Hf)
  end.
  match goal with
  | |- context [saveData ?w1] =>
      destruct (saveData_blobs w1) as (_ & _ & Hb & _)
  end.
  assert (Hnone : forall l, List.filter isBudgetOrSettings
                              (map (syncTransaction uid) l) = []).
  { induction l; [reflexivity | exact IHl]. }
  destruct (negb (isEmpty (transactions _)) && _);
    destruct (negb (isEmpty (categories _)) && _);
    cbn [call state asyncStorage firestore];
    try rewrite Hs; try rewrite Ha; try rewrite Hf;
    (split; [reflexivity|]); (split; [exact Hb|]);
    cbn [firestore saveData AsyncStorage_setItem];
    rewrite ?List.filter_app, ?Hnone; cbn [List.filter isBudgetOrSettings];
    rewrite ?app_nil_r; reflexivity.
Qed.

Lemma merge_takes_the_remote_budgets_witness :
  budgets (state (syncWithFirestore (mkFetched [] [] [] None) signedIn)) = [].
Proof.
  apply (merge_takes_the_remote_budgets (mkFetched [] [] [] None) signedIn
           "user_1").
  reflexivity.
Defined.

End Actions.

(* ================================================================== *)
(** * The recurring processor: what the drafts are *)

Module DraftFacts.
Import Calendar CalendarFacts DateFns DateFnsFacts RecurringProcessor
  RecurringFacts ProcessorFacts RecurringDrafts.

Lemma cursors_bounds fuel now frequency :
  forall nextDate cs,
    cursors fuel now frequency nextDate = Some cs ->
    Forall (fun c => nextDate <= c <= now) cs.
Proof.
  induction fuel as [|fuel IH]; intros nextDate cs; cbn [cursors].
  - destruct (nextDate <=? now); [discriminate|]. intros [= <-]. constructor.
  - destruct (Z.leb_spec nextDate now) as [Hle|_].
    2: { intros [= <-]. constructor. }
    destruct (cursors fuel now frequency (getNextDate nextDate frequency))
      as [l|] eqn:E; [|discriminate].
    cbn. intros [= <-]. constructor; [lia|].
    pose proof (getNextDate_advances nextDate frequency) as Ha.
    eapply Forall_impl; [exact (IH _ _ E)|].
    intros c Hc. cbn beta in Hc. unfold msPerDay in Ha. lia.
Qed.

Lemma forEach_callback_due now l existing fuel r v v' :
  In r l ->
  existingTransactions v = existing ->
  Forall (dueOccurrence now l existing) (newTransactions v) ->
  forEach_callback fuel now r v = Some v' ->
  Forall (dueOccurrence now l existing) (newTransactions v').
Proof.
  intros Hin Hex Hall. unfold forEach_callback.
  destruct (RecurringTransaction.isActive r) eqn:Hact; cbn [negb].
  2: { intros [= <-]. exact Hall. }
  destruct (match RecurringTransaction.endDate r with
            | Some e => e <? now | None => false end) eqn:Hend.
  { intros [= <-]. exact Hall. }
  rewrite while_nextDate_spec.
  destruct (cursors _ _ _ _) as [cs|] eqn:Hcs; [|discriminate].
  cbn. intros [= <-]. cbn [newTransactions].
  apply Forall_app. split; [exact Hall|].
  apply Forall_map. apply Forall_forall. intros c Hc.
  apply list_elem_of_In in Hc. apply filter_In in Hc. destruct Hc as [Hc Hno].
  pose proof (cursors_bounds _ _ _ _ _ Hcs) as Hb.
  rewrite Forall_forall in Hb. specialize (Hb c).
  rewrite list_elem_of_In in Hb. specialize (Hb Hc).
  pose proof (getNextDate_advances
                (default (RecurringTransaction.startDate r)
                   (RecurringTransaction.lastProcessed r))
                (RecurringTransaction.frequency r)) as Ha.
  exists r. cbn [occurrence TransactionData.date].
  split; [exact Hin|]. split; [exact Hact|]. split.
  { intros e He. rewrite He in Hend. apply Z.ltb_ge in Hend. exact Hend. }
  split; [reflexivity|]. unfold msPerDay in Ha. split; [lia|]. split; [lia|].
  apply negb_true_iff in Hno. unfold alreadyExists in *.
  cbn [existingTransactions]. rewrite <- Hex. exact Hno.
Qed.

Lemma forEach_due now l existing fuel :
  forall l' v v',
    (forall r, In r l' -> In r l) ->
    existingTransactions v = existing ->
    Forall (dueOccurrence now l existing) (newTransactions v) ->
    forEach fuel now l' v = Some v' ->
    Forall (dueOccurrence now l existing) (newTransactions v').
Proof.
  induction l' as [|r l' IH]; intros v v' Hsub Hex Hall; cbn [forEach].
  - intros [= <-]. exact Hall.
  - destruct (forEach_callback fuel now r v) as [v1|] eqn:E1; [|discriminate].
    cbn. intros H.
    destruct (forEach_callback_frame _ _ _ _ _ E1) as (_ & He1 & _).
    eapply (IH v1 v'); [| congruence | | exact H].
    + intros r' Hr'. apply Hsub. right. exact Hr'.
    + eapply forEach_callback_due; [| exact Hex | exact Hall | exact E1].
      apply Hsub. left. reflexivity.
Qed.

Lemma addMonths_lands date amount :
  amount <> 0 ->
  let k := MonthIndex (Day date) + amount in
  MonthIndex (Day (addMonths date amount)) = k
  /\ DateFromTime (addMonths date amount)
     = Z.min (DateFromTime date) (MonthStart (k + 1) - MonthStart k)
  /\ TimeWithinDay (addMonths date amount) = TimeWithinDay date.
Proof.
  intros Ha k. rewrite (addMonths_day date amount Ha). fold k.
  pose proof (TimeWithinDay_range date) as Htw.
  pose proof (DateFromDay_range (Day date)) as Hd.
  pose proof (MonthStart_step k) as Hs.
  unfold DateFromTime.
  rewrite Day_MakeDate, TimeWithinDay_MakeDate by exact Htw.
  set (m := Z.min (DateFromDay (Day date)) (MonthStart (k + 1) - MonthStart k)).
  assert (Hm : 1 <= m <= MonthStart (k + 1) - MonthStart k) by (unfold m; lia).
  assert (Hk : MonthIndex (MonthStart k + m - 1) = k)
    by (apply MonthIndex_unique; lia).
  split; [exact Hk|]. split; [|reflexivity].
  rewrite DateFromDay_MonthStart, Hk. lia.
Qed.

Lemma cursors_fixed_step now frequency p :
  0 < p ->
  (forall d, getNextDate d frequency = d + p) ->
  forall fuel x cs,
    cursors fuel now frequency x = Some cs ->
    cs = map (fun i => x + Z.of_nat i * p)
           (seq 0 (Z.to_nat ((now - x) / p + 1))).
Proof.
  intros Hp Hstep. induction fuel as [|fuel IH]; intros x cs; cbn [cursors].
  - destruct (Z.leb_spec x now) as [|Hlt]; [discriminate|]. intros [= <-].
    replace (Z.to_nat ((now - x) / p + 1)) with 0%nat; [reflexivity|].
    assert ((now - x) / p < 0) by (apply Z.div_lt_upper_bound; lia). lia.
  - destruct (Z.leb_spec x now) as [Hle|Hlt].
    2: { intros [= <-].
         replace (Z.to_nat ((now - x) / p + 1)) with 0%nat; [reflexivity|].
         assert ((now - x) / p < 0) by (apply Z.div_lt_upper_bound; lia).
         lia. }
    destruct (cursors fuel now frequency (getNextDate x frequency))
      as [l|] eqn:E; [|discriminate].
    cbn. intros [= <-]. rewrite Hstep in E. apply IH in E.
    assert (H0 : 0 <= (now - x) / p) by (apply Z.div_pos; lia).
    replace ((now - (x + p)) / p + 1) with ((now - x) / p) in E.
    2: { replace (now - (x + p)) with (now - x + (-1) * p) by lia.
         rewrite Z.div_add by lia. lia. }
    replace (Z.to_nat ((now - x) / p + 1))
      with (S (Z.to_nat ((now - x) / p))) by lia.
    cbn [seq map]. rewrite <- seq_shift, map_map, E.
    f_equal; [lia|]. apply map_ext. intros i. lia.
Qed.

Lemma alreadyExists_untouched l existing r d :
  Forall (fun txn => JsString.includes (Transaction.description txn)
                       (autoDescription r) = false) existing ->
  alreadyExists (mkVars l existing []) r d = false.
Proof.
  intros H. unfold alreadyExists. cbn [existingTransactions].
  induction H as [|txn ex Ht _ IH]; cbn [existsb]; [reflexivity|].
  rewrite Ht, IH. reflexivity.
Qed.

Lemma filter_true {A} (f : A -> bool) l :
  (forall x, f x = true) -> List.filter f l = l.
Proof.
  intros H. induction l as [|x l IH]; cbn; [reflexivity|].
  rewrite H, IH. reflexivity.
Qed.

End DraftFacts.

Section Drafts.
Import Calendar CalendarFacts DateFns DateFnsFacts RecurringProcessor
  RecurringFacts ProcessorFacts RecurringDrafts DraftFacts Samples.

(** X11.  The processor returns, and every draft it returns is an
    occurrence of a definition of the list that is active and whose end
    date, if any, is not before [now]: the fields are those of the
    definition, the description is its tag, there is no receipt, the
    date is later than the date last processed (or the start) and not
    later than [now], and no existing transaction with the tag lies
    within a day of it. *)
Theorem drafts_are_due_occurrences now l existing :
  exists v,
    processRecurringTransactions (fuel_for now l) now l existing = Some v
    /\ Forall (dueOccurrence now l existing) (newTransactions v).
Proof.
  destruct (processRecurringTransactions_total now l existing) as [v Hv].
  exists v. split; [exact Hv|].
  unfold processRecurringTransactions in Hv.
  eapply forEach_due; [| | | exact Hv].
  - auto.
  - reflexivity.
  - constructor.
Qed.

(** X12.  A monthly or yearly step lands in the month one, or twelve,
    months on, at the same time of day, on the same day of the month
    or, when that month is shorter, on its last day; the day of the
    month never grows along the steps. *)
Theorem calendar_step_keeps_or_clamps_the_day date frequency :
  frequency = monthly \/ frequency = yearly ->
  let n := match frequency with yearly => 12 | _ => 1 end in
  let next := getNextDate date frequency in
  let k := MonthIndex (Day date) + n in
  MonthIndex (Day next) = k
  /\ getDate next
     = Z.min (getDate date) (MonthStart (k + 1) - MonthStart k)
  /\ getDate next <= getDate date
  /\ TimeWithinDay next = TimeWithinDay date.
Proof.
  intros Hf n next k.
  assert (H : MonthIndex (Day next) = k
              /\ DateFromTime next
                 = Z.min (DateFromTime date) (MonthStart (k + 1) - MonthStart k)
              /\ TimeWithinDay next = TimeWithinDay date).
  { subst next k n. destruct Hf as [-> | ->]; unfold getNextDate, addYears.
    - apply addMonths_lands. lia.
    - replace (1 * 12) with 12 by lia. apply addMonths_lands. lia. }
  destruct H as (H1 & H2 & H3). unfold getDate.
  split; [exact H1|]. split; [exact H2|]. split; [lia | exact H3].
Qed.

Lemma calendar_step_keeps_or_clamps_the_day_witness :
  getDate (getNextDate 1738281600000 monthly) = 28
  /\ getDate (getNextDate (getNextDate 1738281600000 monthly) monthly) = 28.
Proof.
  split.
  - destruct (calendar_step_keeps_or_clamps_the_day 1738281600000 monthly
                (or_introl eq_refl)) as (_ & H & _).
    rewrite H. vm_compute. reflexivity.
  - destruct (calendar_step_keeps_or_clamps_the_day
                (getNextDate 1738281600000 monthly) monthly
                (or_introl eq_refl)) as (_ & H & _).
    rewrite H. vm_compute. reflexivity.
Defined.

(** X13.  A daily or weekly definition that is active and not ended,
    against a list without its tag: the processor returns the
    occurrences one period, two periods, ... after the date last
    processed (or the start), as many as whole periods have passed. *)
Theorem fixed_period_occurrences now r existing :
  RecurringTransaction.frequency r = daily
  \/ RecurringTransaction.frequency r = weekly ->
  RecurringTransaction.isActive r = true ->
  (forall e, RecurringTransaction.endDate r = Some e -> now <= e) ->
  Forall (fun txn => JsString.includes (Transaction.description txn)
                       (autoDescription r) = false) existing ->
  let p := match RecurringTransaction.frequency r with
           | weekly => 7 * msPerDay
           | _ => msPerDay
           end in
  let s := default (RecurringTransaction.startDate r)
             (RecurringTransaction.lastProcessed r) in
  exists v,
    processRecurringTransactions (fuel_for now [r]) now [r] existing = Some v
    /\ newTransactions v
       = map (fun i => occurrence r (s + Z.of_nat i * p))
           (seq 1 (Z.to_nat ((now - s) / p))).
Proof.
  intros Hf Hact Hend Hex p s.
  destruct (processRecurringTransactions_total now [r] existing) as [v Hv].
  exists v. split; [exact Hv|].
  unfold processRecurringTransactions in Hv. cbn [forEach] in Hv.
  destruct (forEach_callback _ _ _ _) as [v1|] eqn:E; [|discriminate].
  cbn in Hv. injection Hv as <-.
  unfold forEach_callback in E. rewrite Hact in E. cbn [negb] in E.
  assert (Hnot : match RecurringTransaction.endDate r with
                 | Some e => e <? now | None => false end = false).
  { destruct (RecurringTransaction.endDate r) as [e|]; [|reflexivity].
    apply Z.ltb_ge. apply Hend. reflexivity. }
  rewrite Hnot in E. rewrite while_nextDate_spec in E.
  destruct (cursors _ _ _ _) as [cs|] eqn:Hcs; [|discriminate].
  cbn [mbind option_bind] in E. injection E as <-.
  cbn [newTransactions recurringTransactions existingTransactions app].
  rewrite filter_true.
  2: { intros d. rewrite alreadyExists_untouched by exact Hex. reflexivity. }
  assert (Hp : 0 < p) by (subst p; destruct Hf as [-> | ->]; unfold msPerDay; lia).
  assert (Hstep : forall d, getNextDate d (RecurringTransaction.frequency r)
                            = d + p).
  { intros d. subst p. destruct Hf as [-> | ->]; unfold getNextDate.
    - rewrite addDays_ms. lia.
    - rewrite addWeeks_ms. lia. }
  apply (cursors_fixed_step now _ p Hp Hstep) in Hcs.
  rewrite Hstep in Hcs. fold s in Hcs.
  replace ((now - (s + p)) / p + 1) with ((now - s) / p) in Hcs.
  2: { replace (now - (s + p)) with (now - s + (-1) * p) by lia.
       rewrite Z.div_add by lia. lia. }
  rewrite Hcs, <- seq_shift, !map_map. apply map_ext. intros i.
  f_equal. lia.
Qed.

Lemma fixed_period_occurrences_witness :
  exists v,
    processRecurringTransactions
      (fuel_for 1735992000000
         [RecurringTransaction.mk "rec_2" 3 expense "Food & Dining"
            "cat_food" "Coffee" daily 1735689600000 None None true
            1735689600000])
      1735992000000
      [RecurringTransaction.mk "rec_2" 3 expense "Food & Dining"
         "cat_food" "Coffee" daily 1735689600000 None None true
         1735689600000]
      [lunch] = Some v
    /\ map TransactionData.date (newTransactions v)
       = [1735776000000; 1735862400000; 1735948800000].
Proof.
  destruct (fixed_period_occurrences 1735992000000
              (RecurringTransaction.mk "rec_2" 3 expense "Food & Dining"
                 "cat_food" "Coffee" daily 1735689600000 None None true
                 1735689600000) [lunch])
    as (v & Hv & Hn).
  - left. reflexivity.
  - reflexivity.
  - discriminate.
  - repeat constructor.
  - exists v. split; [exact Hv|]. rewrite Hn. reflexivity.
Defined.

End Drafts.

(* ================================================================== *)
(** * The budget checks *)

Module BudgetCheckFacts.
Import Calendar CalendarFacts JsDate Store BudgetAlerts BudgetChecks.

Lemma Qceiling_div a :
  Qceiling (inject_Z a / inject_Z (1000 * 60 * 60 * 24))
  = - ((- a) / 86400000).
Proof.
  change (1000 * 60 * 60 * 24) with 86400000.
  unfold Qceiling, Qfloor, Qdiv, Qinv, inject_Z, Qmult, Qopp. cbn.
  f_equal. f_equal. lia.
Qed.

Lemma DayFromYear_mono y y' : y <= y' -> DayFromYear y <= DayFromYear y'.
Proof. unfold DayFromYear. intros. div_lia. Qed.

Lemma next_month_start t :
  MakeDay (YearFromTime t) (MonthFromTime t + 1) 1
  = MonthStart (MonthIndex (Day t) + 1).
Proof.
  unfold YearFromTime, MonthFromTime. rewrite MakeDay_of_day.
  replace (MonthIndex (Day t) - MonthFromDay (Day t) + (MonthFromDay (Day t) + 1))
    with (MonthIndex (Day t) + 1) by lia.
  lia.
Qed.

End BudgetCheckFacts.

Section BudgetCheckProperties.
Import Calendar CalendarFacts JsDate Store BudgetAlerts BudgetChecks
  BudgetCheckFacts Samples.

(** X14.  [getDaysUntilReset] counts the days of the month that are
    left, the current one included: the length of the month minus the
    day of the month plus one, a number from 1 to 31, whatever the time
    of day (for the years from 100 on, which the [Date] constructor
    takes as they are). *)
Theorem getDaysUntilReset_counts_the_days_left now :
  100 <= getFullYear now <= 275000 ->
  let k := MonthIndex (Day now) in
  exists n,
    getDaysUntilReset now = Some n
    /\ n = MonthStart (k + 1) - MonthStart k - getDate now + 1
    /\ 1 <= n <= 31.
Proof.
  intros Hy k. unfold getDaysUntilReset, new_Date, getFullYear, getMonth in *.
  destruct (Z.leb_spec 0 (YearFromTime now)) as [_|]; [|lia].
  destruct (Z.leb_spec (YearFromTime now) 99) as [|_]; [lia|]. cbn [andb].
  rewrite next_month_start. fold k.
  pose proof (MonthIndex_bracket (Day now)) as Hb. fold k in Hb.
  pose proof (MonthStart_step k) as Hs.
  pose proof (YearFromDay_bracket (Day now)) as Hyb.
  pose proof (DayFromYear_mono (YearFromDay (Day now) + 1) 275001) as Hup.
  pose proof (DayFromYear_mono 100 (YearFromDay (Day now))) as Hlo.
  unfold YearFromTime in Hy.
  assert (Hv : validTimeb (MakeDate (MonthStart (k + 1)) (MakeTime 0 0 0 0))
               = true).
  { unfold validTimeb, MakeDate, MakeTime, maxTime, msPerDay.
    specialize (Hup ltac:(lia)). specialize (Hlo ltac:(lia)).
    change (DayFromYear 275001) with 99722525 in Hup.
    change (DayFromYear 100) with (-683003) in Hlo.
    apply andb_true_intro. split; apply Z.leb_le; lia. }
  rewrite Hv. cbn [mbind option_bind]. eexists. split; [reflexivity|].
  rewrite Qceiling_div. unfold getDate, DateFromTime.
  rewrite DateFromDay_MonthStart. fold k.
  pose proof (TimeWithinDay_range now) as Htw.
  pose proof (MakeDate_Day now) as Hn.
  unfold MakeDate, MakeTime, msPerDay in *.
  assert (Hq : (- (MonthStart (k + 1) * 86400000 + (0 * msPerHour + 0 * msPerMinute + 0 * msPerSecond + 0) - now)) / 86400000
               = - (MonthStart (k + 1) - Day now)).
  { rewrite <- Hn at 1. unfold msPerHour, msPerMinute, msPerSecond.
    div_lia. }
  rewrite Hq. lia.
Qed.

Lemma getDaysUntilReset_counts_the_days_left_witness :
  exists n,
    getDaysUntilReset 1738326896000 = Some n
    /\ n = MonthStart (MonthIndex (Day 1738326896000) + 1)
           - MonthStart (MonthIndex (Day 1738326896000))
           - getDate 1738326896000 + 1
    /\ 1 <= n <= 31.
Proof.
  apply (getDaysUntilReset_counts_the_days_left 1738326896000).
  vm_compute. split; discriminate.
Defined.

(** X15.  [checkBudgetAlerts] sends one alert for each category that has
    a limit other than zero and whose [getBudgetHealth], on what was
    spent since the start of the month, is not [good], in the order of
    the categories, and none for the other categories. *)
Theorem checkBudgetAlerts_alerts_unless_good now transactions categories
    currency :
  let monthStart := setHours0 (setDate now 1) in
  checkBudgetAlerts now transactions categories currency
  = flat_map
      (fun category =>
         match Category.budgetLimit category with
         | None => []
         | Some limit =>
             if Qeq_bool limit 0 then []
             else
               let spent := totalSpent monthStart transactions category in
               match getBudgetHealth spent limit with
               | good => []
               | _ => [sendBudgetAlert (Category.name category)
                         (spent / limit * 100)%Q spent limit currency]
               end
         end)
      categories.
Proof.
  intros monthStart. unfold checkBudgetAlerts. fold monthStart.
  induction categories as [|category categories IH]; [reflexivity|].
  cbn [flat_map]. rewrite IH. f_equal.
  destruct (Category.budgetLimit category) as [limit|]; [|reflexivity].
  destruct (Qeq_bool limit 0); [reflexivity|].
  cbv zeta. unfold getBudgetHealth.
  set (p := (totalSpent monthStart transactions category / limit * 100)%Q).
  destruct (Qle_bool 100 p) eqn:E100.
  - assert (E90 : Qle_bool 90 p = true).
    { apply Qle_bool_iff. apply Qle_bool_iff in E100.
      eapply Qle_trans; [|exact E100]. discriminate. }
    rewrite E90. reflexivity.
  - destruct (Qle_bool 90 p); [reflexivity|].
    destruct (Qle_bool 75 p); reflexivity.
Qed.

(** X16.  The check the store runs after an expense is the one of
    [checkBudgetAlerts], on the one category of the expense: the alerts
    it adds are those [checkBudgetAlerts] sends for that category, none
    when the store has no such category. *)
Theorem store_check_is_checkBudgetAlerts env txn w :
  alerts (checkBudget env txn w)
  = alerts w
    ++ match find (fun cat => String.eqb (Category.id cat)
                                (Transaction.categoryId txn))
               (categories (state w)) with
       | Some category =>
           checkBudgetAlerts (alert_now env) (transactions (state w))
             [category] (UserSettings.currency (settings (state w)))
       | None => []
       end.
Proof.
  unfold checkBudget, checkBudgetAlerts.
  destruct (find _ _) as [category|]; [|rewrite app_nil_r; reflexivity].
  cbn [flat_map]. rewrite app_nil_r.
  destruct (Category.budgetLimit category) as [limit|];
    [|rewrite app_nil_r; reflexivity].
  destruct (Qeq_bool limit 0); [rewrite app_nil_r; reflexivity|].
  cbv zeta. unfold totalSpent, monthStart.
  set (p := (Qsum _ / limit * 100)%Q).
  destruct (Qle_bool 100 p) eqn:E100.
  - assert (E75 : Qle_bool 75 p = true).
    { apply Qle_bool_iff. apply Qle_bool_iff in E100.
      eapply Qle_trans; [|exact E100]. discriminate. }
    rewrite E75. reflexivity.
  - destruct (Qle_bool 90 p) eqn:E90.
    + assert (E75 : Qle_bool 75 p = true).
      { apply Qle_bool_iff. apply Qle_bool_iff in E90.
        eapply Qle_trans; [|exact E90]. discriminate. }
      rewrite E75. reflexivity.
    + destruct (Qle_bool 75 p); [reflexivity|].
      rewrite app_nil_r. reflexivity.
Qed.

End BudgetCheckProperties.

(* ================================================================== *)
(** * The formatters: months, recent transactions, spending *)

Module MonthKeyFacts.
Import Calendar CalendarFacts JsText JsDate DateFnsMonth Store Formatters
  BudgetCheckFacts.

Lemma zeros_S n : zeros (S n) = String "0" (zeros n).
Proof.
  unfold zeros. cbn [repeat String.concat].
  destruct (repeat "0" n) eqn:E; reflexivity.
Qed.

Lemma uint_of_zeros n : forall s d,
  NilEmpty.uint_of_string s = Some d ->
  exists d', NilEmpty.uint_of_string (zeros n +:+ s) = Some d'
             /\ Z.of_uint d' = Z.of_uint d.
Proof.
  induction n as [|n IH]; intros s d Hs.
  - exists d. split; [exact Hs | reflexivity].
  - destruct (IH s d Hs) as (d' & Hd' & Hz).
    exists (Decimal.D0 d'). rewrite zeros_S.
    change (NilEmpty.uint_of_string (String "0" (zeros n) +:+ s))
      with (uint_of_char "0" (NilEmpty.uint_of_string (zeros n +:+ s))).
    rewrite Hd'. split; [reflexivity | exact Hz].
Qed.

Lemma to_int_nonneg y : 0 <= y -> exists d, Z.to_int y = Decimal.Pos d.
Proof. destruct y; [eexists; reflexivity | eexists; reflexivity | lia]. Qed.

Lemma Number_zeros_of_Z n y :
  0 <= y -> Number (zeros n +:+ JsString.of_Z y) = Some y.
Proof.
  intros Hy. destruct (to_int_nonneg y Hy) as [d Hd].
  destruct (to_int_not_nil y) as [Hnil _]. rewrite Hd in Hnil.
  assert (Hdn : d <> Decimal.Nil) by congruence.
  pose proof (DecimalZ.of_to y) as Hof. rewrite Hd in Hof. cbn in Hof.
  unfold JsString.of_Z. rewrite Hd. cbn [NilZero.string_of_int].
  pose proof (NilZero.usu d Hdn) as Hu.
  set (s := NilZero.string_of_uint d) in *.
  assert (Hs : NilEmpty.uint_of_string s = Some d).
  { unfold NilZero.uint_of_string in Hu. destruct s; [discriminate | exact Hu]. }
  assert (Hne : s <> "").
  { intros E. rewrite E in Hu. discriminate. }
  destruct (uint_of_zeros n s d Hs) as (d' & Hd' & Hz).
  unfold Number.
  destruct n as [|n].
  - change (zeros 0 +:+ s) with s in *.
    destruct (String.eqb_spec s "") as [|_]; [contradiction|].
    assert (Hi : NilZero.int_of_string s = Some (Decimal.Pos d)).
    { pose proof (NilZero.isi (Decimal.Pos d)) as Hisi.
      cbn [NilZero.string_of_int] in Hisi. apply Hisi; congruence. }
    rewrite Hi. cbn. congruence.
  - rewrite zeros_S in *.
    change (String "0" (zeros n) +:+ s) with (String "0" (zeros n +:+ s)) in *.
    cbn [String.eqb]. unfold NilZero.int_of_string, NilZero.uint_of_string.
    change (Ascii.eqb "0" (Ascii.Ascii true false true true false true false
                             false)) with false.
    cbn iota. rewrite Hd'. cbn. congruence.
Qed.

Lemma uint_text_free_of_minus d :
  JsString.free_of "-" (NilEmpty.string_of_uint d) = true.
Proof. induction d; cbn; auto. Qed.

Lemma free_of_app c a b :
  JsString.free_of c (a +:+ b)
  = JsString.free_of c a && JsString.free_of c b.
Proof.
  induction a as [|x a IH]; [reflexivity|].
  change (String x a +:+ b) with (String x (a +:+ b)).
  cbn [JsString.free_of]. rewrite IH, andb_assoc. reflexivity.
Qed.

Lemma zeros_free_of_minus n : JsString.free_of "-" (zeros n) = true.
Proof.
  induction n as [|n IH]; [reflexivity|]. rewrite zeros_S. cbn. exact IH.
Qed.

Lemma of_Z_free_of_minus y :
  0 <= y -> JsString.free_of "-" (JsString.of_Z y) = true.
Proof.
  intros Hy. destruct (to_int_nonneg y Hy) as [d Hd].
  unfold JsString.of_Z. rewrite Hd. cbn [NilZero.string_of_int].
  unfold NilZero.string_of_uint.
  destruct d; try reflexivity; apply (uint_text_free_of_minus (_ _)).
Qed.

Lemma split_free sep b :
  JsString.free_of sep b = true -> split sep b = [b].
Proof.
  induction b as [|c b IH]; [reflexivity|].
  cbn [split JsString.free_of]. rewrite Ascii.eqb_sym.
  destruct (Ascii.eqb c sep); cbn [negb andb]; [discriminate|].
  intros H. rewrite (IH H). reflexivity.
Qed.

Lemma split_at sep a b :
  JsString.free_of sep a = true ->
  JsString.free_of sep b = true ->
  split sep (a +:+ String sep b) = [a; b].
Proof.
  intros Ha Hb. induction a as [|c a IH].
  - change ("" +:+ String sep b) with (String sep b). cbn [split].
    rewrite Ascii.eqb_refl, (split_free sep b Hb). reflexivity.
  - change (String c a +:+ String sep b) with (String c (a +:+ String sep b)).
    cbn [split]. cbn [JsString.free_of] in Ha. rewrite Ascii.eqb_sym in Ha.
    destruct (Ascii.eqb c sep); cbn [negb andb] in Ha; [discriminate|].
    rewrite (IH Ha). reflexivity.
Qed.

Lemma addLeadingZeros_nonneg y k :
  0 <= y ->
  exists n, addLeadingZeros y k = zeros n +:+ JsString.of_Z y.
Proof.
  intros Hy. unfold addLeadingZeros, padStart0.
  destruct (Z.ltb_spec y 0); [lia|]. rewrite Z.abs_eq by exact Hy.
  eexists. reflexivity.
Qed.

Lemma startOfMonth_MonthStart d :
  startOfMonth d = MakeDate (MonthStart (MonthIndex (Day d))) 0.
Proof.
  unfold startOfMonth, setHours0, setDate, YearFromTime, MonthFromTime.
  rewrite Day_MakeDate by apply TimeWithinDay_range.
  rewrite MakeDay_of_day. f_equal.
  replace (MonthIndex (Day d) - MonthFromDay (Day d) + MonthFromDay (Day d))
    with (MonthIndex (Day d)) by lia.
  lia.
Qed.

Lemma endOfMonth_MonthStart d :
  endOfMonth d = MakeDate (MonthStart (MonthIndex (Day d) + 1)) 0 - 1.
Proof.
  unfold endOfMonth, setFullYear, getFullYear, getMonth, YearFromTime,
    MonthFromTime.
  rewrite Day_MakeDate by apply TimeWithinDay_range.
  rewrite MakeDay_of_day.
  replace (MonthIndex (Day d) - MonthFromDay (Day d)
           + (MonthFromDay (Day d) + 1))
    with (MonthIndex (Day d) + 1) by lia.
  unfold MakeDate, MakeTime, msPerDay, msPerHour, msPerMinute, msPerSecond.
  lia.
Qed.

Lemma MonthIndex_MonthStart k : MonthIndex (MonthStart k) = k.
Proof.
  apply MonthIndex_unique. pose proof (MonthStart_step k). lia.
Qed.

Lemma isWithinInterval_month k x :
  isWithinInterval x (MakeDate (MonthStart k) 0)
    (MakeDate (MonthStart (k + 1)) 0 - 1)
  = (MonthIndex (Day x) =? k).
Proof.
  unfold isWithinInterval, MakeDate.
  pose proof (MakeDate_Day x) as Hx. pose proof (TimeWithinDay_range x) as Ht.
  unfold MakeDate, msPerDay in *.
  pose proof (MonthIndex_bracket (Day x)) as Hb.
  destruct (Z.eqb_spec (MonthIndex (Day x)) k) as [E|E].
  - rewrite E in Hb. apply andb_true_intro. split; apply Z.leb_le; lia.
  - apply andb_false_iff.
    destruct (Z.leb_spec (MonthStart k * 86400000 + 0) x) as [H1|H1];
      [|left; reflexivity].
    destruct (Z.leb_spec x (MonthStart (k + 1) * 86400000 + 0 - 1)) as [H2|H2];
      [|right; reflexivity].
    exfalso. apply E. apply MonthIndex_unique. lia.
Qed.

Lemma MonthIndex_same d t :
  (MonthIndex (Day d) =? MonthIndex (Day t))
  = (getFullYear d =? getFullYear t) && (getMonth d =? getMonth t).
Proof.
  unfold MonthIndex, getFullYear, getMonth, YearFromTime, MonthFromTime.
  pose proof (MonthFromDay_range (Day d)). pose proof (MonthFromDay_range (Day t)).
  destruct (Z.eqb_spec (YearFromDay (Day d)) (YearFromDay (Day t)));
    destruct (Z.eqb_spec (MonthFromDay (Day d)) (MonthFromDay (Day t)));
    cbn [andb]; [apply Z.eqb_eq | apply Z.eqb_neq ..]; lia.
Qed.

Lemma monthInterval_getMonthKey t :
  100 <= getFullYear t <= 275000 ->
  monthInterval (getMonthKey t)
  = Some (MakeDate (MonthStart (MonthIndex (Day t))) 0,
          MakeDate (MonthStart (MonthIndex (Day t) + 1)) 0 - 1).
Proof.
  intros Hy. unfold monthInterval, getMonthKey, format_yyyy_MM.
  destruct (Z.ltb_spec 0 (getFullYear t)) as [_|]; [|lia].
  pose proof (MonthFromDay_range (Day t)) as Hm.
  destruct (addLeadingZeros_nonneg (getFullYear t) 4 ltac:(lia)) as [n1 ->].
  destruct (addLeadingZeros_nonneg (getMonth t + 1) 2
              ltac:(unfold getMonth, MonthFromTime; lia)) as [n2 ->].
  match goal with
  | |- context ["-" +:+ ?b] => change ("-" +:+ b) with (String "-" b)
  end.
  rewrite split_at.
  2: { rewrite free_of_app, zeros_free_of_minus, of_Z_free_of_minus by lia.
       reflexivity. }
  2: { rewrite free_of_app, zeros_free_of_minus, of_Z_free_of_minus
         by (unfold getMonth, MonthFromTime; lia).
       reflexivity. }
  cbn [map]. rewrite !Number_zeros_of_Z
    by (unfold getMonth, MonthFromTime; lia).
  cbn [mbind option_bind].
  replace (getMonth t + 1 - 1) with (getMonth t) by lia.
  unfold new_Date.
  destruct (Z.leb_spec 0 (getFullYear t)) as [_|]; [|lia].
  destruct (Z.leb_spec (getFullYear t) 99) as [|_]; [lia|]. cbn [andb].
  unfold getFullYear, getMonth, YearFromTime, MonthFromTime in *.
  rewrite MakeDay_of_day.
  replace (MonthIndex (Day t) - MonthFromDay (Day t) + MonthFromDay (Day t))
    with (MonthIndex (Day t)) by lia.
  set (k := MonthIndex (Day t)).
  replace (MonthStart k + 1 - 1) with (MonthStart k) by lia.
  pose proof (MonthIndex_bracket (Day t)) as Hb. fold k in Hb.
  pose proof (MonthStart_step k) as Hs.
  pose proof (YearFromDay_bracket (Day t)) as Hyb.
  pose proof (DayFromYear_mono (YearFromDay (Day t) + 1) 275001
                ltac:(lia)) as Hup.
  pose proof (DayFromYear_mono 100 (YearFromDay (Day t)) ltac:(lia)) as Hlo.
  change (DayFromYear 275001) with 99722525 in Hup.
  change (DayFromYear 100) with (-683003) in Hlo.
  assert (Hv : validTimeb (MakeDate (MonthStart k) (MakeTime 0 0 0 0)) = true).
  { unfold validTimeb, MakeDate, MakeTime, maxTime, msPerDay.
    apply andb_true_intro. split; apply Z.leb_le; lia. }
  rewrite Hv. cbn [mbind option_bind].
  rewrite startOfMonth_MonthStart, endOfMonth_MonthStart.
  change (MakeTime 0 0 0 0) with 0.
  rewrite Day_MakeDate by (unfold msPerDay; lia).
  rewrite MonthIndex_MonthStart. reflexivity.
Qed.

Lemma getMonthKey_truthy t : JsString.truthy (getMonthKey t) = true.
Proof.
  unfold JsString.truthy, getMonthKey, format_yyyy_MM.
  destruct (addLeadingZeros _ 4); reflexivity.
Qed.

End MonthKeyFacts.

Module SortFacts.
Import JsArray.

Section Sorting.
Context {A : Type} (key : A -> Q).

Lemma sort_insert_perm (compareFn : A -> A -> Q) x l :
  Permutation (sort_insert compareFn x l) (x :: l).
Proof.
  induction l as [|y l IH]; cbn [sort_insert]; [reflexivity|].
  destruct (negb _); [|reflexivity].
  rewrite IH. apply perm_swap.
Qed.

Lemma sort_perm (compareFn : A -> A -> Q) l :
  Permutation (sort compareFn l) l.
Proof.
  induction l as [|x l IH]; cbn [sort]; [reflexivity|].
  rewrite sort_insert_perm. constructor. exact IH.
Qed.

Lemma sort_insert_sorted x l :
  StronglySorted (fun a b => (key b <= key a)%Q) l ->
  StronglySorted (fun a b => (key b <= key a)%Q)
    (sort_insert (fun a b => key b - key a)%Q x l).
Proof.
  induction 1 as [|y l Hs IH Hall]; cbn [sort_insert].
  - repeat constructor.
  - destruct (Qle_bool (key y - key x) 0) eqn:E; cbn [negb].
    + apply Qle_bool_iff in E.
      constructor; [constructor; assumption|].
      constructor; [lra|].
      eapply Forall_impl; [exact Hall|]. intros b Hb. cbn beta in Hb. lra.
    + assert (Hlt : (0 < key y - key x)%Q).
      { apply Qnot_le_lt. intros H. apply Qle_bool_iff in H. congruence. }
      constructor; [exact IH|].
      apply (Permutation_Forall
               (Permutation_sym (sort_insert_perm _ x l))).
      constructor; [lra | exact Hall].
Qed.

Lemma sort_sorted l :
  StronglySorted (fun a b => (key b <= key a)%Q)
    (sort (fun a b => key b - key a)%Q l).
Proof.
  induction l as [|x l IH]; cbn [sort]; [constructor|].
  apply sort_insert_sorted. exact IH.
Qed.

End Sorting.

Lemma sorted_split {A} (R : A -> A -> Prop) n l :
  StronglySorted R l ->
  StronglySorted R (firstn n l)
  /\ Forall (fun a => Forall (R a) (skipn n l)) (firstn n l).
Proof.
  intros H. revert n. induction H as [|x l Hs IH Hall]; intros n.
  - rewrite firstn_nil. split; constructor.
  - destruct n as [|n]; cbn [firstn skipn]; [split; constructor|].
    destruct (IH n) as [IH1 IH2]. split.
    + constructor; [exact IH1|].
      apply Forall_forall. intros b Hb. apply subseteq_take in Hb.
      rewrite Forall_forall in Hall. apply Hall. exact Hb.
    + constructor; [|exact IH2].
      apply Forall_forall. intros b Hb. apply subseteq_drop in Hb.
      rewrite Forall_forall in Hall. apply Hall. exact Hb.
Qed.

Lemma sorted_impl {A} (R R' : A -> A -> Prop) l :
  (forall a b, R a b -> R' a b) ->
  StronglySorted R l -> StronglySorted R' l.
Proof.
  intros HR. induction 1 as [|x l Hs IH Hall]; constructor; [exact IH|].
  eapply Forall_impl; [exact Hall|]. intros b. apply HR.
Qed.

End SortFacts.

Module SumFacts.
Import Store.

Lemma fold_left_Qplus l : forall a, (fold_left Qplus l a == a + Qsum l)%Q.
Proof.
  unfold Qsum. induction l as [|x l IH]; intros a; cbn [fold_left].
  - lra.
  - rewrite (IH (a + x)%Q), (IH (0 + x)%Q). lra.
Qed.

Lemma Qsum_cons x l : (Qsum (x :: l) == x + Qsum l)%Q.
Proof. unfold Qsum at 1. cbn [fold_left]. rewrite fold_left_Qplus. lra. Qed.

Lemma Qsum_nil : Qsum [] = 0%Q.
Proof. reflexivity. Qed.

Lemma Qsum_perm l l' : Permutation l l' -> (Qsum l == Qsum l')%Q.
Proof.
  induction 1 as [|x l l' _ IH|x y l|l l' l'' _ IH1 _ IH2].
  - reflexivity.
  - rewrite !Qsum_cons, IH. reflexivity.
  - rewrite !Qsum_cons. lra.
  - rewrite IH1. exact IH2.
Qed.

Lemma Qsum_map_plus {A} (f g : A -> Q) l :
  (Qsum (map (fun x => f x + g x) l) == Qsum (map f l) + Qsum (map g l))%Q.
Proof.
  induction l as [|x l IH]; cbn [map]; [rewrite !Qsum_nil; lra|].
  rewrite !Qsum_cons, IH. lra.
Qed.

Lemma Qsum_map_ext {A} (f g : A -> Q) l :
  (forall x, In x l -> (f x == g x)%Q) ->
  (Qsum (map f l) == Qsum (map g l))%Q.
Proof.
  induction l as [|x l IH]; intros H; cbn [map]; [reflexivity|].
  rewrite !Qsum_cons.
  assert (Hx : (f x == g x)%Q) by (apply H; left; reflexivity).
  assert (Hl : (Qsum (map f l) == Qsum (map g l))%Q)
    by (apply IH; intros y Hy; apply H; right; exact Hy).
  rewrite Hx, Hl. reflexivity.
Qed.

Lemma Qsum_map_scale {A} (f : A -> Q) c l :
  (Qsum (map (fun x => f x * c) l) == Qsum (map f l) * c)%Q.
Proof.
  induction l as [|x l IH]; cbn [map]; [rewrite !Qsum_nil; lra|].
  rewrite !Qsum_cons, IH. lra.
Qed.

Lemma Qsum_nonneg l : Forall (fun x => (0 <= x)%Q) l -> (0 <= Qsum l)%Q.
Proof.
  induction 1 as [|x l Hx _ IH]; [rewrite Qsum_nil; lra|].
  rewrite Qsum_cons. lra.
Qed.

(** Dropping the terms that are not positive from a sum of terms that
    are not negative. *)
Lemma Qsum_filter_positive {A} (f : A -> Q) l :
  Forall (fun x => (0 <= f x)%Q) l ->
  (Qsum (map f (List.filter (fun x => negb (Qle_bool (f x) 0)) l))
   == Qsum (map f l))%Q.
Proof.
  induction 1 as [|x l Hx _ IH]; [reflexivity|]. cbn [List.filter map].
  destruct (Qle_bool (f x) 0) eqn:E; cbn [negb map].
  - apply Qle_bool_iff in E. rewrite Qsum_cons, IH. lra.
  - rewrite !Qsum_cons, IH. reflexivity.
Qed.

(** One term of a list with distinct keys. *)
Lemma Qsum_one_key {A} (key : A -> string) (k : string) (a : Q) l :
  NoDup (map key l) ->
  In k (map key l) ->
  (Qsum (map (fun x => if String.eqb k (key x) then a else 0) l) == a)%Q.
Proof.
  induction l as [|x l IH]; cbn [map]; intros Hnd Hin; [destruct Hin|].
  apply NoDup_cons in Hnd as [Hx Hnd]. rewrite Qsum_cons.
  destruct (String.eqb_spec k (key x)) as [E|E].
  - rewrite (Qsum_map_ext _ (fun _ => 0%Q)).
    + assert (H0 : forall l' : list A,
                 (Qsum (map (fun _ => 0%Q) l') == 0)%Q).
      { induction l' as [|y l' IH']; [reflexivity|]. cbn [map].
        rewrite Qsum_cons, IH'. lra. }
      rewrite H0. lra.
    + intros y Hy. destruct (String.eqb_spec k (key y)) as [E'|]; [|reflexivity].
      exfalso. apply Hx. rewrite <- E, E'. apply list_elem_of_In.
      apply in_map. exact Hy.
  - destruct Hin as [Hin|Hin]; [congruence|]. rewrite (IH Hnd Hin). lra.
Qed.

End SumFacts.

Module SpendingFacts.
Import Calendar JsText JsDate DateFnsMonth Store Formatters JsArray Spending
  SumFacts SortFacts MonthKeyFacts.

Lemma spent_partition (cats : list Category.t) :
  NoDup (map Category.id cats) ->
  forall E : list Transaction.t,
    Forall (fun txn => In (Transaction.categoryId txn) (map Category.id cats))
      E ->
    (Qsum (map (fun category =>
                  Qsum (map Transaction.amount
                          (List.filter
                             (fun txn => String.eqb (Transaction.categoryId txn)
                                           (Category.id category)) E)))
             cats)
     == Qsum (map Transaction.amount E))%Q.
Proof.
  intros Hnd. induction 1 as [|t E Ht _ IH]; cbn [List.filter map].
  - change (Qsum []) with 0%Q.
    induction cats as [|c cats IHc]; [reflexivity|]. cbn [map].
    rewrite Qsum_cons, IHc; [lra|].
    apply NoDup_cons in Hnd as [_ Hnd]. exact Hnd.
  - rewrite Qsum_cons, <- IH.
    rewrite <- (Qsum_one_key Category.id (Transaction.categoryId t)
                  (Transaction.amount t) cats Hnd Ht) at 1.
    rewrite <- Qsum_map_plus. apply Qsum_map_ext. intros c _.
    destruct (String.eqb (Transaction.categoryId t) (Category.id c));
      cbn [map]; [rewrite Qsum_cons|]; lra.
Qed.

Lemma spent_nonneg (E : list Transaction.t) (p : Transaction.t -> bool) :
  Forall (fun txn => (0 <= Transaction.amount txn)%Q) E ->
  (0 <= Qsum (map Transaction.amount (List.filter p E)))%Q.
Proof.
  intros H. apply Qsum_nonneg. apply Forall_map.
  apply Forall_forall. intros x Hx. apply list_elem_of_In in Hx.
  apply filter_In in Hx. destruct Hx as [Hx _].
  rewrite Forall_forall in H. apply H. apply list_elem_of_In. exact Hx.
Qed.

End SpendingFacts.

Section FormatterProperties.
Import Calendar CalendarFacts JsText JsDate DateFnsMonth Store Formatters
  JsArray Spending SumFacts SortFacts MonthKeyFacts SpendingFacts.

(** X17.  The key [getMonthKey] gives for a date selects the month of
    that date: [calculateMonthlyStats] with that key counts exactly the
    transactions of the same year and month, sums their incomes and
    their expenses, and divides the expenses by the length of that
    month (for the years from 100 on, which the [Date] constructor
    takes as they are). *)
Theorem month_key_selects_its_month now t transactions :
  100 <= getFullYear t <= 275000 ->
  let inMonth :=
    List.filter
      (fun txn => (getFullYear (Transaction.date txn) =? getFullYear t)
                  && (getMonth (Transaction.date txn) =? getMonth t))
      transactions in
  let total type :=
    Qsum (map Transaction.amount
            (List.filter
               (fun txn => TransactionType_eqb (Transaction.type txn) type)
               inMonth)) in
  let k := MonthIndex (Day t) in
  calculateMonthlyStats now transactions (Some (getMonthKey t))
  = Some (mkMonthlyStats (total income) (total expense)
            (total income - total expense) (length inMonth)
            (total expense / inject_Z (MonthStart (k + 1) - MonthStart k))).
Proof.
  intros Hy inMonth total k.
  unfold calculateMonthlyStats, targetMonth.
  rewrite getMonthKey_truthy, (monthInterval_getMonthKey t Hy).
  cbn [mbind option_bind]. fold k.
  assert (Hf : List.filter
                 (fun txn => isWithinInterval (Transaction.date txn)
                               (MakeDate (MonthStart k) 0)
                               (MakeDate (MonthStart (k + 1)) 0 - 1))
                 transactions = inMonth).
  { subst inMonth. apply filter_ext. intros txn.
    rewrite isWithinInterval_month. apply MonthIndex_same. }
  rewrite Hf. fold (total income). fold (total expense).
  assert (Hd : getDate (MakeDate (MonthStart (k + 1)) 0 - 1)
               = MonthStart (k + 1) - MonthStart k).
  { unfold getDate, DateFromTime.
    replace (MakeDate (MonthStart (k + 1)) 0 - 1)
      with (MakeDate (MonthStart (k + 1) - 1) (msPerDay - 1))
      by (unfold MakeDate, msPerDay; lia).
    rewrite Day_MakeDate by (unfold msPerDay; lia).
    pose proof (MonthStart_step k) as Hs.
    rewrite DateFromDay_MonthStart.
    rewrite (MonthIndex_unique (MonthStart (k + 1) - 1) k) by lia. lia. }
  rewrite Hd. reflexivity.
Qed.

Lemma month_key_selects_its_month_witness :
  calculateMonthlyStats 0 [Samples.salary; Samples.taxi; Samples.remote1]
    (Some (getMonthKey 1736000000000))
  = Some (mkMonthlyStats 3000 22.5 (3000 - 22.5) 2
            (22.5 / inject_Z (MonthStart (MonthIndex (Day 1736000000000) + 1)
                              - MonthStart (MonthIndex (Day 1736000000000))))).
Proof.
  apply (month_key_selects_its_month 0 1736000000000
           [Samples.salary; Samples.taxi; Samples.remote1]).
  vm_compute. split; discriminate.
Defined.

(** X18.  [getCurrentMonthTransactions] keeps, in their order, exactly
    the transactions dated in the year and month of [now]. *)
Theorem getCurrentMonthTransactions_same_month now transactions :
  getCurrentMonthTransactions now transactions
  = List.filter
      (fun txn => (getFullYear (Transaction.date txn) =? getFullYear now)
                  && (getMonth (Transaction.date txn) =? getMonth now))
      transactions.
Proof.
  unfold getCurrentMonthTransactions.
  rewrite startOfMonth_MonthStart, endOfMonth_MonthStart.
  apply filter_ext. intros txn.
  rewrite isWithinInterval_month. apply MonthIndex_same.
Qed.

(** X19.  [getRecentTransactions] with a limit that is not negative
    returns the [limit] newest transactions, or all of them when there
    are fewer, newest first: what it leaves out is no newer than what
    it returns. *)
Theorem getRecentTransactions_newest_first transactions limit :
  0 <= limit ->
  let recent := getRecentTransactions transactions (Some limit) in
  length recent = Nat.min (Z.to_nat limit) (length transactions)
  /\ StronglySorted
       (fun a b => Transaction.date b <= Transaction.date a) recent
  /\ exists rest,
       Permutation transactions (recent ++ rest)
       /\ Forall (fun a => Forall (fun b => Transaction.date b
                                            <= Transaction.date a) rest)
            recent.
Proof.
  intros Hl recent. subst recent. unfold getRecentTransactions, slice0.
  change (default 5 (Some limit)) with limit.
  destruct (Z.ltb_spec limit 0) as [|_]; [lia|].
  set (sorted := sort _ transactions).
  assert (Hp : Permutation sorted transactions) by apply sort_perm.
  assert (Hlen : length sorted = length transactions)
    by (apply Permutation_length; exact Hp).
  assert (Hs : StronglySorted
                 (fun a b => Transaction.date b <= Transaction.date a) sorted).
  { eapply sorted_impl;
      [|exact (sort_sorted (fun a => inject_Z (Transaction.date a))
                 transactions)].
    intros a b H. cbn beta in H. rewrite Zle_Qle. exact H. }
  set (n := Z.to_nat (Z.min limit (Z.of_nat (length sorted)))).
  destruct (sorted_split _ n sorted Hs) as [H1 H2].
  split.
  { rewrite length_firstn. unfold n. rewrite Hlen. lia. }
  split; [exact H1|].
  exists (skipn n sorted). split; [|exact H2].
  rewrite firstn_skipn. symmetry. exact Hp.
Qed.

Lemma getRecentTransactions_newest_first_witness :
  map Transaction.description
    (getRecentTransactions [Samples.lunch; Samples.salary; Samples.taxi]
       (Some 2))
  = ["January salary"; "Taxi"].
Proof.
  destruct (getRecentTransactions_newest_first
              [Samples.lunch; Samples.salary; Samples.taxi] 2 ltac:(lia))
    as (_ & _ & _).
  reflexivity.
Defined.

(** X20.  The breakdown [calculateSpendingByCategory] returns is sorted
    by amount, largest first, holds positive amounts only, and each of
    its items carries the id, the name and the colour of an expense
    category of the list. *)
Theorem spending_is_sorted_and_positive now transactions categories monthKey
    items :
  calculateSpendingByCategory now transactions categories monthKey
    = Some items ->
  StronglySorted (fun a b => (amount b <= amount a)%Q) items
  /\ Forall (fun item => (0 < amount item)%Q) items
  /\ Forall (fun item =>
               exists category,
                 In category categories
                 /\ Category.type category = expense
                 /\ categoryId item = Category.id category
                 /\ categoryName item = Category.name category
                 /\ color item = Category.color category) items.
Proof.
  unfold calculateSpendingByCategory.
  destruct (monthInterval _) as [[monthStart monthEnd]|]; [|discriminate].
  cbn [mbind option_bind]. intros [= <-].
  split; [apply (sort_sorted amount)|].
  match goal with
  | |- context [sort ?c ?l] =>
      pose proof (sort_perm c l) as Hp; set (sorted := sort c l) in *;
      set (unsorted := l) in *
  end.
  symmetry in Hp.
  split; apply (Permutation_Forall Hp); subst unsorted;
    apply Forall_forall; intros item Hi; apply list_elem_of_In in Hi;
    apply filter_In in Hi; destruct Hi as [Hi Hpos].
  - apply Qnot_le_lt. intros H. apply Qle_bool_iff in H.
    rewrite H in Hpos. discriminate.
  - apply in_map_iff in Hi. destruct Hi as (c & <- & Hc).
    apply filter_In in Hc. destruct Hc as [Hc Hty].
    exists c. cbn. split; [exact Hc|]. split; [|auto].
    destruct (Category.type c); [discriminate | reflexivity].
Qed.

Lemma spending_is_sorted_and_positive_witness :
  exists items,
    calculateSpendingByCategory 0 [Samples.lunch; Samples.taxi]
      [Category.mk "cat_food" "Food & Dining" "F" "#FF6B6B" expense None;
       Category.mk "cat_transport" "Transportation" "T" "#4ECDC4" expense
         None]
      (Some "2025-01") = Some items
    /\ map categoryId items = ["cat_transport"; "cat_food"]
    /\ Forall (fun item => (0 < amount item)%Q) items.
Proof.
  pose proof (spending_is_sorted_and_positive 0 [Samples.lunch; Samples.taxi]
                [Category.mk "cat_food" "Food & Dining" "F" "#FF6B6B" expense
                   None;
                 Category.mk "cat_transport" "Transportation" "T" "#4ECDC4"
                   expense None]
                (Some "2025-01")) as H.
  destruct (calculateSpendingByCategory _ _ _ _) as [items|] eqn:E.
  - exists items. split; [reflexivity|]. split.
    + vm_compute in E. injection E as <-. reflexivity.
    + apply (H items eq_refl).
  - vm_compute in E. discriminate.
Defined.

(** X21.  When the expense categories have distinct ids, every expense
    of the month is of one of them and none is negative, and something
    was spent, the amounts of the breakdown add up to the month's
    expenses and its percentages to 100. *)
Theorem spending_percentages_add_up now t transactions categories :
  100 <= getFullYear t <= 275000 ->
  let expenseCategories :=
    List.filter (fun cat => TransactionType_eqb (Category.type cat) expense)
      categories in
  let expenses :=
    List.filter
      (fun txn => TransactionType_eqb (Transaction.type txn) expense
                  && ((getFullYear (Transaction.date txn) =? getFullYear t)
                      && (getMonth (Transaction.date txn) =? getMonth t)))
      transactions in
  NoDup (map Category.id expenseCategories) ->
  Forall (fun txn =>
            (0 <= Transaction.amount txn)%Q
            /\ In (Transaction.categoryId txn)
                 (map Category.id expenseCategories)) expenses ->
  (0 < Qsum (map Transaction.amount expenses))%Q ->
  exists items,
    calculateSpendingByCategory now transactions categories
      (Some (getMonthKey t)) = Some items
    /\ (Qsum (map amount items) == Qsum (map Transaction.amount expenses))%Q
    /\ (Qsum (map percentage items) == 100)%Q.
Proof.
  intros Hy expenseCategories expenses Hnd Hall Hpos.
  unfold calculateSpendingByCategory, targetMonth.
  rewrite getMonthKey_truthy, (monthInterval_getMonthKey t Hy).
  cbn [mbind option_bind]. eexists. split; [reflexivity|].
  set (k := MonthIndex (Day t)).
  assert (HE : monthExpenses (MakeDate (MonthStart k) 0)
                 (MakeDate (MonthStart (k + 1)) 0 - 1) transactions
               = expenses).
  { subst expenses. unfold monthExpenses. apply filter_ext. intros txn.
    rewrite isWithinInterval_month. unfold k. rewrite MonthIndex_same.
    reflexivity. }
  rewrite HE. fold expenseCategories.
  set (T := Qsum (map Transaction.amount expenses)) in *.
  assert (HT : negb (Qle_bool T 0) = true).
  { destruct (Qle_bool T 0) eqn:E; [|reflexivity].
    apply Qle_bool_iff in E. lra. }
  rewrite HT.
  set (spent := fun category : Category.t =>
                  Qsum (map Transaction.amount
                          (List.filter
                             (fun txn => String.eqb (Transaction.categoryId txn)
                                           (Category.id category)) expenses))).
  set (item := fun category : Category.t =>
                 mkSpendingByCategory (Category.id category)
                   (Category.name category) (spent category)
                   (spent category / T * 100)%Q (Category.color category)).
  change (map _ expenseCategories) with (map item expenseCategories).
  match goal with
  | |- context [sort ?c ?l] =>
      pose proof (sort_perm c l) as Hp; set (sorted := sort c l) in *
  end.
  assert (Hamounts : Forall (fun txn => (0 <= Transaction.amount txn)%Q)
                       expenses).
  { eapply Forall_impl; [exact Hall|]. intros x [Hx _]. exact Hx. }
  assert (Hcats : Forall (fun txn => In (Transaction.categoryId txn)
                                       (map Category.id expenseCategories))
                    expenses).
  { eapply Forall_impl; [exact Hall|]. intros x [_ Hx]. exact Hx. }
  assert (Hsum : (Qsum (map amount sorted) == T)%Q).
  { rewrite (Qsum_perm _ _ (Permutation_map amount Hp)).
    rewrite (Qsum_filter_positive amount).
    2: { apply Forall_map. apply Forall_forall. intros c _. cbn.
         apply spent_nonneg. exact Hamounts. }
    rewrite map_map. cbn [item amount].
    apply (spent_partition expenseCategories Hnd expenses Hcats). }
  split; [exact Hsum|].
  rewrite (Qsum_perm _ _ (Permutation_map percentage Hp)).
  rewrite (Qsum_map_ext percentage (fun i => amount i * (100 / T))%Q).
  2: { intros i Hi. apply filter_In in Hi. destruct Hi as [Hi _].
       apply in_map_iff in Hi. destruct Hi as (c & <- & _). cbn.
       field. lra. }
  rewrite Qsum_map_scale.
  rewrite <- (Qsum_perm _ _ (Permutation_map amount Hp)), Hsum.
  field. lra.
Qed.

Lemma spending_percentages_add_up_witness :
  exists items,
    calculateSpendingByCategory 0
      [Samples.lunch; Samples.taxi; Samples.salary]
      [Category.mk "cat_food" "Food & Dining" "F" "#FF6B6B" expense None;
       Category.mk "cat_transport" "Transportation" "T" "#4ECDC4" expense
         None;
       Category.mk "cat_salary" "Salary" "S" "#2ECC71" income None]
      (Some (getMonthKey 1736000000000)) = Some items
    /\ (Qsum (map amount items)
        == Qsum (map Transaction.amount [Samples.lunch; Samples.taxi]))%Q
    /\ (Qsum (map percentage items) == 100)%Q.
Proof.
  apply (spending_percentages_add_up 0 1736000000000
           [Samples.lunch; Samples.taxi; Samples.salary]
           [Category.mk "cat_food" "Food & Dining" "F" "#FF6B6B" expense None;
            Category.mk "cat_transport" "Transportation" "T" "#4ECDC4"
              expense None;
            Category.mk "cat_salary" "Salary" "S" "#2ECC71" income None]).
  - vm_compute. split; discriminate.
  - cbn. apply NoDup_cons. split.
    + intros H. apply list_elem_of_In in H. destruct H as [H|[]].
      discriminate.
    + apply NoDup_singleton.
  - repeat constructor; cbn; auto; discriminate.
  - vm_compute. reflexivity.
Defined.

End FormatterProperties.

(* ================================================================== *)
(** * The screens *)

Module FormFacts.
Import Ieee Ieee.Store Ieee.AddTransactionScreen.
Import Exact.AddTransactionScreen(Form, mkForm, amount, type,
  selectedCategoryId, description).

Lemma selection_has_the_type categories events :
  let form := formAfter categories events in
  selectedCategoryId form = ""
  \/ exists category,
       In category categories
       /\ Category.id category = selectedCategoryId form
       /\ Category.type category = type form.
Proof.
  unfold formAfter. rewrite <- fold_left_rev_right.
  induction (rev events) as [|e l IH]; cbn [fold_right]; [left; reflexivity|].
  cbv zeta in IH. set (form := fold_right _ _ l) in *.
  destruct e; cbn [handle selectedCategoryId type]; auto.
  destruct (nth_error _ _) as [category|] eqn:E; [|exact IH].
  right. exists category. apply nth_error_In in E.
  apply filter_In in E. destruct E as [Hin Hty].
  cbn [selectedCategoryId type]. split; [exact Hin|]. split; [reflexivity|].
  destruct (Category.type category), (type form);
    (reflexivity || discriminate).
Qed.

End FormFacts.

Section FormProperties.
Import Ieee Ieee.Store Ieee.AddTransactionScreen DoubleStoreFacts DoubleFacts
  FormFacts.
Import Exact.AddTransactionScreen(Form, mkForm, amount, type,
  selectedCategoryId, description, navigation_goBack).

Variable parseFloat : string -> float.

(** X22.  Whatever the user does on the add-transaction screen before
    saving, a save that goes through puts first in the list a record
    whose amount is what [parseFloat] makes of the amount text, which is
    above zero or, for a text that is not a number, NaN; the record is
    dated at the save, under a category of the store that has the type
    of the record. *)
Theorem handleSave_saves_a_categorised_amount_above_zero_or_NaN env date_now
    events w w' :
  handleSave parseFloat env date_now
    (formAfter (categories (state w)) events) w
    = (navigation_goBack, w') ->
  exists txn category,
    transactions (state w') = txn :: transactions (state w)
    /\ Transaction.amount txn
       = parseFloat (amount (formAfter (categories (state w)) events))
    /\ ((0 <? Transaction.amount txn)%float = true
        \/ is_nan (Transaction.amount txn) = true)
    /\ In category (categories (state w))
    /\ Transaction.categoryId txn = Category.id category
    /\ Transaction.type txn = Category.type category
    /\ Transaction.date txn = date_now.
Proof.
  pose proof (selection_has_the_type (categories (state w)) events) as Hsel.
  cbv zeta in Hsel. set (form := formAfter _ events) in *.
  unfold handleSave, invalidAmount.
  destruct (String.eqb_spec (amount form) "") as [|_]; [discriminate|].
  cbn [orb].
  destruct (parseFloat (amount form) <=? 0)%float eqn:Epos; [discriminate|].
  destruct (String.eqb_spec (selectedCategoryId form) "") as [|Hne];
    [discriminate|].
  destruct (find _ _) as [found|] eqn:Ef; [|discriminate].
  intros [= <-].
  destruct Hsel as [Hsel | (category & Hin & Hid & Hty)]; [contradiction|].
  eexists _, category. rewrite transactions_addTransaction_doubles.
  split; [reflexivity|]. cbn [newTransaction Transaction.amount
    Transaction.categoryId Transaction.type Transaction.date
    TransactionData.amount TransactionData.categoryId TransactionData.type
    TransactionData.date].
  split; [reflexivity|].
  split; [apply not_leb_0; exact Epos|].
  auto.
Qed.

End FormProperties.

Section FormExamples.
Import Ieee Ieee.Store Ieee.AddTransactionScreen Ieee.Samples.
Import Exact.AddTransactionScreen(navigation_goBack).

Lemma handleSave_saves_a_categorised_amount_above_zero_or_NaN_witness :
  exists w' txn,
    handleSave parseWhole env0 1736300000000
      (formAfter (categories (state fresh))
         [onPressIncome; onChangeAmount "12"; onPressCategory 0])
      fresh = (navigation_goBack, w')
    /\ transactions (state w') = [txn]
    /\ Transaction.amount txn = 12%float
    /\ Transaction.type txn = income.
Proof.
  destruct (handleSave parseWhole env0 1736300000000
              (formAfter (categories (state fresh))
                 [onPressIncome; onChangeAmount "12"; onPressCategory 0])
              fresh) as [[title message|] w'] eqn:E.
  - vm_compute in E. discriminate.
  - destruct (handleSave_saves_a_categorised_amount_above_zero_or_NaN
                parseWhole env0 1736300000000
                [onPressIncome; onChangeAmount "12"; onPressCategory 0]
                fresh w' E)
      as (txn & category & Ht & Ha & _ & _ & _ & _ & _).
    exists w', txn. split; [reflexivity|]. split; [exact Ht|].
    split; [rewrite Ha; vm_compute; reflexivity|].
    unfold handleSave in E. vm_compute in E. injection E as <-.
    cbn in Ht. injection Ht as <-. reflexivity.
Defined.

End FormExamples.

Section EditBudgetProperties.
Import Ieee Ieee.Store Ieee.EditBudgetScreen Formatters.

Variable parseFloat : string -> float.

(** X23.  [handleSave] of the edit-budget screen either raises the
    alert and leaves the store as it is, or replaces the budget of the
    current month by one with the limits of the form, whose sum, added
    as the program adds them (doubles, in the order of the list, from
    0), is not above its total; the budget keeps the id the month's
    budget had, when it had one. *)
Theorem EditBudget_handleSave_saves_unless_the_sum_is_above_the_total
    render_now Date_now totalBudget categoryBudgets w :
  let currentMonth := getCurrentMonthKey render_now in
  let others :=
    List.filter (fun b => negb (String.eqb (Budget.month b) currentMonth))
      (budgets (state w)) in
  match handleSave parseFloat render_now Date_now totalBudget categoryBudgets
          w with
  | (Alert_Budget_Exceeded, w') =>
      w' = w
      /\ (or_0 (parseFloat totalBudget)
          <? sum (map CategoryBudget.limit categoryBudgets))%float = true
  | (Alert_Success_goBack, w') =>
      exists b,
        budgets (state w') = others ++ [b]
        /\ Budget.month b = currentMonth
        /\ Budget.totalBudget b = or_0 (parseFloat totalBudget)
        /\ Budget.categoryBudgets b = categoryBudgets
        /\ (Budget.totalBudget b
            <? sum (map CategoryBudget.limit (Budget.categoryBudgets b)))%float
           = false
        /\ forall b0,
             find (fun b => String.eqb (Budget.month b) currentMonth)
               (budgets (state w)) = Some b0 ->
             Budget.id b0 <> "" -> Budget.id b = Budget.id b0
  end.
Proof.
  intros currentMonth others. unfold handleSave. fold currentMonth.
  destruct (_ <? _)%float eqn:E; [split; reflexivity|].
  eexists. split.
  { unfold setBudget. destruct (signedInUser _); reflexivity. }
  split; [reflexivity|]. split; [reflexivity|]. split; [reflexivity|]. split.
  { exact E. }
  intros b0 Hb0 Hne. cbn [Budget.id]. rewrite Hb0.
  unfold JsString.truthy.
  destruct (String.eqb_spec (Budget.id b0) ""); [contradiction|].
  reflexivity.
Qed.

End EditBudgetProperties.

Section EditBudgetExamples.
Import Ieee Ieee.Store Ieee.EditBudgetScreen Ieee.Samples.

(** Limits of 0.01 and 2.04 against a total of 2.05: the sum of the
    two doubles is above the double of the total, but added as doubles
    it is rounded onto it, and the budget is saved. *)
Example EditBudget_handleSave_adds_in_doubles :
  (exists a b t : Q,
     exactly 0.01 = Some a /\ exactly 2.04 = Some b /\ exactly 2.05 = Some t
     /\ (t < a + b)%Q)
  /\ fst (handleSave (fun _ => 2.05%float) 1736300000000 1736300000000 "2.05"
            [CategoryBudget.mk "cat_food" 0.01 0;
             CategoryBudget.mk "cat_travel" 2.04 0] fresh)
     = Alert_Success_goBack.
Proof.
  split.
  - eexists _, _, _. split; [vm_compute; reflexivity|].
    split; [vm_compute; reflexivity|]. split; [vm_compute; reflexivity|].
    vm_compute. reflexivity.
  - assert (H : (or_0 2.05 <? sum [0.01; 2.04])%float = false)
      by (vm_compute; reflexivity).
    unfold handleSave.
    cbn [map CategoryBudget.limit]. rewrite H. reflexivity.
Qed.

End EditBudgetExamples.

(* ================================================================== *)
(** * The Firestore service *)

Module IsoOrderFacts.
Import Calendar CalendarFacts Iso8601 Iso8601Facts.

Lemma compare_digit x y :
  0 <= x <= 9 -> 0 <= y <= 9 ->
  Ascii.compare (digit x) (digit y) = Z.compare x y.
Proof.
  intros Hx Hy.
  assert (x = 0 \/ x = 1 \/ x = 2 \/ x = 3 \/ x = 4 \/ x = 5 \/ x = 6
          \/ x = 7 \/ x = 8 \/ x = 9) as Hcx by lia.
  assert (y = 0 \/ y = 1 \/ y = 2 \/ y = 3 \/ y = 4 \/ y = 5 \/ y = 6
          \/ y = 7 \/ y = 8 \/ y = 9) as Hcy by lia.
  repeat (destruct Hcx as [-> | Hcx]);
    repeat (destruct Hcy as [-> | Hcy]); subst; reflexivity.
Qed.

Lemma compare_head c r1 r2 :
  String.compare (String c r1) (String c r2) = String.compare r1 r2.
Proof.
  cbn [String.compare].
  replace (Ascii.compare c c) with Eq; [reflexivity|].
  symmetry. unfold Ascii.compare. apply N.compare_refl.
Qed.

Lemma compare_pad w :
  forall a b r1 r2,
    String.compare (pad w a +:+ r1) (pad w b +:+ r2)
    = match Z.compare (a mod 10 ^ Z.of_nat w) (b mod 10 ^ Z.of_nat w) with
      | Eq => String.compare r1 r2
      | c => c
      end.
Proof.
  induction w as [|w IH]; intros a b r1 r2.
  - change (10 ^ Z.of_nat 0) with 1. rewrite !Z.mod_1_r. reflexivity.
  - change (pad (S w) a)
      with (String (digit ((a / 10 ^ Z.of_nat w) mod 10)) (pad w a)).
    change (pad (S w) b)
      with (String (digit ((b / 10 ^ Z.of_nat w) mod 10)) (pad w b)).
    rewrite !append_String. cbn [String.compare].
    assert (Hp : 0 < 10 ^ Z.of_nat w) by (apply Z.pow_pos_nonneg; lia).
    pose proof (Z.mod_pos_bound (a / 10 ^ Z.of_nat w) 10 ltac:(lia)) as Ha.
    pose proof (Z.mod_pos_bound (b / 10 ^ Z.of_nat w) 10 ltac:(lia)) as Hb.
    pose proof (Z.mod_pos_bound a (10 ^ Z.of_nat w) Hp) as Ha0.
    pose proof (Z.mod_pos_bound b (10 ^ Z.of_nat w) Hp) as Hb0.
    rewrite compare_digit by lia. rewrite IH.
    rewrite Nat2Z.inj_succ, Z.pow_succ_r by lia.
    rewrite (Z.mul_comm 10 (10 ^ Z.of_nat w)).
    rewrite !(Z.rem_mul_r _ (10 ^ Z.of_nat w) 10) by lia.
    set (P := 10 ^ Z.of_nat w) in *.
    set (ah := (a / P) mod 10) in *. set (bh := (b / P) mod 10) in *.
    set (al := a mod P) in *. set (bl := b mod P) in *.
    destruct (Z.compare_spec ah bh) as [E|E|E].
    + rewrite E.
      destruct (Z.compare_spec al bl) as [E'|E'|E'].
      * rewrite E'. rewrite Z.compare_refl. reflexivity.
      * replace (al + P * bh ?= bl + P * bh) with Lt; [reflexivity|].
        symmetry. apply Z.compare_lt_iff. lia.
      * replace (al + P * bh ?= bl + P * bh) with Gt; [reflexivity|].
        symmetry. apply Z.compare_gt_iff. lia.
    + replace (al + P * ah ?= bl + P * bh) with Lt; [reflexivity|].
      symmetry. apply Z.compare_lt_iff. nia.
    + replace (al + P * ah ?= bl + P * bh) with Gt; [reflexivity|].
      symmetry. apply Z.compare_gt_iff. nia.
Qed.

Lemma compare_pad_small w a b r1 r2 :
  0 <= a < 10 ^ Z.of_nat w -> 0 <= b < 10 ^ Z.of_nat w ->
  String.compare (pad w a +:+ r1) (pad w b +:+ r2)
  = match Z.compare a b with
    | Eq => String.compare r1 r2
    | c => c
    end.
Proof. intros Ha Hb. rewrite compare_pad, !Z.mod_small by lia. reflexivity. Qed.

End IsoOrderFacts.

Section IsoOrder.
Import Calendar CalendarFacts Iso8601 Iso8601Facts FirestoreDates IsoOrderFacts.

(** X24.  For the years 0 to 9999 the texts [dateToISO] stores compare,
    character by character, as the instants they stand for: the order
    [orderBy('date', 'desc')] gives the documents is newest first. *)
Theorem iso_texts_order_as_the_instants t1 t2 :
  0 <= getFullYear t1 <= 9999 ->
  0 <= getFullYear t2 <= 9999 ->
  String.compare (dateToISO t1) (dateToISO t2) = Z.compare t1 t2.
Proof.
  unfold dateToISO, toISOString, getFullYear, year_text. intros Hy1 Hy2.
  destruct (Z.leb_spec 0 (YearFromTime t1)); [|lia].
  destruct (Z.leb_spec (YearFromTime t1) 9999); [|lia].
  destruct (Z.leb_spec 0 (YearFromTime t2)); [|lia].
  destruct (Z.leb_spec (YearFromTime t2) 9999); [|lia].
  cbn [andb].
  pose proof (MonthFromDay_range (Day t1)) as Hm1.
  pose proof (MonthFromDay_range (Day t2)) as Hm2.
  pose proof (DateFromDay_range (Day t1)) as Hd1.
  pose proof (DateFromDay_range (Day t2)) as Hd2.
  pose proof (MonthStart_step (MonthIndex (Day t1))) as Hs1.
  pose proof (MonthStart_step (MonthIndex (Day t2))) as Hs2.
  pose proof (MonthIndex_bracket (Day t1)) as Hb1.
  pose proof (MonthIndex_bracket (Day t2)) as Hb2.
  pose proof (DateFromDay_MonthStart (Day t1)) as He1.
  pose proof (DateFromDay_MonthStart (Day t2)) as He2.
  pose proof (MakeTime_fields t1) as Hw1.
  pose proof (MakeTime_fields t2) as Hw2.
  pose proof (MakeDate_Day t1) as Ht1.
  pose proof (MakeDate_Day t2) as Ht2.
  pose proof (TimeWithinDay_range t1) as Hr1.
  pose proof (TimeWithinDay_range t2) as Hr2.
  assert (Hmono : forall k k', k < k' -> MonthStart (k + 1) <= MonthStart k').
  { intros k k' Hk. pose proof (MonthStart_mono (k + 1) (k' - (k + 1))
                                  ltac:(lia)) as Hmm.
    replace (k + 1 + (k' - (k + 1))) with k' in Hmm by lia. lia. }
  pose proof (Hmono (MonthIndex (Day t1)) (MonthIndex (Day t2))) as Hlt.
  pose proof (Hmono (MonthIndex (Day t2)) (MonthIndex (Day t1))) as Hgt.
  assert (Heq : MonthIndex (Day t1) = MonthIndex (Day t2) ->
                MonthStart (MonthIndex (Day t1))
                = MonthStart (MonthIndex (Day t2))) by congruence.
  clear Hmono.
  unfold MonthIndex in Hlt, Hgt, Heq.
  unfold YearFromTime, MonthFromTime, DateFromTime in *.
  assert (Hh1 : 0 <= HourFromTime t1 < 24)
    by (unfold HourFromTime; apply Z.mod_pos_bound; lia).
  assert (Hh2 : 0 <= HourFromTime t2 < 24)
    by (unfold HourFromTime; apply Z.mod_pos_bound; lia).
  assert (Hi1 : 0 <= MinFromTime t1 < 60)
    by (unfold MinFromTime; apply Z.mod_pos_bound; lia).
  assert (Hi2 : 0 <= MinFromTime t2 < 60)
    by (unfold MinFromTime; apply Z.mod_pos_bound; lia).
  assert (Hc1 : 0 <= SecFromTime t1 < 60)
    by (unfold SecFromTime; apply Z.mod_pos_bound; lia).
  assert (Hc2 : 0 <= SecFromTime t2 < 60)
    by (unfold SecFromTime; apply Z.mod_pos_bound; lia).
  assert (Hl1 : 0 <= msFromTime t1 < 1000)
    by (unfold msFromTime, msPerSecond; apply Z.mod_pos_bound; lia).
  assert (Hl2 : 0 <= msFromTime t2 < 1000)
    by (unfold msFromTime, msPerSecond; apply Z.mod_pos_bound; lia).
  unfold MakeTime, MakeDate, msPerDay, msPerHour, msPerMinute, msPerSecond
    in *.
  unfold MonthIndex in *.
  set (y1 := YearFromDay (Day t1)) in *. set (y2 := YearFromDay (Day t2)) in *.
  set (m1 := MonthFromDay (Day t1)) in *. set (m2 := MonthFromDay (Day t2)) in *.
  set (d1 := DateFromDay (Day t1)) in *. set (d2 := DateFromDay (Day t2)) in *.
  set (h1 := HourFromTime t1) in *. set (h2 := HourFromTime t2) in *.
  set (i1 := MinFromTime t1) in *. set (i2 := MinFromTime t2) in *.
  set (c1 := SecFromTime t1) in *. set (c2 := SecFromTime t2) in *.
  set (l1 := msFromTime t1) in *. set (l2 := msFromTime t2) in *.
  set (S1 := MonthStart (12 * y1 + m1)) in *.
  set (S2 := MonthStart (12 * y2 + m2)) in *.
  set (N1 := MonthStart (12 * y1 + m1 + 1)) in *.
  set (N2 := MonthStart (12 * y2 + m2 + 1)) in *.
  set (D1 := Day t1) in *. set (D2 := Day t2) in *.
  set (w1 := TimeWithinDay t1) in *. set (w2 := TimeWithinDay t2) in *.
  repeat
    (first
       [ rewrite (compare_pad_small 4)
           by (change (10 ^ Z.of_nat 4) with 10000; lia)
       | rewrite (compare_pad_small 3)
           by (change (10 ^ Z.of_nat 3) with 1000; lia)
       | rewrite (compare_pad_small 2)
           by (change (10 ^ Z.of_nat 2) with 100; lia)
       | match goal with
         | |- context [String.compare (String ?c ?a +:+ ?r) _] =>
             change (String c a +:+ r) with (String c (a +:+ r))
         | |- context [String.compare _ (String ?c ?a +:+ ?r)] =>
             change (String c a +:+ r) with (String c (a +:+ r))
         | |- context [String.compare ("" +:+ ?r) _] =>
             change ("" +:+ r) with r
         | |- context [String.compare _ ("" +:+ ?r)] =>
             change ("" +:+ r) with r
         end
       | rewrite compare_head
       | match goal with
         | |- context [match (?a ?= ?b) with _ => _ end] =>
             destruct (Z.compare_spec a b)
         end ]);
    try (symmetry; first
           [ apply Z.compare_lt_iff; lia
           | apply Z.compare_gt_iff; lia
           | apply Z.compare_eq_iff; lia ]).
Qed.

Lemma iso_texts_order_as_the_instants_witness :
  String.compare (dateToISO 1736000000000) (dateToISO 1736100000000) = Lt.
Proof.
  rewrite (iso_texts_order_as_the_instants 1736000000000 1736100000000).
  - reflexivity.
  - vm_compute. split; discriminate.
  - vm_compute. split; discriminate.
Defined.

End IsoOrder.

Module FirestoreCategoryFacts.
Import JsArray SortFacts Store StoreActions FirestoreCategories.

Lemma syncCategories_other userId id categories :
  forall docs,
    Forall (fun category => Category.id category <> id) categories ->
    syncCategories userId categories docs !! (userId, id)
    = docs !! (userId, id).
Proof.
  unfold syncCategories.
  induction categories as [|c cats IH]; intros docs H; [reflexivity|].
  cbn [fold_left]. apply Forall_cons in H as [Hc H].
  rewrite IH by exact H. unfold setDoc. apply lookup_insert_ne. congruence.
Qed.

Lemma getCategories_holds userId id data docs :
  docs !! (userId, id) = Some data ->
  exists category,
    In category (getCategories userId docs) /\ Category.id category = id.
Proof.
  intros H. unfold getCategories, getDocs.
  eexists. split.
  - apply in_map_iff. exists (id, data). split; [reflexivity|].
    apply list_elem_of_In.
    match goal with
    | |- _ ∈ sort ?c ?l => rewrite (sort_perm c l)
    end.
    apply list_elem_of_omap. exists ((userId, id), data).
    split; [apply elem_of_map_to_list; exact H|].
    cbn. rewrite String.eqb_refl. reflexivity.
  - reflexivity.
Qed.

Lemma deleteCategory_signed_in id w uid :
  signedInUser w = Some uid ->
  deleteCategory id w
  = call (Store.syncCategories uid
            (List.filter (fun cat => negb (String.eqb (Category.id cat) id))
               (categories (state w))))
      (saveData
         (set_categories
            (List.filter (fun cat => negb (String.eqb (Category.id cat) id)))
            w)).
Proof.
  intros Hu. unfold deleteCategory.
  assert (Hu' : signedInUser
                  (saveData
                     (set_categories
                        (List.filter
                           (fun cat => negb (String.eqb (Category.id cat) id)))
                        w)) = Some uid) by exact Hu.
  rewrite Hu'. reflexivity.
Qed.

Lemma categories_syncWithFirestore remote w uid :
  signedInUser w = Some uid ->
  firestoreCategories remote <> [] ->
  categories (state (syncWithFirestore remote w)) = firestoreCategories remote.
Proof.
  intros Hu Hr. unfold syncWithFirestore. rewrite Hu.
  destruct (firestoreCategories remote) as [|c0 cs] eqn:E; [congruence|].
  match goal with
  | |- context [fold_left ?f ?l ?w0] =>
      destruct (ActionFacts.state_push_each uid l w0) as (Hs & _ & _)
  end.
  cbn [isEmpty negb andb] in *. rewrite andb_false_r.
  destruct (negb (isEmpty (transactions _)) && _); [rewrite Hs|];
    reflexivity.
Qed.

End FirestoreCategoryFacts.

Section FirestoreCategoryProperties.
Import JsArray SortFacts Store StoreActions FirestoreCategories
  FirestoreCategoryFacts Samples.

(** X25.  A category deleted by a signed-in user is gone from the store
    but not from Firestore: the call [deleteCategory] issues rewrites
    the categories that remain and leaves the document of the deleted
    one, so that the next merge, which takes the remote categories,
    brings the category back. *)
Theorem deleted_category_comes_back w uid id data docs :
  signedInUser w = Some uid ->
  docs !! (uid, id) = Some data ->
  let w1 := deleteCategory id w in
  let docs1 := fold_left (fun docs c => run c docs)
                 (drop (length (firestore w)) (firestore w1)) docs in
  Forall (fun category => Category.id category <> id) (categories (state w1))
  /\ docs1 !! (uid, id) = Some data
  /\ forall txs buds sets,
       let w2 := syncWithFirestore
                   (mkFetched txs (getCategories uid docs1) buds sets) w1 in
       exists category,
         In category (categories (state w2)) /\ Category.id category = id.
Proof.
  intros Hu Hd w1 docs1.
  assert (Hgone : Forall (fun category => Category.id category <> id)
                    (categories (state w1))).
  { subst w1. rewrite (deleteCategory_signed_in id w uid Hu).
    cbn [call state saveData AsyncStorage_setItem set_categories categories].
    apply Forall_forall. intros c Hc. apply list_elem_of_In in Hc.
    apply filter_In in Hc. destruct Hc as [_ Hc].
    destruct (String.eqb_spec (Category.id c) id); [discriminate | assumption]. }
  assert (Hlog : firestore w1
                 = firestore w
                   ++ [Store.syncCategories uid (categories (state w1))]).
  { subst w1. rewrite (deleteCategory_signed_in id w uid Hu). reflexivity. }
  assert (Hdocs : docs1 !! (uid, id) = Some data).
  { subst docs1. rewrite Hlog, drop_app_length. cbn [fold_left run].
    rewrite syncCategories_other by exact Hgone. exact Hd. }
  split; [exact Hgone|]. split; [exact Hdocs|].
  intros txs buds sets w2.
  destruct (getCategories_holds uid id data docs1 Hdocs) as (c & Hc & Hid).
  exists c. split; [|exact Hid].
  assert (Hu1 : signedInUser w1 = Some uid).
  { subst w1. rewrite (deleteCategory_signed_in id w uid Hu). exact Hu. }
  subst w2. rewrite (categories_syncWithFirestore _ w1 uid Hu1).
  - exact Hc.
  - cbn [firestoreCategories]. intros E. rewrite E in Hc. destruct Hc.
Qed.

Lemma deleted_category_comes_back_witness :
  Forall (fun category => Category.id category <> "cat_food")
    (categories (state (deleteCategory "cat_food" signedIn))).
Proof.
  apply (deleted_category_comes_back signedIn "user_1" "cat_food"
           (Category.mk "cat_food" "Food & Dining" "F" "#FF6B6B" expense None)
           (<[("user_1", "cat_food")
              := Category.mk "cat_food" "Food & Dining" "F" "#FF6B6B" expense
                   None]> ∅)).
  - reflexivity.
  - apply lookup_insert_eq.
Defined.

End FirestoreCategoryProperties.

(* ================================================================== *)
(** * The export filter *)

Module ExportFacts.

Lemma filter_filter_and {A} (p q : A -> bool) l :
  List.filter q (List.filter p l) = List.filter (fun x => p x && q x) l.
Proof.
  induction l as [|x l IH]; cbn [List.filter]; [reflexivity|].
  destruct (p x); cbn [List.filter andb]; [|exact IH].
  destruct (q x); rewrite IH; reflexivity.
Qed.

Lemma filter_all_true {A} (l : list A) : List.filter (fun _ => true) l = l.
Proof. induction l as [|x l IH]; cbn; [|rewrite IH]; reflexivity. Qed.

End ExportFacts.

Section ExportProperties.
Import JsArray SortFacts DataExport ExportFacts.

(** X26.  [filterTransactions] returns, newest first, the transactions
    that are within the date range (both ends included), of one of the
    listed categories and of the asked type; a range left out, a list
    of categories left out or empty, and a type left out or [all] each
    let every transaction through. *)
Theorem filterTransactions_selects_and_sorts transactions options :
  let inRange t :=
    match dateRange options with
    | Some (start, end_) =>
        (start <=? Transaction.date t) && (Transaction.date t <=? end_)
    | None => true
    end in
  let inCategories t :=
    match categoryIds options with
    | Some (id :: ids) =>
        existsb (String.eqb (Transaction.categoryId t)) (id :: ids)
    | _ => true
    end in
  let ofType t :=
    match transactionType options with
    | Some (only type) => TransactionType_eqb (Transaction.type t) type
    | _ => true
    end in
  Permutation (filterTransactions transactions options)
    (List.filter (fun t => inRange t && inCategories t && ofType t)
       transactions)
  /\ StronglySorted
       (fun a b => Transaction.date b <= Transaction.date a)
       (filterTransactions transactions options).
Proof.
  intros inRange inCategories ofType. unfold filterTransactions. split.
  - rewrite sort_perm.
    assert (H1 : match dateRange options with
                 | Some (start, end_) =>
                     List.filter
                       (fun t => (start <=? Transaction.date t)
                                 && (Transaction.date t <=? end_))
                       transactions
                 | None => transactions
                 end = List.filter inRange transactions).
    { subst inRange. destruct (dateRange options) as [[start end_]|];
        [reflexivity | rewrite filter_all_true; reflexivity]. }
    rewrite H1.
    assert (H2 : match categoryIds options with
                 | Some (id :: ids) =>
                     List.filter
                       (fun t => existsb
                                   (String.eqb (Transaction.categoryId t))
                                   (id :: ids))
                       (List.filter inRange transactions)
                 | _ => List.filter inRange transactions
                 end
                 = List.filter inCategories
                     (List.filter inRange transactions)).
    { subst inCategories. destruct (categoryIds options) as [[|id ids]|];
        try reflexivity; rewrite filter_all_true; reflexivity. }
    rewrite H2.
    assert (H3 : match transactionType options with
                 | Some (only type) =>
                     List.filter
                       (fun t => TransactionType_eqb (Transaction.type t) type)
                       (List.filter inCategories
                          (List.filter inRange transactions))
                 | _ => List.filter inCategories
                          (List.filter inRange transactions)
                 end
                 = List.filter ofType
                     (List.filter inCategories
                        (List.filter inRange transactions))).
    { subst ofType. destruct (transactionType options) as [[type|]|];
        try reflexivity; rewrite filter_all_true; reflexivity. }
    rewrite H3, !filter_filter_and.
    rewrite (filter_ext _ (fun t => inRange t && inCategories t && ofType t));
      [reflexivity|].
    intros t. destruct (inRange t), (inCategories t), (ofType t); reflexivity.
  - eapply sorted_impl;
      [|exact (sort_sorted (fun a => inject_Z (Transaction.date a)) _)].
    intros a b H. cbn beta in H. rewrite Zle_Qle. exact H.
Qed.

End ExportProperties.
